(** * my-ops adapters: envelope protocol, mail / notes / calendar routers

    A shallow embedding of the three adapter scripts of
    [extensions/my-ops/bin]:

    - [himalaya-mail-adapter.js]   (module [Mail]),
    - [mowen-api-adapter.js]       (module [Notes]),
    - the macOS calendar adapter   (module [Calendar]: its Node entry point
      and the JXA script it pipes into [osascript]).

    JavaScript values are the inductive type [Js.value]; objects are
    association lists in insertion order.  Every adapter is a short-lived
    process: it reads one envelope, talks to its backend, writes one JSON
    document and exits.  Effects are modelled by an exception/exit/state
    monad over an explicit world (files, the log of backend calls); what
    the host provides (environment variables, the spawned backend, SHA-256,
    [JSON.parse], the clock, the time zone) is a record of the world's
    laws, never fixed by the model.

    Modelling conventions, stated once:
    - strings are byte strings holding UTF-8; [trim] strips the ASCII
      white space characters (Unicode white space is outside the model);
      where the code cuts a string at a number of UTF-16 code units, the
      units are counted on the encoded characters ([Notes.sliceUnits]);
    - JSON numbers are integers ([Z]); fractions, [NaN] and infinities are
      outside the model, so [Number.isFinite] is always true and
      [Math.floor] / [Math.trunc] are the identity;
    - a JSON file is kept in parsed form: reading back what was written
      yields the same value, and a missing or unparsable file reads as
      [None];
    - writing a file succeeds. *)

From Stdlib Require Import String Ascii List ZArith Lia Bool DecimalString Permutation.
Import ListNotations.

Local Open Scope string_scope.
Local Open Scope list_scope.

(** ** JavaScript values and the helpers shared by the three scripts *)

Module Js.

#[local] Set Warnings "-register-all".

Inductive value : Type :=
| JUndef
| JNull
| JBool (b : bool)
| JNum (n : Z)
| JStr (s : string)
| JArr (items : list value)
| JObj (fields : list (string * value)).

Definition obj := list (string * value).

(** [o[k]] on the field list of an object. *)
Fixpoint get (k : string) (o : obj) : value :=
  match o with
  | [] => JUndef
  | (k', v) :: rest => if String.eqb k k' then v else get k rest
  end.

(** [o[k] = v]: replaces in place, or appends a new key. *)
Fixpoint set (k : string) (v : value) (o : obj) : obj :=
  match o with
  | [] => [(k, v)]
  | (k', v') :: rest =>
      if String.eqb k k' then (k', v) :: rest else (k', v') :: set k v rest
  end.

(** [{ ...a, ...b }] *)
Definition spread (a b : obj) : obj :=
  fold_left (fun acc kv => set (fst kv) (snd kv) acc) b a.

(** [v.k] where [v] is known not to be [null]/[undefined]; a property of a
    primitive or of an array that is not an index is [undefined]. *)
Definition prop (v : value) (k : string) : value :=
  match v with
  | JObj o => get k o
  | _ => JUndef
  end.

Definition hasOwn (v : value) (k : string) : bool :=
  match v with
  | JObj o => existsb (fun kv => String.eqb k (fst kv)) o
  | _ => false
  end.

Definition isRecord (v : value) : bool :=
  match v with
  | JObj _ => true
  | _ => false
  end.

(** [a ?? b] *)
Definition nullish {A : Type} (a : option A) (b : A) : A :=
  match a with
  | Some x => x
  | None => b
  end.

Definition isSome {A : Type} (o : option A) : bool :=
  match o with
  | Some _ => true
  | None => false
  end.

(** [a ?? b] where [b] may be undefined as well. *)
Definition orElse {A : Type} (a b : option A) : option A :=
  match a with
  | Some _ => a
  | None => b
  end.

Fixpoint lookup {A : Type} (k : string) (l : list (string * A)) : option A :=
  match l with
  | [] => None
  | (k', a) :: rest => if String.eqb k k' then Some a else lookup k rest
  end.

(** JavaScript truthiness ([Boolean(v)], [if (v)], [v ? a : b]). *)
Definition truthy (v : value) : bool :=
  match v with
  | JUndef | JNull => false
  | JBool b => b
  | JNum n => negb (n =? 0)%Z
  | JStr s => negb (String.eqb s "")
  | JArr _ | JObj _ => true
  end.

(** *** Strings *)

Definition is_ws (c : ascii) : bool :=
  let n := nat_of_ascii c in
  Nat.eqb n 32 || (Nat.leb 9 n && Nat.leb n 13).

Fixpoint trimStart (s : string) : string :=
  match s with
  | String c r => if is_ws c then trimStart r else s
  | EmptyString => EmptyString
  end.

Definition reverse (s : string) : string :=
  string_of_list_ascii (rev (list_ascii_of_string s)).

Definition trim (s : string) : string :=
  reverse (trimStart (reverse (trimStart s))).

Definition lower (c : ascii) : ascii :=
  let n := nat_of_ascii c in
  if Nat.leb 65 n && Nat.leb n 90 then ascii_of_nat (n + 32) else c.

Fixpoint toLowerCase (s : string) : string :=
  match s with
  | String c r => String (lower c) (toLowerCase r)
  | EmptyString => EmptyString
  end.

Fixpoint startsWith (p s : string) : bool :=
  match p, s with
  | EmptyString, _ => true
  | String a p', String b s' => Ascii.eqb a b && startsWith p' s'
  | String _ _, EmptyString => false
  end.

(** [hay.indexOf(needle) >= 0] *)
Fixpoint includes (needle hay : string) : bool :=
  startsWith needle hay
  || match hay with
     | String _ r => includes needle r
     | EmptyString => false
     end.

Definition digit_val (c : ascii) : option Z :=
  let n := nat_of_ascii c in
  if Nat.leb 48 n && Nat.leb n 57 then Some (Z.of_nat (n - 48)) else None.

Definition is_digit (c : ascii) : bool :=
  match digit_val c with
  | Some _ => true
  | None => false
  end.

Fixpoint digits_prefix (s : string) (acc : option Z) : option Z :=
  match s with
  | String c r =>
      match digit_val c with
      | Some d => digits_prefix r (Some (10 * nullish acc 0 + d)%Z)
      | None => acc
      end
  | EmptyString => acc
  end.

(** [Number.parseInt(s, 10)]; [None] is [NaN]. *)
Definition parseInt (s : string) : option Z :=
  match trimStart s with
  | String "-" r => option_map Z.opp (digits_prefix r None)
  | String "+" r => digits_prefix r None
  | t => digits_prefix t None
  end.

(** [String(n)] for an integer. *)
Definition stringOfInt (n : Z) : string :=
  NilZero.string_of_int (Z.to_int n).

Fixpoint join (sep : string) (l : list string) : string :=
  match l with
  | [] => ""
  | [x] => x
  | x :: rest => x ++ sep ++ join sep rest
  end.

(** *** The [read*] helpers (identical in the three scripts) *)

Definition readString (v : value) : option string :=
  match v with
  | JStr s => let t := trim s in if String.eqb t "" then None else Some t
  | _ => None
  end.

Definition readBoolean (v : value) (fallback : bool) : bool :=
  match v with
  | JBool b => b
  | _ => fallback
  end.

(** The positive integer that [readPositiveInt] finds in [v], if any. *)
Definition positiveInt (v : value) : option Z :=
  match v with
  | JNum n => if (0 <? n)%Z then Some n else None
  | JStr s =>
      match parseInt (trim s) with
      | Some p => if (0 <? p)%Z then Some p else None
      | None => None
      end
  | _ => None
  end.

Definition readPositiveInt (v : value) (fallback : Z) : Z :=
  nullish (positiveInt v) fallback.

(** [String(v)] *)
Fixpoint jsString (v : value) : string :=
  match v with
  | JUndef => "undefined"
  | JNull => "null"
  | JBool true => "true"
  | JBool false => "false"
  | JNum n => stringOfInt n
  | JStr s => s
  | JArr items =>
      join "," (map (fun x => match x with
                              | JUndef | JNull => ""
                              | _ => jsString x
                              end) items)
  | JObj _ => "[object Object]"
  end.

Fixpoint filter_map {A B : Type} (f : A -> option B) (l : list A) : list B :=
  match l with
  | [] => []
  | x :: r =>
      match f x with
      | Some y => y :: filter_map f r
      | None => filter_map f r
      end
  end.

Definition readStringArray (v : value) : list string :=
  match v with
  | JArr items => filter_map readString items
  | _ => []
  end.

(** Fields that are [undefined] disappear when the object is serialised;
    responses are only ever serialised, so such a field is kept in the
    object (it still takes part in a spread) with value [JUndef]. *)
Definition optStr (s : option string) : value :=
  match s with
  | Some x => JStr x
  | None => JUndef
  end.

Definition orNull (s : option string) : value :=
  match s with
  | Some x => JStr x
  | None => JNull
  end.

(** [s || undefined] on a string. *)
Definition nonEmpty (s : string) : value :=
  if String.eqb s "" then JUndef else JStr s.

End Js.

(** ** Processes: outcomes of a computation inside an adapter

    A computation returns, throws, or ends the process after writing one
    JSON document ([writeJson] followed by [process.exit]). *)

Module Proc.

(** A thrown [Error]: [err.name] and [err.message]. *)
Record error : Type := { name : string; message : string }.

(** [String(err)] *)
Definition shown (e : error) : string := name e ++ ": " ++ message e.

Definition Error (msg : string) : error := {| name := "Error"; message := msg |}.

Inductive outcome (A : Type) : Type :=
| Ret (a : A)
| Throw (err : error)
| Exit (payload : Js.value) (code : Z).

Arguments Ret {A} a.
Arguments Throw {A} err.
Arguments Exit {A} payload code.

Definition M (W A : Type) : Type := W -> outcome A * W.

Definition ret {W A : Type} (a : A) : M W A := fun w => (Ret a, w).

Definition bind {W A B : Type} (m : M W A) (k : A -> M W B) : M W B :=
  fun w =>
    match m w with
    | (Ret a, w') => k a w'
    | (Throw e, w') => (Throw e, w')
    | (Exit p c, w') => (Exit p c, w')
    end.

Definition throw {W A : Type} (e : error) : M W A := fun w => (Throw e, w).

(** [writeJson(payload); process.exit(code)] *)
Definition writeAndExit {W A : Type} (payload : Js.value) (code : Z) : M W A :=
  fun w => (Exit payload code, w).

(** An exception that no handler can see (an ['error'] event of a stream
    that has no listener): Node reports it on stderr and the process ends
    with exit code 1, having printed nothing on stdout.  No adapter ever
    prints [undefined], so [JUndef] stands for the empty output. *)
Definition die {W A : Type} : M W A := fun w => (Exit Js.JUndef 1, w).

(** [try { m } catch (err) { handler(err) }] *)
Definition try_catch {W A : Type} (m : M W A) (handler : error -> M W A) : M W A :=
  fun w =>
    match m w with
    | (Throw e, w') => handler e w'
    | r => r
    end.

(** What the parent process observes; [stdout_json] is [JUndef] when
    the process printed nothing. *)
Record exited : Type := { stdout_json : Js.value; exit_code : Z }.

(** What [runCommand] resolves with when the child closes. *)
Record proc_result : Type := {
  code : option Z;          (* [null] when the child died from a signal *)
  signal : option string;
  killed : bool;
  stdout : string;
  stderr : string
}.

(** [spawn] fails to start the executable (the promise rejects), or the
    child runs and closes, or the child is gone before it was handed its
    input and closes with [r].  In the last case a [runCommand] that has
    input to write fails on [child.stdin.write]: the stream emits
    ['error'], for which no listener is registered, and the adapter dies;
    a [runCommand] without input writes nothing and sees the child close. *)
Inductive spawned : Type :=
| SpawnError (err : error)
| Closed (r : proc_result)
| Gone (r : proc_result).

End Proc.

Declare Scope proc_scope.
Delimit Scope proc_scope with proc.
Notation "x <- m ;; k" := (Proc.bind m (fun x => k))
  (at level 61, m at next level, right associativity) : proc_scope.
Notation "m ;;; k" := (Proc.bind m (fun _ => k))
  (at level 61, right associativity) : proc_scope.

(** ** The mail adapter ([himalaya-mail-adapter.js]) *)

Module Mail.

Import Js Proc.
Local Open Scope proc_scope.

(** One backend command line as handed to [spawn]. *)
Record call : Type := {
  argv : list string;
  input : option string;
  call_timeoutMs : Z
}.

(** The host: everything the script reads from outside and never writes. *)
Record Host : Type := {
  getenv : string -> option string;
  defaultConfigPath : string;
  defaultStateDir : string;
  pathExists : string -> bool;
  (** the himalaya binary, as a function of the calls already made and
      of the call at hand *)
  spawn : list call -> call -> spawned;
  JSON_parse : string -> option value;
  (** the [message] of the [SyntaxError] that [JSON.parse] throws *)
  syntaxError : string -> string;
  sha256Hex : string -> string;
  nowIso : string;
  elapsedMs : Z
}.

(** The mutable world: JSON files by path and the log of spawned commands. *)
Record world : Type := {
  files : string -> option value;
  calls : list call
}.

Definition path_join (dir name : string) : string := (dir ++ "/" ++ name)%string.

Definition optNum (o : option Z) : value :=
  match o with
  | Some z => JNum z
  | None => JNull
  end.

Record settings : Type := {
  binary : string;
  configPath : option string;
  account : option string;
  folder : string;
  timeoutMs : Z;
  stateDir : option string;
  payload : value
}.

(** What a handler returns: [{ exitCode, body }]. *)
Record response : Type := { exitCode : Z; body : value }.

(** What [runHimalaya] returns. *)
Record himalaya_result : Type := {
  ok : bool;
  h_argv : list string;
  exec : value;
  h_stdout : string;
  h_stderr : string;
  stdoutJson : value;
  stdoutJsonError : option string
}.

(** The [opts] argument of [runHimalaya]. *)
Record run_opts : Type := {
  jsonOutput : bool;
  quiet : bool;
  includeAccount : bool;
  opt_timeoutMs : option Z;
  opt_input : option string
}.

Definition default_opts : run_opts :=
  {| jsonOutput := true; quiet := true; includeAccount := true;
     opt_timeoutMs := None; opt_input := None |}.

Definition idOf (v : value) : option string :=
  match v with
  | JNum n => Some (stringOfInt n)
  | JStr s => readString (JStr s)
  | _ => None
  end.

Definition normalizeIdList (v fallbackId : value) : list string :=
  let ids :=
    match v with
    | JArr items => filter_map idOf items
    | _ => match idOf v with Some i => [i] | None => [] end
    end in
  match ids with
  | [] => match idOf fallbackId with Some i => [i] | None => [] end
  | _ => ids
  end.

Definition headersToArgs (headers : value) : list string :=
  if negb (truthy headers) then []
  else
    match headers with
    | JArr items =>
        flat_map (fun e => match e with JStr s => ["-H"; s] | _ => [] end) items
    | JObj fields =>
        flat_map (fun kv => match snd kv with
                            | JStr s => ["-H"; (fst kv ++ ":" ++ s)%string]
                            | _ => []
                            end) fields
    | _ => []
    end.

Definition queryArgs (payload : value) : list string :=
  if negb (isRecord payload) then []
  else
    match readStringArray (prop payload "queryTokens") with
    | [] => match readString (prop payload "query") with
            | Some q => [q]
            | None => []
            end
    | tokens => tokens
    end.

Definition buildGlobalArgs (s : settings) (opts : run_opts) : list string :=
  (if jsonOutput opts then ["-o"; "json"] else [])
  ++ match configPath s with Some c => ["-c"; c] | None => [] end
  ++ (if quiet opts then ["--quiet"] else []).

Definition withAccountArg (subcommandArgs : list string) (account : option string)
  : list string :=
  match account with
  | None => subcommandArgs
  | Some a =>
      let insertAt := if Nat.leb 2 (length subcommandArgs) then 2%nat
                      else length subcommandArgs in
      firstn insertAt subcommandArgs ++ ["-a"; a] ++ skipn insertAt subcommandArgs
  end.

Definition buildIdempotencyEntryKey (account : option string) (mode idempotencyKey : string)
  : string :=
  (nullish account "default" ++ "::" ++ mode ++ "::" ++ idempotencyKey)%string.

Definition envelopeBase (action : string) (okFlag : bool) : obj :=
  [("ok", JBool okFlag); ("domain", JStr "mail"); ("action", JStr action);
   ("adapter", JStr "himalaya")].

Definition envelopeOkResponse (action : string) (payload : obj) : value :=
  JObj (spread (envelopeBase action true) payload).

Definition envelopeErrorResponse (action : string) (payload : obj) : value :=
  JObj (spread (envelopeBase action false) payload).

(** [(result.ok ? envelopeOkResponse : envelopeErrorResponse)(base, payload)] *)
Definition envelopeFor (okFlag : bool) (action : string) (payload : obj) : value :=
  if okFlag then envelopeOkResponse action payload
  else envelopeErrorResponse action payload.

Definition resultBlock (r : himalaya_result) : value :=
  JObj [("exec", exec r);
        ("stdoutJson", stdoutJson r);
        ("stdoutJsonError", optStr (stdoutJsonError r));
        ("stderr", nonEmpty (h_stderr r));
        ("stdoutRaw", match stdoutJson r with
                      | JUndef => JStr (h_stdout r)
                      | _ => JUndef
                      end)].

(** The common tail of the handlers. *)
Definition respond (action : string) (request : obj) (r : himalaya_result) : response :=
  {| exitCode := if ok r then 0%Z else 3%Z;
     body := envelopeFor (ok r) action (request ++ [("result", resultBlock r)]) |}.

Definition strs (l : list string) : value := JArr (map JStr l).

Section WithHost.

Variable h : Host.

Definition envValue (name : string) : value := optStr (getenv h name).

Definition resolveAdapterSettings (envelope : value) : settings :=
  let payload := if isRecord (prop envelope "payload")
                 then prop envelope "payload" else JObj [] in
  let envConfigPath := readString (envValue "MYOPS_HIMALAYA_CONFIG") in
  let envAccount := readString (envValue "MYOPS_HIMALAYA_ACCOUNT") in
  let envFolder := readString (envValue "MYOPS_HIMALAYA_FOLDER") in
  let envBinary := readString (envValue "MYOPS_HIMALAYA_BIN") in
  let envTimeoutMs := readPositiveInt (envValue "MYOPS_HIMALAYA_TIMEOUT_MS") 30000 in
  let envStateDir := readString (envValue "MYOPS_HIMALAYA_STATE_DIR") in
  {| binary := nullish envBinary "himalaya";
     configPath := orElse (readString (prop payload "configPath")) envConfigPath;
     account := orElse (readString (prop payload "account")) envAccount;
     folder := nullish (orElse (readString (prop payload "folder")) envFolder) "INBOX";
     timeoutMs := readPositiveInt (prop payload "timeoutMs") envTimeoutMs;
     stateDir := orElse (readString (prop payload "stateDir")) envStateDir;
     payload := payload |}.

Definition runCommand (args : list string) (timeout : Z) (stdin : option string)
  : M world proc_result :=
  fun w =>
    let c := {| argv := args; input := stdin;
                call_timeoutMs := readPositiveInt (JNum timeout) 30000 |} in
    let w' := {| files := files w; calls := calls w ++ [c] |} in
    match spawn h (calls w) c with
    | SpawnError e => (Throw e, w')
    | Closed r => (Ret r, w')
    | Gone r =>
        match stdin with
        | Some _ => die w'
        | None => (Ret r, w')
        end
    end.

Definition runHimalaya (s : settings) (subcommandArgs : list string) (opts : run_opts)
  : M world himalaya_result :=
  let args :=
    binary s :: buildGlobalArgs s opts
    ++ (if includeAccount opts then withAccountArg subcommandArgs (account s)
        else subcommandArgs) in
  let timeout := nullish (opt_timeoutMs opts) (timeoutMs s) in
  result <- runCommand args timeout (opt_input opts) ;;
  let trimmed := trim (stdout result) in
  let parsed :=
    if negb (String.eqb trimmed "") && jsonOutput opts then
      match JSON_parse h trimmed with
      | Some v => (v, None)
      | None => (JUndef, Some ("SyntaxError: " ++ syntaxError h trimmed)%string)
      end
    else (JUndef, None) in
  ret {| ok := match code result with Some 0%Z => true | _ => false end;
         h_argv := args;
         exec := JObj [("code", optNum (code result));
                       ("signal", orNull (signal result));
                       ("killed", JBool (killed result));
                       ("timeoutMs", JNum (readPositiveInt (JNum timeout) 30000));
                       ("durationMs", JNum (elapsedMs h))];
         h_stdout := stdout result;
         h_stderr := stderr result;
         stdoutJson := fst parsed;
         stdoutJsonError := snd parsed |}.

Definition resolveIdempotencyStorePath (s : settings) : string :=
  path_join (nullish (stateDir s) (defaultStateDir h)) "himalaya-mail-idempotency.json".

(** The [keys] object of the store; an absent, unparsable or ill-shaped
    file reads as the empty store. *)
Definition storeKeys (file : option value) : obj :=
  match file with
  | Some (JObj parsed) =>
      match get "keys" parsed with
      | JObj keys => keys
      | _ => []
      end
  | _ => []
  end.

Definition readIdempotencyStore (filePath : string) : M world obj :=
  fun w => (Ret (storeKeys (files w filePath)), w).

Definition writeIdempotencyStore (filePath : string) (keys : obj) : M world unit :=
  fun w =>
    let doc := JObj [("version", JNum 1); ("keys", JObj keys)] in
    (Ret tt,
     {| files := fun p => if String.eqb p filePath then Some doc else files w p;
        calls := calls w |}).

Definition settingsSummary (s : settings) : value :=
  JObj [("binary", JStr (binary s));
        ("configPath", orNull (configPath s));
        ("account", orNull (account s));
        ("folder", JStr (folder s));
        ("timeoutMs", JNum (timeoutMs s))].

Definition handleHealth (envelope : value) (action : string) : M world response :=
  let s := resolveAdapterSettings envelope in
  let cfgPath := nullish (configPath s) (defaultConfigPath h) in
  attempt <- try_catch
               (v <- runCommand [binary s; "--version"] (timeoutMs s) None ;; ret (inl v))
               (fun err => ret (inr err)) ;;
  match attempt with
  | inr err =>
      ret {| exitCode := 3;
             body := envelopeErrorResponse action
                       [("error", JStr ("failed to execute himalaya: " ++ shown err));
                        ("settings", settingsSummary s)] |}
  | inl versionResult =>
      let deep := readBoolean (prop (payload s) "deep") false in
      deepProbe <-
        (if deep && (isSome (account s) || isSome (configPath s)) then
           r <- runHimalaya s ["envelope"; "list"; "-f"; folder s; "-s"; "1"]
                  {| jsonOutput := true; quiet := true; includeAccount := true;
                     opt_timeoutMs := Some (timeoutMs s); opt_input := None |} ;;
           ret (Some r)
         else ret None) ;;
      let binaryOk := match code versionResult with Some 0%Z => true | _ => false end in
      ret {| exitCode := if binaryOk then 0%Z else 3%Z;
             body := envelopeOkResponse action
               [("settings", settingsSummary s);
                ("checks",
                 JObj [("binaryVersion",
                        let v := trim (stdout versionResult) in
                        if String.eqb v "" then JNull else JStr v);
                       ("binaryOk", JBool binaryOk);
                       ("configPathChecked", JStr cfgPath);
                       ("configPathExists", JBool (pathExists h cfgPath))]);
                ("probe",
                 if deep then
                   JObj [("requested", JBool true);
                         ("ok", JBool match deepProbe with
                                      | Some r => ok r
                                      | None => false
                                      end);
                         ("result",
                          match deepProbe with
                          | Some r =>
                              JObj [("exec", exec r);
                                    ("stdoutJson", stdoutJson r);
                                    ("stdoutJsonError", optStr (stdoutJsonError r));
                                    ("stderr", nonEmpty (h_stderr r))]
                          | None => JUndef
                          end)]
                 else JObj [("requested", JBool false)])] |}
  end.

Definition handleListAccounts (envelope : value) (action : string) : M world response :=
  let s := resolveAdapterSettings envelope in
  result <- runHimalaya s ["account"; "list"]
              {| jsonOutput := true; quiet := true; includeAccount := false;
                 opt_timeoutMs := None; opt_input := None |} ;;
  ret (respond action [] result).

Definition handleListFolders (envelope : value) (action : string) : M world response :=
  let s := resolveAdapterSettings envelope in
  result <- runHimalaya s ["folder"; "list"] default_opts ;;
  ret (respond action [] result).

Definition handleListMessages (envelope : value) (action : string) : M world response :=
  let s := resolveAdapterSettings envelope in
  let page := readPositiveInt (prop (payload s) "page") 1 in
  let pageSize := readPositiveInt (prop (payload s) "pageSize") 50 in
  let fld := nullish (readString (prop (payload s) "folder")) (folder s) in
  let query := queryArgs (payload s) in
  let args := ["envelope"; "list"; "-f"; fld; "-p"; stringOfInt page;
               "-s"; stringOfInt pageSize] ++ query in
  result <- runHimalaya s args default_opts ;;
  ret (respond action
         [("request", JObj [("folder", JStr fld); ("page", JNum page);
                            ("pageSize", JNum pageSize); ("query", strs query)])]
         result).

Definition handleSearch (envelope : value) (action : string) : M world response :=
  handleListMessages envelope action.

Definition idsRequired (action : string) : response :=
  {| exitCode := 2;
     body := envelopeErrorResponse action
               [("error", JStr "payload.id or payload.ids required")] |}.

Definition handleGetMessage (envelope : value) (action : string) : M world response :=
  let s := resolveAdapterSettings envelope in
  let ids := normalizeIdList (prop (payload s) "ids") (prop (payload s) "id") in
  match ids with
  | [] => ret (idsRequired action)
  | _ =>
      let fld := nullish (readString (prop (payload s) "folder")) (folder s) in
      let args := ["message"; "read"; "-f"; fld]
                  ++ (if readBoolean (prop (payload s) "preview") false then ["-p"] else [])
                  ++ (if readBoolean (prop (payload s) "noHeaders") false
                      then ["--no-headers"] else [])
                  ++ headersToArgs (prop (payload s) "headers")
                  ++ ids in
      result <- runHimalaya s args default_opts ;;
      ret (respond action
             [("request", JObj [("folder", JStr fld); ("ids", strs ids)])] result)
  end.

Definition handleDraftReply (envelope : value) (action : string) : M world response :=
  let s := resolveAdapterSettings envelope in
  match readString (prop (payload s) "id") with
  | None =>
      ret {| exitCode := 2;
             body := envelopeErrorResponse action [("error", JStr "payload.id required")] |}
  | Some id =>
      let fld := nullish (readString (prop (payload s) "folder")) (folder s) in
      let args := ["template"; "reply"; "-f"; fld]
                  ++ (if readBoolean (prop (payload s) "allRecipients") false
                      then ["-A"] else [])
                  ++ headersToArgs (prop (payload s) "headers")
                  ++ [id]
                  ++ match readString (prop (payload s) "body") with
                     | Some b => [b]
                     | None => []
                     end in
      result <- runHimalaya s args default_opts ;;
      ret (respond action
             [("request", JObj [("id", JStr id); ("folder", JStr fld)])] result)
  end.

Definition modeName (useTemplate : bool) : string :=
  if useTemplate then "template" else "raw-message".

(** The message text of a [send_message] payload: the template when there
    is one, else the raw message; [None] when the payload carries neither. *)
Definition sendContent (payload : value) : option string :=
  orElse (readString (prop payload "template"))
         (orElse (readString (prop payload "rawMessage"))
                 (orElse (readString (prop payload "message"))
                         (readString (prop payload "raw")))).

Definition sendUseTemplate (payload : value) : bool :=
  isSome (readString (prop payload "template"))
  || match readString (prop payload "format") with
     | Some f => String.eqb f "mml"
     | None => false
     end.

Definition sendIdempotencyKey (envelope payload : value) : option string :=
  orElse (readString (prop envelope "idempotencyKey"))
         (readString (prop payload "idempotencyKey")).

Definition sendRequest (useTemplate : bool) (content : string) : value :=
  JObj [("mode", JStr (modeName useTemplate));
        ("bytes", JNum (Z.of_nat (String.length content)))].

(** The short-circuit answer for a key already recorded with this content. *)
Definition duplicateResponse (s : settings) (action : string) (useTemplate : bool)
    (content key storePath entryKey : string) (existing : obj) : response :=
  {| exitCode := 0;
     body := envelopeOkResponse action
       [("request", sendRequest useTemplate content);
        ("idempotency",
         JObj [("key", JStr key);
               ("storePath", JStr storePath);
               ("duplicate", JBool true);
               ("skippedSend", JBool true);
               ("entryKey", JStr entryKey);
               ("existing", JObj existing)]);
        ("result",
         JObj [("exec",
                JObj [("code", JNum 0);
                      ("signal", JNull);
                      ("killed", JBool false);
                      ("timeoutMs", JNum (timeoutMs s));
                      ("durationMs", JNum 0)])])] |}.

Definition handleSendMessage (envelope : value) (action : string) : M world response :=
  let s := resolveAdapterSettings envelope in
  match sendContent (payload s) with
  | None =>
      ret {| exitCode := 2;
             body := envelopeErrorResponse action
               [("error",
                 JStr "payload.rawMessage (or payload.message/raw) or payload.template required")] |}
  | Some content =>
      let useTemplate := sendUseTemplate (payload s) in
      let contentHash := sha256Hex h content in
      let idempotencyKey := sendIdempotencyKey envelope (payload s) in
      let idempotencyRequired :=
        readBoolean (prop (payload s) "requireIdempotencyKey") false in
      if idempotencyRequired && negb (isSome idempotencyKey) then
        ret {| exitCode := 2;
               body := envelopeErrorResponse action
                 [("error",
                   JStr "idempotencyKey required (payload.requireIdempotencyKey=true)")] |}
      else
        let storePath := resolveIdempotencyStorePath s in
        let send (meta : option (obj * string)) : M world response :=
          result <- runHimalaya s
                      (if useTemplate then ["template"; "send"] else ["message"; "send"])
                      {| jsonOutput := true; quiet := true; includeAccount := true;
                         opt_timeoutMs := None; opt_input := Some content |} ;;
          (match idempotencyKey, meta with
           | Some key, Some (store, entryKey) =>
               if ok result then
                 writeIdempotencyStore storePath
                   (set entryKey
                      (JObj [("ts", JStr (nowIso h));
                             ("idempotencyKey", JStr key);
                             ("account", orNull (account s));
                             ("mode", JStr (modeName useTemplate));
                             ("contentHash", JStr contentHash);
                             ("bytes", JNum (Z.of_nat (String.length content)));
                             ("exec", exec result);
                             ("stdoutJson", match stdoutJson result with
                                            | JUndef => JNull
                                            | v => v
                                            end)])
                      store)
               else ret tt
           | _, _ => ret tt
           end) ;;;
          ret (respond action
                 [("request", sendRequest useTemplate content);
                  ("idempotency",
                   match idempotencyKey with
                   | Some key =>
                       JObj [("key", JStr key);
                             ("duplicate", JBool false);
                             ("storePath",
                              match meta with Some _ => JStr storePath | None => JUndef end);
                             ("contentHash", JStr contentHash)]
                   | None => JUndef
                   end)]
                 result) in
        match idempotencyKey with
        | None => send None
        | Some key =>
            store <- readIdempotencyStore storePath ;;
            let entryKey := buildIdempotencyEntryKey (account s) (modeName useTemplate) key in
            match get entryKey store with
            | JObj existing =>
                match readString (get "contentHash" existing) with
                | Some existingHash =>
                    if negb (String.eqb existingHash contentHash) then
                      ret {| exitCode := 2;
                             body := envelopeErrorResponse action
                               [("error",
                                 JStr "idempotency key reuse with different payload content");
                                ("idempotency",
                                 JObj [("key", JStr key);
                                       ("storePath", JStr storePath);
                                       ("conflict", JBool true);
                                       ("existingContentHash", JStr existingHash);
                                       ("contentHash", JStr contentHash)])] |}
                    else ret (duplicateResponse s action useTemplate content key storePath
                                entryKey existing)
                | None => ret (duplicateResponse s action useTemplate content key storePath
                                 entryKey existing)
                end
            | _ => send (Some (store, entryKey))
            end
        end
  end.

Definition handleArchive (envelope : value) (action : string) : M world response :=
  let s := resolveAdapterSettings envelope in
  let ids := normalizeIdList (prop (payload s) "ids") (prop (payload s) "id") in
  match ids with
  | [] => ret (idsRequired action)
  | _ =>
      let sourceFolder := nullish (readString (prop (payload s) "folder")) (folder s) in
      let targetFolder := nullish (readString (prop (payload s) "archiveFolder")) "Archive" in
      result <- runHimalaya s
                  (["message"; "move"; "-f"; sourceFolder; targetFolder] ++ ids)
                  default_opts ;;
      ret (respond action
             [("request", JObj [("sourceFolder", JStr sourceFolder);
                                ("targetFolder", JStr targetFolder);
                                ("ids", strs ids)])]
             result)
  end.

Definition handleDeleteMessages (envelope : value) (action : string) : M world response :=
  let s := resolveAdapterSettings envelope in
  let ids := normalizeIdList (prop (payload s) "ids") (prop (payload s) "id") in
  match ids with
  | [] => ret (idsRequired action)
  | _ =>
      let fld := nullish (readString (prop (payload s) "folder")) (folder s) in
      result <- runHimalaya s (["message"; "delete"; "-f"; fld] ++ ids) default_opts ;;
      ret (respond action
             [("request", JObj [("folder", JStr fld); ("ids", strs ids)])] result)
  end.

Definition handlePurgeFolder (envelope : value) (action : string) : M world response :=
  let s := resolveAdapterSettings envelope in
  match orElse (readString (prop (payload s) "folder"))
               (readString (prop (payload s) "name")) with
  | None =>
      ret {| exitCode := 2;
             body := envelopeErrorResponse action
                       [("error", JStr "payload.folder (or payload.name) required")] |}
  | Some fld =>
      result <- runHimalaya s ["folder"; "purge"; "-y"; fld] default_opts ;;
      ret (respond action [("request", JObj [("folder", JStr fld)])] result)
  end.

Definition handleMarkRead (envelope : value) (action : string) : M world response :=
  let s := resolveAdapterSettings envelope in
  let ids := normalizeIdList (prop (payload s) "ids") (prop (payload s) "id") in
  match ids with
  | [] => ret (idsRequired action)
  | _ =>
      let fld := nullish (readString (prop (payload s) "folder")) (folder s) in
      let markRead := readBoolean (prop (payload s) "read") true in
      let flags := ["seen"] in
      let command := if markRead then "add" else "remove" in
      result <- runHimalaya s (["flag"; command; "-f"; fld] ++ flags ++ ids) default_opts ;;
      ret (respond action
             [("request", JObj [("folder", JStr fld); ("ids", strs ids);
                                ("read", JBool markRead)])]
             result)
  end.

Definition handleLabel (envelope : value) (action : string) : M world response :=
  let s := resolveAdapterSettings envelope in
  let ids := normalizeIdList (prop (payload s) "ids") (prop (payload s) "id") in
  match ids with
  | [] => ret (idsRequired action)
  | _ =>
      let fld := nullish (readString (prop (payload s) "folder")) (folder s) in
      let mode := nullish (readString (prop (payload s) "mode")) "add" in
      if negb (existsb (String.eqb mode) ["add"; "remove"; "set"]) then
        ret {| exitCode := 2;
               body := envelopeErrorResponse action
                         [("error", JStr "payload.mode must be one of add/remove/set")] |}
      else
        match readStringArray (prop (payload s) "flags") with
        | [] =>
            ret {| exitCode := 2;
                   body := envelopeErrorResponse action
                             [("error", JStr "payload.flags required (string[])")] |}
        | flags =>
            result <- runHimalaya s (["flag"; mode; "-f"; fld] ++ flags ++ ids)
                        default_opts ;;
            ret (respond action
                   [("request", JObj [("folder", JStr fld); ("ids", strs ids);
                                      ("mode", JStr mode); ("flags", strs flags)])]
                   result)
        end
  end.

(** The [case] labels of [dispatch] with their handlers, in source order. *)
Definition handlers : list (string * (value -> string -> M world response)) :=
  [("health", handleHealth);
   ("list_accounts", handleListAccounts);
   ("list_folders", handleListFolders);
   ("list_messages", handleListMessages);
   ("search", handleSearch);
   ("get_message", handleGetMessage);
   ("draft_reply", handleDraftReply);
   ("send_message", handleSendMessage);
   ("archive", handleArchive);
   ("delete_messages", handleDeleteMessages);
   ("purge_folder", handlePurgeFolder);
   ("mark_read", handleMarkRead);
   ("label", handleLabel)].

(** The list literal of the [default] branch. *)
Definition supportedActions : list string :=
  ["health"; "list_accounts"; "list_folders"; "list_messages"; "search";
   "get_message"; "draft_reply"; "send_message"; "archive"; "delete_messages";
   "purge_folder"; "mark_read"; "label"].

(** [dispatch(base)] with [base = { envelope, action }]. *)
Definition dispatch (envelope : value) (action : string) : M world response :=
  match lookup action handlers with
  | Some handler => handler envelope action
  | None =>
      ret {| exitCode := 2;
             body := envelopeErrorResponse action
                       [("error", JStr ("unsupported action '" ++ action ++ "'"));
                        ("supportedActions", strs supportedActions)] |}
  end.

Definition readJsonStdin (stdin : string) : M world value :=
  let text := trim stdin in
  if String.eqb text "" then throw (Error "empty stdin; expected JSON envelope")
  else
    match JSON_parse h text with
    | Some v => ret v
    | None => throw {| name := "SyntaxError"; message := syntaxError h text |}
    end.

Definition main (stdin : string) : M world Empty_set :=
  envelope <- readJsonStdin stdin ;;
  if negb (isRecord envelope) then
    writeAndExit (JObj [("ok", JBool false); ("domain", JStr "mail");
                        ("adapter", JStr "himalaya");
                        ("error", JStr "expected JSON object envelope")]) 2
  else
    match readString (prop envelope "action") with
    | None =>
        writeAndExit (JObj [("ok", JBool false); ("domain", JStr "mail");
                            ("adapter", JStr "himalaya");
                            ("error", JStr "envelope.action required")]) 2
    | Some action =>
        res <- dispatch envelope action ;;
        writeAndExit (body res) (exitCode res)
    end.

(** The whole process: [main().catch(...)]. *)
Definition run (stdin : string) (w : world) : exited * world :=
  match main stdin w with
  | (Exit p c, w') => ({| stdout_json := p; exit_code := c |}, w')
  | (Throw err, w') =>
      ({| stdout_json := JObj [("ok", JBool false); ("domain", JStr "mail");
                               ("adapter", JStr "himalaya");
                               ("error", JStr ("adapter crash: " ++ shown err))];
          exit_code := 99 |}, w')
  | (Ret impossible, _) => match impossible with end
  end.

End WithHost.

(** The command line that [handleSendMessage] hands to [spawn]. *)
Definition sendCall (s : settings) (useTemplate : bool) (content : string) : call :=
  {| argv := binary s
             :: buildGlobalArgs s default_opts
             ++ withAccountArg (if useTemplate then ["template"; "send"]
                                else ["message"; "send"]) (account s);
     input := Some content;
     call_timeoutMs := readPositiveInt (JNum (timeoutMs s)) 30000 |}.

(** The record kept in the store of [w] for the request in [envelope]:
    the entry under the composite key [account::mode::idempotencyKey]. *)
Definition storedEntry (h : Host) (w : world) (envelope : value) (key : string) : value :=
  let s := resolveAdapterSettings h envelope in
  get (buildIdempotencyEntryKey (account s) (modeName (sendUseTemplate (payload s))) key)
      (storeKeys (files w (resolveIdempotencyStorePath h s))).

(** The [send] command of the request in [envelope]. *)
Definition sendCallOf (h : Host) (envelope : value) (content : string) : call :=
  let s := resolveAdapterSettings h envelope in
  sendCall s (sendUseTemplate (payload s)) content.

End Mail.

(** ** The notes adapter ([mowen-api-adapter.js]) *)

Module Notes.

Import Js Proc.
Local Open Scope proc_scope.

Definition ADAPTER_NAME : string := "mowen-openapi".
Definition DEFAULT_BASE_URL : string := "https://open.mowen.cn".
Definition DEFAULT_TIMEOUT_MS : Z := 30000.
Definition DEFAULT_MIN_INTERVAL_MS : Z := 1100.

(** One [fetch] as issued by [callMowenApi] (always a POST). *)
Record http_call : Type := {
  url : string;
  authorization : string;
  user_agent : string;
  request_body : value;
  abort_after : Z
}.

Record http_response : Type := {
  took : Z;                       (* milliseconds until the response *)
  r_ok : bool;
  status : Z;
  statusText : string;
  headers : list (string * string);
  text : string
}.

(** [fetch] rejects (after [after] milliseconds) or resolves. *)
Inductive fetched : Type :=
| FetchFailed (after : Z) (err : error)
| Fetched (r : http_response).

Record Host : Type := {
  getenv : string -> option string;
  defaultStateDir : string;
  fetch : list http_call -> http_call -> fetched;
  JSON_parse : string -> option value;
  syntaxError : string -> string;
  (** [new Date(ms).toISOString()] *)
  toISOString : Z -> string
}.

(** The mutable world: JSON files by path, the HTTP requests issued, the
    clock ([Date.now()]) and the sleeps taken. *)
Record world : Type := {
  files : string -> option value;
  requests : list http_call;
  clock : Z;
  sleeps : list Z
}.

Record settings : Type := {
  apiKey : option string;
  baseUrl : string;
  timeoutMs : Z;
  minIntervalMs : Z;
  stateDir : string;
  userAgent : string;
  payload : value
}.

(** [pick(obj, keys)]: the value under the first of [keys] that [obj] owns. *)
Fixpoint pick (v : value) (keys : list string) : value :=
  match keys with
  | [] => JUndef
  | k :: rest => if hasOwn v k then prop v k else pick v rest
  end.

Definition readStringFromKeys (v : value) (keys : list string) : option string :=
  readString (pick v keys).

Definition readIntFromKeys (v : value) (keys : list string) (fallback : Z) : Z :=
  readPositiveInt (pick v keys) fallback.

(** [raw.replace(/\/+$/, "")] *)
Fixpoint dropSlashes (s : string) : string :=
  match s with
  | String "/" r => dropSlashes r
  | _ => s
  end.

Definition normalizeBaseUrl (v : value) : string :=
  let raw := nullish (readString v) DEFAULT_BASE_URL in
  reverse (dropSlashes (reverse raw)).

Definition normalizeAction (action : string) : string :=
  if String.eqb action "create_doc" then "create_note"
  else if String.eqb action "update_doc" then "edit_note"
  else if String.eqb action "set_doc" then "set_note"
  else action.

Definition unsupportedActionMessage (action : string) : string :=
  if String.eqb action "append_doc" then
    "append_doc is not supported by Mowen OpenAPI directly (no read/merge helper in adapter). Use edit_note/update_doc with an explicit NoteAtom body."
  else if String.eqb action "read_doc" || String.eqb action "search"
          || String.eqb action "list_spaces" then
    action ++ " is not available in the current Mowen OpenAPI docs. Supported actions: create/edit/set note and upload APIs."
  else "unsupported action: " ++ action.

Definition sanitizeForHealth (s : settings) : value :=
  JObj [("ok", JBool (isSome (apiKey s)));
        ("domain", JStr "mowen");
        ("action", JStr "health");
        ("adapter", JStr ADAPTER_NAME);
        ("configured", JObj [("apiKey", JBool (isSome (apiKey s)));
                             ("baseUrl", JBool (truthy (JStr (baseUrl s))))]);
        ("baseUrl", JStr (baseUrl s));
        ("timeoutMs", JNum (timeoutMs s));
        ("rateLimit", JObj [("minIntervalMs", JNum (minIntervalMs s));
                            ("stateDir", JStr (stateDir s))]);
        ("note", JStr (if isSome (apiKey s)
                       then "Mowen adapter is configured. Health is local-only to avoid consuming API quotas."
                       else "Set MYOPS_MOWEN_API_KEY (or payload.apiKey) to enable Mowen API calls."))].

Definition toNoteAtomTextNode (t : string) : value :=
  JObj [("type", JStr "text"); ("text", JStr t)].

Definition toNoteAtomParagraphNode (t : string) : value :=
  if String.eqb t "" then JObj [("type", JStr "paragraph")]
  else JObj [("type", JStr "paragraph"); ("content", JArr [toNoteAtomTextNode t])].

(** [source.split(/\r?\n/)], with the line under construction in [cur]
    (reversed). *)
Fixpoint splitLinesFrom (s : string) (cur : list ascii) : list string :=
  match s with
  | EmptyString => [string_of_list_ascii (rev cur)]
  | String c r =>
      if Ascii.eqb c "010"%char then
        string_of_list_ascii (rev cur) :: splitLinesFrom r []
      else if Ascii.eqb c "013"%char then
        match r with
        | String c' r' =>
            if Ascii.eqb c' "010"%char then
              string_of_list_ascii (rev cur) :: splitLinesFrom r' []
            else splitLinesFrom r (c :: cur)
        | EmptyString => splitLinesFrom r (c :: cur)
        end
      else splitLinesFrom r (c :: cur)
  end.

Definition buildNoteAtomFromText (t : string) : value :=
  JObj [("type", JStr "doc");
        ("content", JArr (map toNoteAtomParagraphNode (splitLinesFrom t [])))].

Definition buildNoteAtomFromParagraphs (paragraphs : value) : option value :=
  match paragraphs with
  | JArr entries =>
      Some (JObj [("type", JStr "doc");
                  ("content",
                   JArr (map (fun entry =>
                                match entry with
                                | JStr t => toNoteAtomParagraphNode t
                                | JObj _ => entry
                                | JNull | JUndef => toNoteAtomParagraphNode ""
                                | _ => toNoteAtomParagraphNode (jsString entry)
                                end) entries))])
  | _ => None
  end.

Definition readNoteAtomBody (payload : value) : option value :=
  if isRecord (pick payload ["body"]) then Some (pick payload ["body"])
  else if isRecord (pick payload ["noteAtom"; "note_atom"])
  then Some (pick payload ["noteAtom"; "note_atom"])
  else
    match buildNoteAtomFromParagraphs (pick payload ["paragraphs"]) with
    | Some doc => Some doc
    | None =>
        match readStringFromKeys payload
                ["text"; "bodyText"; "body_text"; "contentText"; "content_text"] with
        | Some t => Some (buildNoteAtomFromText t)
        | None => None
        end
    end.

(** JavaScript measures a string in UTF-16 code units; the model keeps it
    as the bytes of its UTF-8 encoding.  A continuation byte ([10xxxxxx])
    adds no unit, the lead byte of a four-byte character ([11110xxx])
    adds two (a surrogate pair), every other byte adds one. *)
Definition isContinuation (c : ascii) : bool :=
  let n := nat_of_ascii c in (128 <=? n)%nat && (n <? 192)%nat.

Definition isLead4 (c : ascii) : bool := (240 <=? nat_of_ascii c)%nat.

(** [s.length] *)
Fixpoint lengthUnits (s : string) : nat :=
  match s with
  | EmptyString => 0%nat
  | String c r =>
      ((if isContinuation c then 0 else if isLead4 c then 2 else 1) + lengthUnits r)%nat
  end.

(** The high surrogate of the four-byte character that starts with [c] and
    goes on with [r], as the three bytes [ED A* **] that stand for it when
    it is left without its low surrogate. *)
Definition highSurrogate (c : ascii) (r : string) : string :=
  let b2 := match r with String b _ => nat_of_ascii b | _ => 128%nat end in
  let b3 := match r with String _ (String b _) => nat_of_ascii b | _ => 128%nat end in
  let top := ((nat_of_ascii c mod 8) * 256 + (b2 mod 64) * 4 + (b3 mod 64) / 16 - 64)%nat in
  String (ascii_of_nat 237)
    (String (ascii_of_nat (160 + (top / 64) mod 16))
       (String (ascii_of_nat (128 + top mod 64)) EmptyString)).

(** [s.slice(0, n)]: the first [n] code units.  A cut in the middle of a
    surrogate pair keeps the high surrogate alone. *)
Fixpoint sliceUnits (n : nat) (s : string) : string :=
  match s with
  | EmptyString => EmptyString
  | String c r =>
      if isContinuation c then String c (sliceUnits n r)
      else
        match n with
        | O => EmptyString
        | S O => if isLead4 c then highSurrogate c r else String c (sliceUnits 0 r)
        | S (S m as n') =>
            if isLead4 c then String c (sliceUnits m r) else String c (sliceUnits n' r)
        end
  end.

Definition normalizeTags (v : value) : option (list string) :=
  match readStringArray v with
  | [] => None
  | tags => Some (map (sliceUnits 30) (firstn 10 tags))
  end.

(** The request builders throw on an incomplete payload: [inl] carries
    the message of the [Error]. *)
Definition built := sum string value.

Definition buildCreateNoteRequest (payload : value) : built :=
  if isRecord (pick payload ["request"]) then inr (pick payload ["request"])
  else
    match readNoteAtomBody payload with
    | None =>
        inl "create_note requires payload.body (NoteAtom) or payload.text / payload.paragraphs"
    | Some body =>
        let settings :=
          if isRecord (pick payload ["settings"]) then pick payload ["settings"]
          else
            let autoPublish := pick payload ["autoPublish"; "auto_publish"] in
            let tags := normalizeTags (pick payload ["tags"]) in
            match autoPublish, tags with
            | JBool b, Some t => JObj [("autoPublish", JBool b); ("tags", JArr (map JStr t))]
            | JBool b, None => JObj [("autoPublish", JBool b)]
            | _, Some t => JObj [("tags", JArr (map JStr t))]
            | _, None => JUndef
            end in
        inr (JObj (("body", body)
                   :: match settings with
                      | JUndef => []
                      | _ => [("settings", settings)]
                      end))
    end.

Definition readNoteId (payload : value) : sum string string :=
  match readStringFromKeys payload ["noteId"; "note_id"; "id"] with
  | Some noteId => inr noteId
  | None => inl "payload.noteId is required"
  end.

Definition extractNoteIdFromResponseJson (v : value) : option string :=
  if negb (isRecord v) then None
  else
    match readStringFromKeys v ["noteId"; "note_id"; "id"] with
    | Some direct => Some direct
    | None =>
        let probe (key : string) : option string :=
          let nested := prop v key in
          if isRecord nested then
            match readStringFromKeys nested ["noteId"; "note_id"; "id"] with
            | Some nestedId => Some nestedId
            | None =>
                if isRecord (prop nested "note")
                then readStringFromKeys (prop nested "note") ["noteId"; "note_id"; "id"]
                else None
            end
          else None in
        orElse (probe "data") (orElse (probe "result") (probe "note"))
    end.

Definition buildEditNoteRequest (payload : value) : built :=
  if isRecord (pick payload ["request"]) then inr (pick payload ["request"])
  else
    match readNoteId payload with
    | inl err => inl err
    | inr noteId =>
        match readNoteAtomBody payload with
        | None =>
            inl "edit_note requires payload.body (NoteAtom) or payload.text / payload.paragraphs"
        | Some body => inr (JObj [("noteId", JStr noteId); ("body", body)])
        end
    end.

Fixpoint allDigits (s : string) : bool :=
  match s with
  | EmptyString => true
  | String c r => is_digit c && allDigits r
  end.

Definition inRange13 (n : Z) : bool := (1 <=? n)%Z && (n <=? 3)%Z.

Definition normalizeFileType (v : value) : option Z :=
  match (match v with
         | JNum n => if inRange13 n then Some n else None
         | _ => None
         end) with
  | Some n => Some n
  | None =>
      match readString v with
      | None => None
      | Some raw =>
          match (if negb (String.eqb raw "") && allDigits raw
                 then match parseInt raw with
                      | Some n => if inRange13 n then Some n else None
                      | None => None
                      end
                 else None) with
          | Some n => Some n
          | None =>
              let l := toLowerCase raw in
              if String.eqb l "image" || String.eqb l "img" || String.eqb l "picture"
              then Some 1%Z
              else if String.eqb l "audio" then Some 2%Z
              else if String.eqb l "pdf" then Some 3%Z
              else None
          end
      end
  end.

Definition fileTypeOf (payload : value) : option Z :=
  orElse (normalizeFileType (pick payload ["fileType"; "file_type"]))
         (normalizeFileType (pick payload ["fileKind"; "file_kind"])).

Definition fileNameField (payload : value) : obj :=
  match readStringFromKeys payload ["fileName"; "file_name"] with
  | Some fileName => [("fileName", JStr fileName)]
  | None => []
  end.

Definition buildUploadPrepareRequest (payload : value) : built :=
  if isRecord (pick payload ["request"]) then inr (pick payload ["request"])
  else
    match fileTypeOf payload with
    | None =>
        inl "upload_prepare requires payload.fileType (1=image, 2=audio, 3=pdf) or payload.fileKind"
    | Some fileType => inr (JObj (("fileType", JNum fileType) :: fileNameField payload))
    end.

Definition buildUploadUrlRequest (payload : value) : built :=
  if isRecord (pick payload ["request"]) then inr (pick payload ["request"])
  else
    match fileTypeOf payload with
    | None =>
        inl "upload_url requires payload.fileType (1=image, 2=audio, 3=pdf) or payload.fileKind"
    | Some fileType =>
        match readStringFromKeys payload ["url"] with
        | None => inl "upload_url requires payload.url"
        | Some u =>
            inr (JObj (("fileType", JNum fileType) :: ("url", JStr u)
                       :: fileNameField payload))
        end
    end.

Definition buildSetNoteRequest (payload : value) : built :=
  if isRecord (pick payload ["request"]) then inr (pick payload ["request"])
  else
    match readNoteId payload with
    | inl err => inl err
    | inr noteId =>
        let section := positiveInt (pick payload ["section"]) in
        let settings :=
          if isRecord (pick payload ["settings"]) then pick payload ["settings"]
          else if isRecord (pick payload ["privacy"])
          then JObj [("privacy", pick payload ["privacy"])]
          else JUndef in
        match settings with
        | JUndef => inl "set_note requires payload.settings or payload.privacy"
        | _ =>
            inr (JObj [("noteId", JStr noteId);
                       ("section", JNum (nullish section 1%Z));
                       ("settings", settings)])
        end
    end.

Record resolved : Type := {
  endpointPath : string;
  requestBody : value;
  rateLimitKey : string
}.

(** [None] is the [default] branch; a builder that throws makes the whole
    call throw. *)
Definition resolveEndpointAndRequest (mappedAction : string) (payload : value)
  : option (sum string resolved) :=
  let via (path : string) (b : built) (key : string) :=
    Some match b with
         | inl err => inl err
         | inr body => inr {| endpointPath := path; requestBody := body;
                              rateLimitKey := key |}
         end in
  if String.eqb mappedAction "create_note" then
    via "/api/open/api/v1/note/create" (buildCreateNoteRequest payload) "note.write"
  else if String.eqb mappedAction "edit_note" then
    via "/api/open/api/v1/note/edit" (buildEditNoteRequest payload) "note.write"
  else if String.eqb mappedAction "set_note" then
    via "/api/open/api/v1/note/set" (buildSetNoteRequest payload) "note.write"
  else if String.eqb mappedAction "upload_prepare" then
    via "/api/open/api/v1/upload/prepare" (buildUploadPrepareRequest payload) "upload.write"
  else if String.eqb mappedAction "upload_url" then
    via "/api/open/api/v1/upload/url" (buildUploadUrlRequest payload) "upload.write"
  else None.

Definition summarizeRequest (action : string) (body : value) : value :=
  if negb (isRecord body) then JObj [("action", JStr action)]
  else
    JObj ([("action", JStr action)]
          ++ match prop body "noteId" with JStr x => [("noteId", JStr x)] | _ => [] end
          ++ match prop body "fileType" with JNum n => [("fileType", JNum n)] | _ => [] end
          ++ match prop body "url" with JStr x => [("url", JStr x)] | _ => [] end
          ++ match prop body "fileName" with JStr x => [("fileName", JStr x)] | _ => [] end
          ++ match prop body "body" with
             | JObj b => match get "content" b with
                         | JArr c => [("bodyBlocks", JNum (Z.of_nat (length c)))]
                         | _ => []
                         end
             | _ => []
             end
          ++ (if isRecord (prop body "settings") then [("hasSettings", JBool true)] else [])).

Definition path_join (dir name : string) : string := (dir ++ "/" ++ name)%string.

Section WithHost.

Variable h : Host.

Definition envValue (name : string) : value := optStr (getenv h name).

Definition resolveSettings (envelope : value) : settings :=
  let payload := if isRecord (prop envelope "payload")
                 then prop envelope "payload" else JObj [] in
  let envApiKey := readString (envValue "MYOPS_MOWEN_API_KEY") in
  let envBaseUrl := readString (envValue "MYOPS_MOWEN_BASE_URL") in
  let envTimeoutMs :=
    readPositiveInt (envValue "MYOPS_MOWEN_TIMEOUT_MS") DEFAULT_TIMEOUT_MS in
  let envMinIntervalMs :=
    readPositiveInt (envValue "MYOPS_MOWEN_MIN_INTERVAL_MS") DEFAULT_MIN_INTERVAL_MS in
  let envStateDir := readString (envValue "MYOPS_MOWEN_STATE_DIR") in
  let envUserAgent := readString (envValue "MYOPS_MOWEN_USER_AGENT") in
  {| apiKey := orElse (readStringFromKeys payload ["apiKey"; "api_key"]) envApiKey;
     baseUrl := normalizeBaseUrl
                  (optStr (orElse (readStringFromKeys payload ["baseUrl"; "base_url"])
                                  envBaseUrl));
     timeoutMs := readIntFromKeys payload ["timeoutMs"; "timeout_ms"] envTimeoutMs;
     minIntervalMs :=
       readIntFromKeys payload ["minIntervalMs"; "min_interval_ms"] envMinIntervalMs;
     stateDir := nullish (orElse (readStringFromKeys payload ["stateDir"; "state_dir"])
                                 envStateDir)
                         (defaultStateDir h);
     userAgent := nullish envUserAgent "my-ops-mowen-adapter/1";
     payload := payload |}.

Definition sleep (ms : Z) : M world unit :=
  fun w => (Ret tt, {| files := files w; requests := requests w;
                       clock := (clock w + ms)%Z; sleeps := sleeps w ++ [ms] |}).

Definition now : M world Z := fun w => (Ret (clock w), w).

Definition readJsonFile (filePath : string) : M world (option value) :=
  fun w => (Ret (files w filePath), w).

Definition writeJsonFile (filePath : string) (doc : value) : M world unit :=
  fun w => (Ret tt,
            {| files := fun p => if String.eqb p filePath then Some doc else files w p;
               requests := requests w; clock := clock w; sleeps := sleeps w |}).

Definition applyRateLimit (s : settings) (key : string) : M world value :=
  let minInterval := readPositiveInt (JNum (minIntervalMs s)) DEFAULT_MIN_INTERVAL_MS in
  if (minInterval <=? 0)%Z then
    ret (JObj [("key", JStr key); ("minIntervalMs", JNum 0); ("sleptMs", JNum 0);
               ("stateDir", JStr (stateDir s))])
  else
    let dir := if String.eqb (stateDir s) "" then defaultStateDir h else stateDir s in
    let stateFile := path_join dir "rate-limit.json" in
    t0 <- now ;;
    file <- readJsonFile stateFile ;;
    let state := match file with Some JNull | None => JObj [] | Some v => v end in
    let lastByKey := match prop state "lastByKey" with JObj o => o | _ => [] end in
    let lastTs := match get key lastByKey with JNum n => n | _ => 0%Z end in
    let waitMs := Z.max 0 (minInterval - (t0 - lastTs)) in
    (if (0 <? waitMs)%Z then sleep waitMs else ret tt) ;;;
    t1 <- now ;;
    writeJsonFile stateFile
      (JObj [("updatedAt", JStr (toISOString h t1));
             ("lastByKey", JObj (set key (JNum t1) lastByKey))]) ;;;
    ret (JObj [("key", JStr key); ("minIntervalMs", JNum minInterval);
               ("sleptMs", JNum waitMs); ("stateDir", JStr dir)]).

Definition pickResponseHeaders (hs : list (string * string)) : value :=
  JObj (flat_map (fun name =>
                    match lookup name hs with
                    | Some v => if String.eqb v "" then [] else [(name, JStr v)]
                    | None => []
                    end)
                 ["content-type"; "x-request-id"; "x-trace-id"]).

(** What [callMowenApi] returns. *)
Record api_response : Type := {
  a_ok : bool;
  a_status : Z;
  a_statusText : string;
  a_headers : value;
  a_durationMs : Z;
  a_json : value;
  a_text : string;
  a_jsonParseError : option string
}.

Definition callMowenApi (s : settings) (path : string) (body : value)
  : M world api_response :=
  fun w =>
    let req := {| url := (baseUrl s ++ path)%string;
                  authorization := ("Bearer " ++ nullish (apiKey s) "undefined")%string;
                  user_agent := userAgent s;
                  request_body := body;
                  abort_after := timeoutMs s |} in
    let sent (d : Z) := {| files := files w; requests := requests w ++ [req];
                           clock := (clock w + d)%Z; sleeps := sleeps w |} in
    match fetch h (requests w) req with
    | FetchFailed d err =>
        let timeout :=
          String.eqb (name err) "TimeoutError" || includes "TimeoutError" (shown err) in
        (Exit (JObj [("ok", JBool false);
                     ("domain", JStr "mowen");
                     ("adapter", JStr ADAPTER_NAME);
                     ("api", JObj [("method", JStr "POST");
                                   ("path", JStr path);
                                   ("baseUrl", JStr (baseUrl s));
                                   ("durationMs", JNum d);
                                   ("timeoutMs", JNum (timeoutMs s))]);
                     ("error", JStr (if timeout then "request timed out"
                                     else "request failed: " ++ shown err))]) 2%Z,
         sent d)
    | Fetched r =>
        let trimmed := trim (text r) in
        let parsed :=
          if String.eqb trimmed "" then (JUndef, None)
          else match JSON_parse h trimmed with
               | Some v => (v, None)
               | None => (JUndef, Some ("SyntaxError: " ++ syntaxError h trimmed)%string)
               end in
        (Ret {| a_ok := r_ok r; a_status := status r; a_statusText := statusText r;
                a_headers := pickResponseHeaders (headers r);
                a_durationMs := took r;
                a_json := fst parsed; a_text := text r;
                a_jsonParseError := snd parsed |},
         sent (took r))
    end.

Definition buildApiResult (originalAction mappedAction path : string)
    (body : value) (response : api_response) (rateLimit : value) (s : settings) : value :=
  JObj ([("ok", JBool (a_ok response));
         ("domain", JStr "mowen");
         ("action", JStr originalAction);
         ("mappedAction", JStr mappedAction);
         ("adapter", JStr ADAPTER_NAME)]
        ++ match extractNoteIdFromResponseJson (a_json response) with
           | Some noteId => [("noteId", JStr noteId)]
           | None => []
           end
        ++ [("api", JObj [("method", JStr "POST");
                          ("path", JStr path);
                          ("baseUrl", JStr (baseUrl s));
                          ("status", JNum (a_status response));
                          ("statusText", JStr (a_statusText response));
                          ("durationMs", JNum (a_durationMs response));
                          ("timeoutMs", JNum (timeoutMs s));
                          ("headers", a_headers response)]);
            ("rateLimit", rateLimit);
            ("request", JObj [("summary", summarizeRequest mappedAction body)]);
            ("response", JObj [("json", a_json response);
                               ("text", match a_json response with
                                        | JUndef => JStr (a_text response)
                                        | _ => JUndef
                                        end);
                               ("jsonParseError", optStr (a_jsonParseError response))])]).

Definition readJsonStdin (stdin : string) : M world value :=
  let t := trim stdin in
  if String.eqb t "" then throw (Error "empty stdin; expected JSON envelope")
  else
    match JSON_parse h t with
    | Some v => ret v
    | None => throw {| name := "SyntaxError"; message := syntaxError h t |}
    end.

Definition rejection (action mappedAction message : string) : value :=
  JObj [("ok", JBool false);
        ("domain", JStr "mowen");
        ("action", JStr action);
        ("mappedAction", JStr mappedAction);
        ("adapter", JStr ADAPTER_NAME);
        ("error", JStr message)].

Definition main (stdin : string) : M world Empty_set :=
  envelope <- readJsonStdin stdin ;;
  if negb (isRecord envelope) then
    writeAndExit (JObj [("ok", JBool false);
                        ("error", JStr "envelope must be an object")]) 2
  else
    match readString (prop envelope "action") with
    | None =>
        writeAndExit (JObj [("ok", JBool false);
                            ("error", JStr "envelope.action is required")]) 2
    | Some action =>
        let domain := readString (prop envelope "domain") in
        if match domain with
           | Some d => negb (String.eqb d "mowen")
           | None => false
           end
        then
          writeAndExit
            (JObj [("ok", JBool false);
                   ("error", JStr ("unexpected domain '" ++ nullish domain ""
                                   ++ "', expected 'mowen'"))]) 2
        else
          let s := resolveSettings envelope in
          let mappedAction := normalizeAction action in
          if String.eqb mappedAction "health" then
            writeAndExit (sanitizeForHealth s) 0
          else if String.eqb mappedAction "append_doc"
                  || String.eqb mappedAction "read_doc"
                  || String.eqb mappedAction "search"
                  || String.eqb mappedAction "list_spaces"
          then
            writeAndExit
              (rejection action mappedAction (unsupportedActionMessage mappedAction)) 2
          else if negb (isSome (apiKey s)) then
            writeAndExit
              (rejection action mappedAction
                 "Missing API key. Set MYOPS_MOWEN_API_KEY or payload.apiKey") 2
          else
            match resolveEndpointAndRequest mappedAction (payload s) with
            | None =>
                writeAndExit
                  (rejection action mappedAction (unsupportedActionMessage mappedAction)) 2
            | Some (inl msg) => throw (Error msg)
            | Some (inr res) =>
                rateLimit <- applyRateLimit s (rateLimitKey res) ;;
                response <- callMowenApi s (endpointPath res) (requestBody res) ;;
                let result :=
                  buildApiResult action mappedAction (endpointPath res) (requestBody res)
                    response rateLimit s in
                if negb (a_ok response) then writeAndExit result 2
                else writeAndExit result 0
            end
    end.

(** The whole process: [main().catch(...)]; a crash exits with 2 as well. *)
Definition run (stdin : string) (w : world) : exited * world :=
  match main stdin w with
  | (Exit p c, w') => ({| stdout_json := p; exit_code := c |}, w')
  | (Throw err, w') =>
      ({| stdout_json := JObj [("ok", JBool false);
                               ("adapter", JStr ADAPTER_NAME);
                               ("domain", JStr "mowen");
                               ("error", JStr ("adapter crashed: " ++ shown err))];
          exit_code := 2 |}, w')
  | (Ret impossible, _) => match impossible with end
  end.

End WithHost.

(** The action names the notes router serves: [health], the three aliases
    and the five native names of [resolveEndpointAndRequest]. *)
Definition actionSet : list string :=
  ["health"; "create_doc"; "update_doc"; "set_doc"; "create_note"; "edit_note";
   "set_note"; "upload_prepare"; "upload_url"].

End Notes.

(** ** The calendar adapter (the macOS Calendar script)

    [Calendar.Jxa] is the script that [osascript] runs ([jxaScriptSource]):
    its date handling, [listEvents] and the event-time rules.  The Node
    entry point that validates the envelope and pipes the script into
    [osascript] follows; it sees the script only through the JSON the
    script prints. *)

Module Calendar.

Import Js Proc.
Local Open Scope proc_scope.

Module Jxa.

Local Open Scope Z_scope.

(** *** ECMAScript time values (milliseconds since the epoch, UTC) *)

Definition msPerSecond : Z := 1000.
Definition msPerMinute : Z := 60000.
Definition msPerHour : Z := 3600000.
Definition msPerDay : Z := 86400000.
Definition maxTime : Z := 8640000000000000.

Definition Day (t : Z) : Z := t / msPerDay.
Definition HourFromTime (t : Z) : Z := (t / msPerHour) mod 24.
Definition MinFromTime (t : Z) : Z := (t / msPerMinute) mod 60.
Definition SecFromTime (t : Z) : Z := (t / msPerSecond) mod 60.
Definition msFromTime (t : Z) : Z := t mod msPerSecond.

Definition MakeTime (hour min sec ms : Z) : Z :=
  hour * msPerHour + min * msPerMinute + sec * msPerSecond + ms.

Definition MakeDate (day time : Z) : Z := day * msPerDay + time.

(** Days from the epoch to the first day of month [m] (1..12) of year [y]
    in the proleptic Gregorian calendar. *)
Definition daysFromCivil (y m : Z) : Z :=
  let y' := if m <=? 2 then y - 1 else y in
  let era := y' / 400 in
  let yoe := y' - era * 400 in
  let doy := (153 * (if 2 <? m then m - 3 else m + 9) + 2) / 5 in
  let doe := yoe * 365 + yoe / 4 - yoe / 100 + doy in
  era * 146097 + doe - 719468.

(** [MakeDay(year, month, date)] with a zero-based, possibly overflowing
    month. *)
Definition MakeDay (year month date : Z) : Z :=
  daysFromCivil (year + month / 12) (month mod 12 + 1) + date - 1.

(** [TimeClip]: [None] is [NaN], the time value of an invalid [Date]. *)
Definition TimeClip (t : Z) : option Z :=
  if Z.abs t <=? maxTime then Some t else None.

(** The time zone of the machine: [LocalTZA(t, true)] and
    [LocalTZA(t, false)]. *)
Record Zone : Type := {
  offsetAtUtc : Z -> Z;
  offsetAtLocal : Z -> Z
}.

Record Host : Type := {
  zone : Zone;
  (** [new Date(s).getTime()] on a string; [None] is [NaN] *)
  Date_parse : string -> option Z;
  now : Z;
  localeCompare : string -> string -> Z
}.

(** An event of Calendar.app as [safeCall] reads it; a property that is
    missing or throws reads as [None]. *)
Record raw_event : Type := {
  ev_uid : option string;
  ev_id : option string;
  ev_calendarName : option string;
  ev_summary : option string;
  ev_startDate : option Z;
  ev_endDate : option Z;
  ev_allday : bool;
  ev_location : option string;
  ev_description : option string;
  ev_url : option string;
  ev_status : option string;
  ev_sequence : option Z;
  ev_stampDate : option Z
}.

Record calendar : Type := {
  cal_name : option string;
  cal_identifier : option string;
  cal_writable : bool;
  cal_description : option string
}.

(** Calendar.app as the script queries it. *)
Record App : Type := {
  calendars : list calendar;
  (** [Calendar.calendars.whose({ name })], realised *)
  calendarsNamed : string -> list calendar;
  (** the realised collection of one calendar for a range: what
      [cal.events.whose(...)] yields, or [cal.events()] when [whose] throws *)
  eventsIn : calendar -> Z -> Z -> list raw_event
}.

(** The row that [eventToJson] builds; [start] and [end] are kept as time
    values (the script prints them with [toISOString] and reads them back
    with [new Date]). *)
Record row : Type := {
  id : option string;
  r_calendar : option string;
  title : option string;
  start : option Z;
  end_ : option Z;
  allDay : bool;
  location : option string;
  (** [None] once [delete row.notes] ran; [Some None] is [null] *)
  notes : option (option string);
  r_url : option string;
  r_status : option string;
  sequence : option Z;
  modifiedAt : option Z
}.

(** [a || b] on strings that may be null. *)
Definition orStr (a b : option string) : option string :=
  match a with
  | Some s => if String.eqb s "" then b else a
  | None => b
  end.

(** [toIso]: an invalid date prints as [null]. *)
Definition toIso (d : option Z) : option Z :=
  match d with
  | Some t => TimeClip t
  | None => None
  end.

Definition eventToJson (ev : raw_event) (calendarName : option string) : row :=
  let uid := orStr (ev_uid ev) (ev_id ev) in
  {| id := orStr uid None;
     r_calendar := orStr calendarName (orStr (ev_calendarName ev) None);
     title := ev_summary ev;
     start := toIso (ev_startDate ev);
     end_ := toIso (ev_endDate ev);
     allDay := ev_allday ev;
     location := ev_location ev;
     notes := Some (ev_description ev);
     r_url := ev_url ev;
     r_status := ev_status ev;
     sequence := ev_sequence ev;
     modifiedAt := toIso (ev_stampDate ev) |}.

(** A date as [parseDateInput] receives it: a payload value, or a [Date]
    object read from an existing event ([updateEvent]). *)
Inductive dinput : Type :=
| FromJson (v : value)
| FromDate (ms : option Z).

Definition dtruthy (x : dinput) : bool :=
  match x with
  | FromJson v => truthy v
  | FromDate _ => true
  end.

(** [/^(\d{4})-(\d{2})-(\d{2})$/] *)
Definition matchYmd (s : string) : option (Z * Z * Z) :=
  match list_ascii_of_string s with
  | [y1; y2; y3; y4; d1; m1; m2; d2; a1; a2] =>
      if Ascii.eqb d1 "-" && Ascii.eqb d2 "-"
         && forallb is_digit [y1; y2; y3; y4; m1; m2; a1; a2]
      then
        match digits_prefix (string_of_list_ascii [y1; y2; y3; y4]) None,
              digits_prefix (string_of_list_ascii [m1; m2]) None,
              digits_prefix (string_of_list_ascii [a1; a2]) None with
        | Some y, Some m, Some d => Some (y, m, d)
        | _, _, _ => None
        end
      else None
  | _ => None
  end.

Section WithHost.

Variable h : Host.

Definition LocalTime (t : Z) : Z := t + offsetAtUtc (zone h) t.
Definition UTC (t : Z) : Z := t - offsetAtLocal (zone h) t.

(** [new Date(y, mo - 1, da, 0, 0, 0, 0).getTime()] *)
Definition localMidnight (y mo da : Z) : option Z :=
  let year := if (0 <=? y) && (y <=? 99) then 1900 + y else y in
  TimeClip (UTC (MakeDate (MakeDay year (mo - 1) da) 0)).

(** [d.getHours()] *)
Definition getHours (t : Z) : Z := HourFromTime (LocalTime t).

(** [d.setHours(hour)]: the new time value of [d]. *)
Definition setHours (t hour : Z) : option Z :=
  let l := LocalTime t in
  TimeClip (UTC (MakeDate (Day l)
                          (MakeTime hour (MinFromTime l) (SecFromTime l) (msFromTime l)))).

Definition parseDateInput (x : dinput) (fieldName : string) : sum string Z :=
  match x with
  | FromDate (Some t) => inr t
  | FromDate None => inl ("invalid date for " ++ fieldName)%string
  | FromJson (JNum n) =>
      match TimeClip n with
      | Some t => inr t
      | None => inl ("invalid timestamp for " ++ fieldName)%string
      end
  | FromJson (JStr v) =>
      let s := trim v in
      if String.eqb s "" then inl (fieldName ++ " is empty")%string
      else
        match matchYmd s with
        | Some (y, mo, da) =>
            match localMidnight y mo da with
            | Some t => inr t
            | None => inl ("invalid date for " ++ fieldName)%string
            end
        | None =>
            match Date_parse h s with
            | Some t => inr t
            | None => inl ("invalid date for " ++ fieldName ++ ": " ++ s)%string
            end
        end
  | FromJson _ => inl (fieldName ++ " must be a date string")%string
  end.

Definition normalizeDateRange (payload : value) : sum string (Z * Z) :=
  match (if truthy (prop payload "start")
         then parseDateInput (FromJson (prop payload "start")) "payload.start"
         else inr (now h)) with
  | inl err => inl err
  | inr s =>
      match (if truthy (prop payload "end")
             then match parseDateInput (FromJson (prop payload "end")) "payload.end" with
                  | inl err => inl err
                  | inr e => inr (Some e)
                  end
             else inr (TimeClip (s + 7 * 24 * 60 * 60 * 1000))) with
      | inl err => inl err
      | inr e =>
          match e with
          | Some t => if s <? t then inr (s, t)
                      else inl "payload.end must be later than payload.start"
          | None => inl "payload.end must be later than payload.start"
          end
      end
  end.

Definition clampPositiveInt (v : value) (fallback max : Z) : Z :=
  let n := match v with
           | JNum k => Some k
           | JStr s => if String.eqb (trim s) "" then Some fallback
                       else parseInt (trim s)
           | _ => Some fallback
           end in
  let n := match n with
           | Some k => if k <=? 0 then fallback else k
           | None => fallback
           end in
  if max <? n then max else n.

Record event_times : Type := { t_start : Z; t_end : Z; t_allDay : bool }.

(** [ensureEventTimes(payload)] on the three fields it reads; [allDay] is
    [payload.allDay === true || payload.allday === true ||
    payload.alldayEvent === true]. *)
Definition ensureEventTimes (startIn endIn : dinput) (allDay : bool)
  : sum string event_times :=
  match parseDateInput startIn "payload.start" with
  | inl err => inl err
  | inr s =>
      match (if dtruthy endIn
             then match parseDateInput endIn "payload.end" with
                  | inl err => inl err
                  | inr e => inr (Some e)
                  end
             else inr (setHours s (getHours s + (if allDay then 24 else 1)))) with
      | inl err => inl err
      | inr e =>
          match e with
          | Some t => if s <? t
                      then inr {| t_start := s; t_end := t; t_allDay := allDay |}
                      else inl "payload.end must be later than payload.start"
          | None => inl "payload.end must be later than payload.start"
          end
      end
  end.

Definition isTrue (v : value) : bool :=
  match v with
  | JBool true => true
  | _ => false
  end.

Definition payloadAllDay (payload : value) : bool :=
  isTrue (prop payload "allDay") || isTrue (prop payload "allday")
  || isTrue (prop payload "alldayEvent").

Definition ensureEventTimesOf (payload : value) : sum string event_times :=
  ensureEventTimes (FromJson (prop payload "start")) (FromJson (prop payload "end"))
                   (payloadAllDay payload).

(** [updateEvent]: the times handed to [ensureEventTimes] are the payload's
    where the payload owns the field and the event's current ones
    elsewhere. *)
Definition updateEventTimes (payload : value) (ev : raw_event)
  : sum string event_times :=
  let fromEvent (d : option Z) : dinput :=
    match d with
    | Some t => FromDate (TimeClip t)
    | None => FromJson JNull
    end in
  ensureEventTimes
    (if hasOwn payload "start" then FromJson (prop payload "start")
     else fromEvent (ev_startDate ev))
    (if hasOwn payload "end" then FromJson (prop payload "end")
     else fromEvent (ev_endDate ev))
    (if hasOwn payload "allDay" then isTrue (prop payload "allDay")
     else if hasOwn payload "allday" then isTrue (prop payload "allday")
     else if hasOwn payload "alldayEvent" then isTrue (prop payload "alldayEvent")
     else ev_allday ev).

Fixpoint dedup (seen names : list string) : list string :=
  match names with
  | [] => []
  | n :: rest =>
      if existsb (String.eqb n) seen then dedup seen rest
      else n :: dedup (n :: seen) rest
  end.

Definition selectCalendars (app : App) (payload : value) : list calendar :=
  let one := match prop payload "calendar" with
             | JStr c => if String.eqb (trim c) "" then [] else [trim c]
             | _ => []
             end in
  let many := match prop payload "calendars" with
              | JArr l =>
                  filter_map (fun v => match v with
                                       | JStr c => if String.eqb (trim c) "" then None
                                                   else Some (trim c)
                                       | _ => None
                                       end) l
              | _ => []
              end in
  match dedup [] (one ++ many) with
  | [] => calendars app
  | uniqueNames => flat_map (calendarsNamed app) uniqueNames
  end.

Definition pickTargetCalendar (app : App) (defaultCalendar : value) (payload : value)
  : sum string calendar :=
  let requested :=
    match prop payload "calendar" with
    | JStr c => if String.eqb (trim c) "" then None else Some (trim c)
    | _ => None
    end in
  let requested :=
    match requested with
    | Some c => Some c
    | None => match defaultCalendar with
              | JStr c => if String.eqb (trim c) "" then None else Some (trim c)
              | _ => None
              end
    end in
  match requested with
  | Some name =>
      match calendarsNamed app name with
      | c :: _ => inr c
      | [] => inl ("calendar not found: " ++ name)%string
      end
  | None =>
      match filter cal_writable (calendars app) with
      | c :: _ => inr c
      | [] => match calendars app with
              | c :: _ => inr c
              | [] => inl "no calendars available"
              end
      end
  end.

(** The haystack of the [query] filter, lower-cased. *)
Definition haystack (r : row) (includeNotes : bool) : string :=
  let keep (o : option string) : list string :=
    match o with
    | Some s => if String.eqb s "" then [] else [s]
    | None => []
    end in
  toLowerCase
    (join (String "010"%char "")
          (keep (title r) ++ keep (location r)
           ++ (if includeNotes
               then match notes r with Some n => keep n | None => [] end
               else []))).

(** [delete row.notes] *)
Definition deleteNotes (r : row) : row :=
  {| id := id r; r_calendar := r_calendar r; title := title r; start := start r;
     end_ := end_ r; allDay := allDay r; location := location r; notes := None;
     r_url := r_url r; r_status := r_status r; sequence := sequence r;
     modifiedAt := modifiedAt r |}.

(** The half-open overlap test of the inner loop:
    [startMs < range.end.getTime() && endMs > range.start.getTime()],
    after the two [Number.isFinite] guards. *)
Definition overlaps (r : row) (rangeStart rangeEnd : Z) : bool :=
  match start r, end_ r with
  | Some startMs, Some endMs => (startMs <? rangeEnd) && (rangeStart <? endMs)
  | _, _ => false
  end.

(** [payload.query], trimmed and lower-cased; [""] when it is not a string. *)
Definition queryOf (payload : value) : string :=
  match prop payload "query" with
  | JStr q => toLowerCase (trim q)
  | _ => ""
  end.

(** The [query] filter: an empty query keeps every row. *)
Definition matchesQuery (query : string) (includeNotes : bool) (r : row) : bool :=
  String.eqb query "" || includes query (haystack r includeNotes).

(** The body of the inner loop: the row pushed for one event, if any. *)
Definition keepEvent (rangeStart rangeEnd : Z) (query : string) (includeNotes : bool)
    (calName : option string) (ev : raw_event) : option row :=
  let r := eventToJson ev calName in
  if negb (isSome (id r)) then None
  else if negb (isSome (start r) && isSome (end_ r)) then None
  else if negb (overlaps r rangeStart rangeEnd) then None
  else if negb (matchesQuery query includeNotes r) then None
  else Some (if includeNotes then r else deleteNotes r).

(** The comparator of [items.sort]. *)
Definition compareRows (a b : row) : Z :=
  let as_ := nullish (start a) 0 in
  let bs := nullish (start b) 0 in
  if negb (as_ =? bs) then as_ - bs
  else localeCompare h (nullish (orStr (title a) None) "")
                       (nullish (orStr (title b) None) "").

(** [Array.prototype.sort] is stable: insertion from the right keeps equal
    rows in their order. *)
Fixpoint insertRow (x : row) (l : list row) : list row :=
  match l with
  | [] => [x]
  | y :: rest => if compareRows x y <=? 0 then x :: l else y :: insertRow x rest
  end.

Definition sortRows (l : list row) : list row := fold_right insertRow [] l.

Record listing : Type := {
  items : list row;
  count : Z;
  range : Z * Z;
  l_action : string
}.

(** The rows pushed by the two loops, before sorting and truncation. *)
Definition collect (app : App) (payload : value) (rangeStart rangeEnd : Z) : list row :=
  let includeNotes := isTrue (prop payload "includeNotes") in
  flat_map (fun cal =>
              filter_map (keepEvent rangeStart rangeEnd (queryOf payload) includeNotes
                            (cal_name cal))
                         (eventsIn app cal rangeStart rangeEnd))
           (selectCalendars app payload).

Definition listEvents (app : App) (payload : value) (action : string)
  : sum string listing :=
  match normalizeDateRange payload with
  | inl err => inl err
  | inr (rangeStart, rangeEnd) =>
      let limit := clampPositiveInt (prop payload "limit") 50 500 in
      let sorted := sortRows (collect app payload rangeStart rangeEnd) in
      let items := firstn (Z.to_nat limit) sorted in
      inr {| items := items; count := Z.of_nat (length items);
             range := (rangeStart, rangeEnd); l_action := action |}
  end.

(** The properties that [createEvent] hands to [Calendar.Event]. *)
Record event_props : Type := {
  p_summary : string;
  p_startDate : Z;
  p_endDate : Z;
  p_location : option string;
  p_description : option string;
  p_url : option string;
  p_alldayEvent : bool;
  p_calendar : calendar
}.

Definition strField (v : value) : option string :=
  match v with
  | JStr s => Some s
  | _ => None
  end.

Definition createEvent (app : App) (defaultCalendar : value) (payload : value)
  : sum string event_props :=
  let named (v : value) : option string :=
    match v with
    | JStr s => if String.eqb (trim s) "" then None else Some (trim s)
    | _ => None
    end in
  match (match named (prop payload "title") with
         | Some t => Some t
         | None => named (prop payload "summary")
         end) with
  | None => inl "payload.title (or summary) required"
  | Some t =>
      match pickTargetCalendar app defaultCalendar payload with
      | inl err => inl err
      | inr target =>
          match ensureEventTimesOf payload with
          | inl err => inl err
          | inr times =>
              inr {| p_summary := t;
                     p_startDate := t_start times;
                     p_endDate := t_end times;
                     p_location := strField (prop payload "location");
                     p_description :=
                       match strField (prop payload "description") with
                       | Some d => Some d
                       | None => strField (prop payload "notes")
                       end;
                     p_url := strField (prop payload "url");
                     p_alldayEvent := t_allDay times;
                     p_calendar := target |}
          end
      end
  end.

End WithHost.

End Jxa.

(** *** The Node entry point *)

(** One run of [osascript -l JavaScript] on the script, with the request
    file it is pointed at. *)
Record call : Type := {
  argv : list string;
  request : value;
  call_timeoutMs : Z
}.

Record Host : Type := {
  getenv : string -> option string;
  (** [osascript] running the script against Calendar.app *)
  osascript : list call -> call -> spawned;
  JSON_parse : string -> option value;
  syntaxError : string -> string;
  elapsedMs : Z
}.

Record world : Type := { calls : list call }.

Record settings : Type := {
  osascriptBin : string;
  timeoutMs : Z;
  defaultCalendar : option string;
  payload : value
}.

Record response : Type := { exitCode : Z; body : value }.

Definition supportedActions : list string :=
  ["health"; "list_calendars"; "list_events"; "search"; "get_event";
   "create_event"; "update_event"; "delete_event"].

Definition envelopeBase (action : string) (okFlag : bool) : obj :=
  [("ok", JBool okFlag); ("domain", JStr "calendar"); ("action", JStr action);
   ("adapter", JStr "macos-calendar-jxa")].

Definition envelopeOkResponse (action : string) (extra : obj) : value :=
  JObj (spread (envelopeBase action true) extra).

Definition envelopeErrorResponse (action : string) (extra : obj) : value :=
  JObj (spread (envelopeBase action false) extra).

Section WithHost.

Variable h : Host.

Definition envValue (name : string) : value := optStr (getenv h name).

Definition resolveAdapterSettings (envelope : value) : settings :=
  let payload := if isRecord (prop envelope "payload")
                 then prop envelope "payload" else JObj [] in
  let envOsa := nullish (readString (envValue "MYOPS_CALENDAR_OSASCRIPT_BIN"))
                        "/usr/bin/osascript" in
  let envTimeoutMs := readPositiveInt (envValue "MYOPS_CALENDAR_TIMEOUT_MS") 20000 in
  let envDefaultCalendar := readString (envValue "MYOPS_CALENDAR_DEFAULT_CALENDAR") in
  {| osascriptBin := nullish (readString (prop payload "osascriptBin")) envOsa;
     timeoutMs := readPositiveInt (prop payload "timeoutMs") envTimeoutMs;
     defaultCalendar := orElse (readString (prop payload "defaultCalendar"))
                               envDefaultCalendar;
     payload := payload |}.

Definition parseJsonOrUndefined (t : string) : value :=
  let trimmed := trim t in
  if String.eqb trimmed "" then JUndef
  else match JSON_parse h trimmed with
       | Some v => v
       | None => JUndef
       end.

Definition runJxaCalendar (s : settings) (envelope : value) : M world proc_result :=
  fun w =>
    let c := {| argv := [osascriptBin s; "-l"; "JavaScript"];
                request := JObj [("action", prop envelope "action");
                                 ("payload", payload s);
                                 ("config",
                                  JObj [("defaultCalendar",
                                         optStr (defaultCalendar s))])];
                call_timeoutMs := readPositiveInt (JNum (timeoutMs s)) 30000 |} in
    let w' := {| calls := calls w ++ [c] |} in
    match osascript h (calls w) c with
    | SpawnError e => (Throw e, w')
    | Closed r => (Ret r, w')
    | Gone _ => die w'   (* the script is always written to the child's stdin *)
    end.

Definition dispatch (envelope : value) (action : string) : M world response :=
  let s := resolveAdapterSettings envelope in
  if existsb (String.eqb action)
       ["list_events"; "search"; "create_event"; "update_event"; "delete_event";
        "get_event"]
     && negb (isRecord (payload s))
  then
    ret {| exitCode := 2;
           body := envelopeErrorResponse action
                     [("error", JStr "payload must be an object")] |}
  else
    attempt <- try_catch (r <- runJxaCalendar s envelope ;; ret (inl r))
                         (fun err => ret (inr err)) ;;
    let transportError := match attempt with inl _ => false | inr _ => true end in
    let exec :=
      match attempt with
      | inl r => r
      | inr err => {| code := None; signal := None; killed := false;
                      stdout := ""; stderr := shown err |}
      end in
    let parsed := parseJsonOrUndefined (stdout exec) in
    let jxaOk := isRecord parsed
                 && match prop parsed "ok" with JBool true => true | _ => false end in
    let okFlag := negb transportError
                  && match code exec with Some 0%Z => true | _ => false end
                  && jxaOk in
    ret {| exitCode := if okFlag then 0%Z else 3%Z;
           body :=
             (if okFlag then envelopeOkResponse else envelopeErrorResponse) action
               ((if isRecord parsed && isRecord (prop parsed "data")
                 then [("data", prop parsed "data")] else [])
                ++ match (if isRecord parsed then prop parsed "error" else JUndef) with
                   | JStr e => [("error", JStr e)]
                   | _ => []
                   end
                ++ [("result",
                     JObj [("exec",
                            JObj [("code", match code exec with
                                           | Some z => JNum z
                                           | None => JNull
                                           end);
                                  ("signal", orNull (signal exec));
                                  ("killed", JBool (killed exec));
                                  ("timeoutMs",
                                   JNum (if transportError then timeoutMs s
                                         else readPositiveInt (JNum (timeoutMs s)) 30000));
                                  ("durationMs", JNum (elapsedMs h))]);
                           ("stdoutJson", parsed);
                           ("stderr", nonEmpty (stderr exec));
                           ("stdoutRaw", match parsed with
                                         | JUndef => JStr (stdout exec)
                                         | _ => JUndef
                                         end)])]) |}.

Definition readJsonStdin (stdin : string) : M world value :=
  let t := trim stdin in
  if String.eqb t "" then throw (Error "empty stdin; expected JSON envelope")
  else
    match JSON_parse h t with
    | Some v => ret v
    | None => throw {| name := "SyntaxError"; message := syntaxError h t |}
    end.

Definition main (stdin : string) : M world Empty_set :=
  envelope <- readJsonStdin stdin ;;
  if negb (isRecord envelope) then
    writeAndExit (JObj [("ok", JBool false); ("domain", JStr "calendar");
                        ("adapter", JStr "macos-calendar-jxa");
                        ("error", JStr "expected JSON object envelope")]) 2
  else
    match readString (prop envelope "action") with
    | None =>
        writeAndExit (JObj [("ok", JBool false); ("domain", JStr "calendar");
                            ("adapter", JStr "macos-calendar-jxa");
                            ("error", JStr "envelope.action required")]) 2
    | Some action =>
        if negb (existsb (String.eqb action) supportedActions) then
          writeAndExit (JObj [("ok", JBool false); ("domain", JStr "calendar");
                              ("adapter", JStr "macos-calendar-jxa");
                              ("action", JStr action);
                              ("error", JStr ("unsupported action '" ++ action ++ "'"));
                              ("supportedActions", JArr (map JStr supportedActions))]) 2
        else
          res <- dispatch envelope action ;;
          writeAndExit (body res) (exitCode res)
    end.

(** The whole process: [main().catch(...)] reports the message and exits
    with 1. *)
Definition run (stdin : string) (w : world) : exited * world :=
  match main stdin w with
  | (Exit p c, w') => ({| stdout_json := p; exit_code := c |}, w')
  | (Throw err, w') =>
      ({| stdout_json := JObj [("ok", JBool false); ("domain", JStr "calendar");
                               ("adapter", JStr "macos-calendar-jxa");
                               ("error", JStr (message err))];
          exit_code := 1 |}, w')
  | (Ret impossible, _) => match impossible with end
  end.

End WithHost.

End Calendar.

(** * The promises of the protocol description, as predicates on runs *)

Module Spec.

Import Js Proc.

(** Idempotent send: two [send_message] calls with one envelope both
    succeed, the second as a duplicate, and the backend sees exactly one
    [send] command. *)
Definition idempotentSend (h : Mail.Host) (envelope : value) (w0 : Mail.world) : Prop :=
  exists r1 w1 r2 w2 content,
    Mail.dispatch h envelope "send_message" w0 = (Ret r1, w1)
    /\ Mail.dispatch h envelope "send_message" w1 = (Ret r2, w2)
    /\ Mail.exitCode r1 = 0%Z /\ prop (Mail.body r1) "ok" = JBool true
    /\ Mail.exitCode r2 = 0%Z /\ prop (Mail.body r2) "ok" = JBool true
    /\ prop (prop (Mail.body r2) "idempotency") "duplicate" = JBool true
    /\ prop (prop (Mail.body r2) "idempotency") "skippedSend" = JBool true
    /\ Mail.calls w2 = Mail.calls w0 ++ [Mail.sendCallOf h envelope content].

(** Conflict on a reused key, for every key recorded in the store:
    whenever the store holds a record of the idempotency key of the
    request with a content hash other than that of the message at hand,
    [send_message] is refused (exit code 2, [ok = false], marked as a
    conflict) and no backend command is issued. *)
Definition conflictOnReusedKey (h : Mail.Host) (envelope : value) (w : Mail.world) : Prop :=
  let s := Mail.resolveAdapterSettings h envelope in
  forall content key entryKey existing recordedHash,
    Mail.sendContent (Mail.payload s) = Some content ->
    Mail.sendIdempotencyKey envelope (Mail.payload s) = Some key ->
    get entryKey (Mail.storeKeys (Mail.files w (Mail.resolveIdempotencyStorePath h s)))
    = JObj existing ->
    get "idempotencyKey" existing = JStr key ->
    get "contentHash" existing = JStr recordedHash ->
    recordedHash <> Mail.sha256Hex h content ->
    exists res w',
      Mail.dispatch h envelope "send_message" w = (Ret res, w')
      /\ Mail.exitCode res = 2%Z
      /\ prop (Mail.body res) "ok" = JBool false
      /\ prop (prop (Mail.body res) "idempotency") "conflict" = JBool true
      /\ Mail.calls w' = Mail.calls w.

(** A rejection that names the supported actions. *)
Definition rejectsListing (out : exited) (supported : list string) : Prop :=
  exit_code out = 2%Z
  /\ prop (stdout_json out) "ok" = JBool false
  /\ prop (stdout_json out) "supportedActions" = JArr (map JStr supported).

(** A plain validation failure. *)
Definition rejects (out : exited) : Prop :=
  exit_code out = 2%Z /\ prop (stdout_json out) "ok" = JBool false.

(** The shape of what an adapter reads on standard input. *)
Inductive input_kind : Type :=
| Empty
| Unparsable
| NonObject (v : value)
| Envelope (v : value).

Definition classify (parse : string -> option value) (stdin : string) : input_kind :=
  if String.eqb (trim stdin) "" then Empty
  else
    match parse (trim stdin) with
    | None => Unparsable
    | Some v => if isRecord v then Envelope v else NonObject v
    end.

(** An event of Calendar.app overlaps the half-open range. *)
Definition eventOverlaps (ev : Calendar.Jxa.raw_event) (rangeStart rangeEnd : Z) : Prop :=
  exists s e,
    Calendar.Jxa.ev_startDate ev = Some s /\ Calendar.Jxa.ev_endDate ev = Some e
    /\ (s < rangeEnd)%Z /\ (rangeStart < e)%Z.

(** The event's row is among the items (with or without its notes). *)
Definition listed (ev : Calendar.Jxa.raw_event) (cal : Calendar.Jxa.calendar)
    (l : Calendar.Jxa.listing) : Prop :=
  let r := Calendar.Jxa.eventToJson ev (Calendar.Jxa.cal_name cal) in
  In r (Calendar.Jxa.items l) \/ In (Calendar.Jxa.deleteNotes r) (Calendar.Jxa.items l).

(** A listing holds an event if and only if the event overlaps the range. *)
Definition includedIffOverlapping (h : Calendar.Jxa.Host) (app : Calendar.Jxa.App)
    (payload : value) (action : string) : Prop :=
  forall l,
    Calendar.Jxa.listEvents h app payload action = inr l ->
    forall cal ev,
      In cal (Calendar.Jxa.selectCalendars app payload) ->
      In ev (Calendar.Jxa.eventsIn app cal (fst (Calendar.Jxa.range l))
               (snd (Calendar.Jxa.range l))) ->
      (listed ev cal l
       <-> eventOverlaps ev (fst (Calendar.Jxa.range l)) (snd (Calendar.Jxa.range l))).

End Spec.

(** * Example hosts, worlds and requests

    Concrete instances used to run the model on inputs.  The example
    parser knows the example documents by the text they are given under;
    the example digest is injective and never blank. *)

Module Examples.

Import Js Proc.

Definition exitedWith (c : Z) : proc_result :=
  {| code := Some c; signal := None; killed := false; stdout := ""; stderr := "" |}.

Definition sendEnvelope : value :=
  JObj [("version", JNum 1); ("domain", JStr "mail"); ("action", JStr "send_message");
        ("idempotencyKey", JStr "send-42");
        ("payload", JObj [("rawMessage", JStr "Subject: Hello")])].

(** The same key with another message body. *)
Definition sendEnvelopeB : value :=
  JObj [("version", JNum 1); ("domain", JStr "mail"); ("action", JStr "send_message");
        ("idempotencyKey", JStr "send-42");
        ("payload", JObj [("rawMessage", JStr "Subject: Other")])].

(** The same key once more, with the other body and sent as a template. *)
Definition sendEnvelopeMml : value :=
  JObj [("version", JNum 1); ("domain", JStr "mail"); ("action", JStr "send_message");
        ("idempotencyKey", JStr "send-42");
        ("payload", JObj [("rawMessage", JStr "Subject: Other");
                          ("format", JStr "mml")])].

(** A [send_message] request whose payload carries no message at all. *)
Definition emptySendEnvelope : value :=
  JObj [("version", JNum 1); ("domain", JStr "mail"); ("action", JStr "send_message");
        ("idempotencyKey", JStr "send-42"); ("payload", JObj [])].

Definition mailHealthEnvelope : value :=
  JObj [("version", JNum 1); ("domain", JStr "mail"); ("action", JStr "health");
        ("payload", JObj [])].

Definition unknownActionEnvelope (domain : string) : value :=
  JObj [("version", JNum 1); ("domain", JStr domain); ("action", JStr "frobnicate");
        ("payload", JObj [])].

Definition notesHealthEnvelope (domain : value) : value :=
  JObj [("version", JNum 1); ("domain", domain); ("action", JStr "health");
        ("payload", JObj [])].

Definition documents : list (string * value) :=
  [("send", sendEnvelope);
   ("mail-health", mailHealthEnvelope);
   ("mail-unknown", unknownActionEnvelope "mail");
   ("calendar-unknown", unknownActionEnvelope "calendar");
   ("notes-unknown", unknownActionEnvelope "mowen");
   ("notes-health", notesHealthEnvelope (JStr "mowen"));
   ("notes-health-blank-domain", notesHealthEnvelope (JStr " "));
   ("notes-health-other-domain", notesHealthEnvelope (JStr "notes"));
   ("array", JArr [])].

Definition parse (t : string) : option value := lookup t documents.

Definition mailHost (backend : list Mail.call -> Mail.call -> spawned) : Mail.Host :=
  {| Mail.getenv := fun _ => None;
     Mail.defaultConfigPath := "/home/ops/.config/himalaya/config.toml";
     Mail.defaultStateDir := "/home/ops/.local/state/openclaw/my-ops";
     Mail.pathExists := fun _ => false;
     Mail.spawn := backend;
     Mail.JSON_parse := parse;
     Mail.syntaxError := fun _ => "Unexpected token";
     Mail.sha256Hex := fun s => ("digest-of:" ++ s)%string;
     Mail.nowIso := "2026-02-22T00:00:00.000Z";
     Mail.elapsedMs := 5 |}.

(** A backend whose every command exits with [c]. *)
Definition always (c : Z) : list Mail.call -> Mail.call -> spawned :=
  fun _ _ => Closed (exitedWith c).

Definition mailWorld : Mail.world :=
  {| Mail.files := fun _ => None; Mail.calls := [] |}.

(** The world after [sendEnvelope] went through a backend that accepts it. *)
Definition recordedWorld : Mail.world :=
  snd (Mail.dispatch (mailHost (always 0)) sendEnvelope "send_message" mailWorld).

(** The record that [recordedWorld] keeps for [sendEnvelope]. *)
Definition recordedEntry : obj :=
  match Mail.storedEntry (mailHost (always 0)) recordedWorld sendEnvelope "send-42" with
  | JObj entry => entry
  | _ => []
  end.

Definition notesHost (key : option string) : Notes.Host :=
  {| Notes.getenv := fun n => if String.eqb n "MYOPS_MOWEN_API_KEY" then key else None;
     Notes.defaultStateDir := "/home/ops/.local/state/my-ops/mowen";
     Notes.fetch := fun _ _ => Notes.FetchFailed 0 (Error "fetch failed");
     Notes.JSON_parse := parse;
     Notes.syntaxError := fun _ => "Unexpected token";
     Notes.toISOString := fun _ => "2026-02-22T00:00:00.000Z" |}.

Definition notesWorld : Notes.world :=
  {| Notes.files := fun _ => None; Notes.requests := []; Notes.clock := 0;
     Notes.sleeps := [] |}.

Definition calendarHost : Calendar.Host :=
  {| Calendar.getenv := fun _ => None;
     Calendar.osascript := fun _ _ => Closed (exitedWith 0);
     Calendar.JSON_parse := parse;
     Calendar.syntaxError := fun _ => "Unexpected token";
     Calendar.elapsedMs := 5 |}.

Definition calendarWorld : Calendar.world := {| Calendar.calls := [] |}.

(** A zone with one daylight-saving change: US Eastern time around
    2024-11-03T06:00:00Z, when 02:00 EDT (UTC-4) becomes 01:00 EST (UTC-5).
    A local time that occurs twice is read with the offset before the
    change. *)
Definition easternZone : Calendar.Jxa.Zone :=
  {| Calendar.Jxa.offsetAtUtc :=
       fun t => if (t <? 1730613600000)%Z then (-14400000)%Z else (-18000000)%Z;
     Calendar.Jxa.offsetAtLocal :=
       fun l => if (l <? 1730599200000)%Z then (-14400000)%Z else (-18000000)%Z |}.

(** A zone at a fixed offset (UTC+8). *)
Definition fixedZone : Calendar.Jxa.Zone :=
  {| Calendar.Jxa.offsetAtUtc := fun _ => 28800000%Z;
     Calendar.Jxa.offsetAtLocal := fun _ => 28800000%Z |}.

Definition jxaHost (z : Calendar.Jxa.Zone) : Calendar.Jxa.Host :=
  {| Calendar.Jxa.zone := z;
     Calendar.Jxa.Date_parse := fun _ => None;
     Calendar.Jxa.now := 1730000000000%Z;
     Calendar.Jxa.localeCompare :=
       fun a b => match String.compare a b with
                  | Lt => (-1)%Z
                  | Eq => 0%Z
                  | Gt => 1%Z
                  end |}.

Definition timedEvent (uid name : string) (s e : Z) : Calendar.Jxa.raw_event :=
  {| Calendar.Jxa.ev_uid := Some uid;
     Calendar.Jxa.ev_id := None;
     Calendar.Jxa.ev_calendarName := None;
     Calendar.Jxa.ev_summary := Some name;
     Calendar.Jxa.ev_startDate := Some s;
     Calendar.Jxa.ev_endDate := Some e;
     Calendar.Jxa.ev_allday := false;
     Calendar.Jxa.ev_location := None;
     Calendar.Jxa.ev_description := None;
     Calendar.Jxa.ev_url := None;
     Calendar.Jxa.ev_status := None;
     Calendar.Jxa.ev_sequence := None;
     Calendar.Jxa.ev_stampDate := None |}.

Definition workCalendar : Calendar.Jxa.calendar :=
  {| Calendar.Jxa.cal_name := Some "Work";
     Calendar.Jxa.cal_identifier := Some "cal-1";
     Calendar.Jxa.cal_writable := true;
     Calendar.Jxa.cal_description := None |}.

(** One calendar holding the given events; the application applies no
    filter of its own. *)
Definition appWith (evs : list Calendar.Jxa.raw_event) : Calendar.Jxa.App :=
  {| Calendar.Jxa.calendars := [workCalendar];
     Calendar.Jxa.calendarsNamed :=
       fun n => if String.eqb n "Work" then [workCalendar] else [];
     Calendar.Jxa.eventsIn := fun _ _ _ => evs |}.

(** 2026-02-22 in UTC, as milliseconds: 10:00, 10:30, 11:00, 11:30, 12:00. *)
Definition t1000 : Z := 1771754400000.
Definition t1030 : Z := 1771756200000.
Definition t1100 : Z := 1771758000000.
Definition t1130 : Z := 1771759800000.
Definition t1200 : Z := 1771761600000.

Definition E1 : Calendar.Jxa.raw_event := timedEvent "e1" "Standup" t1000 t1100.
Definition E2 : Calendar.Jxa.raw_event := timedEvent "e2" "Review" t1130 t1200.
Definition E3 : Calendar.Jxa.raw_event := timedEvent "e3" "Planning" t1030 t1130.

Definition rangePayload (extra : obj) : value :=
  JObj ([("start", JNum t1030); ("end", JNum t1130)] ++ extra).

End Examples.

(** * What every run of a router keeps, as predicates *)

Module Laws.

Import Js Proc.

(** The three fields every mail response carries. *)
Definition mailEcho (action : string) (body : value) : Prop :=
  prop body "domain" = JStr "mail"
  /\ prop body "action" = JStr action
  /\ prop body "adapter" = JStr "himalaya".

(** How a mail handler that pipes no input to its command may end: a
    validation failure that leaves the world alone, or one backend
    command whose exit code decides between [ok = true] with exit code 0
    and [ok = false] with exit code 3; a spawn failure throws after the
    command was attempted. *)
Definition mailOutcome (action : string) (w : Mail.world)
    (r : outcome Mail.response * Mail.world) : Prop :=
  match fst r with
  | Ret res =>
      mailEcho action (Mail.body res)
      /\ ((Mail.exitCode res = 2%Z /\ prop (Mail.body res) "ok" = JBool false
           /\ snd r = w)
          \/ (exists c, Mail.calls (snd r) = Mail.calls w ++ [c])
             /\ ((Mail.exitCode res = 0%Z /\ prop (Mail.body res) "ok" = JBool true)
                 \/ (Mail.exitCode res = 3%Z
                     /\ prop (Mail.body res) "ok" = JBool false)))
  | Throw _ => exists c, Mail.calls (snd r) = Mail.calls w ++ [c]
  | Exit _ _ => False
  end.

(** What holds of every [dispatch] of the mail router, whatever the action:
    only the idempotency store may be written, and only by [send_message];
    at most two backend commands are issued, at most one unless the action
    is [health]; a response echoes the request, carries exit code 0, 2 or
    3, leaves the world alone when it is a refusal (exit code 2), and has
    [ok = true] exactly when the exit code is 0 unless the action is
    [health].  The adapter dies (exit code 1, nothing printed) only in
    [send_message], when the child was gone before its input was
    written. *)
Definition mailDispatchLaw (h : Mail.Host) (envelope : value) (action : string)
    (w : Mail.world) (r : outcome Mail.response * Mail.world) : Prop :=
  (forall p, p <> Mail.resolveIdempotencyStorePath h (Mail.resolveAdapterSettings h envelope) ->
             Mail.files (snd r) p = Mail.files w p)
  /\ (action <> "send_message" -> Mail.files (snd r) = Mail.files w)
  /\ (exists cs, Mail.calls (snd r) = Mail.calls w ++ cs
                 /\ (length cs <= 2)%nat
                 /\ (action <> "health" -> (length cs <= 1)%nat))
  /\ match fst r with
     | Ret res =>
         mailEcho action (Mail.body res)
         /\ (Mail.exitCode res = 0 \/ Mail.exitCode res = 2 \/ Mail.exitCode res = 3)%Z
         /\ (exists b, prop (Mail.body res) "ok" = JBool b)
         /\ (Mail.exitCode res = 2%Z ->
             prop (Mail.body res) "ok" = JBool false /\ snd r = w)
         /\ (action <> "health" ->
             (Mail.exitCode res = 0%Z <-> prop (Mail.body res) "ok" = JBool true))
     | Throw _ => True
     | Exit p c =>
         (* the adapter died: the child was gone before the message of a
            [send_message] was written to it *)
         p = JUndef /\ c = 1%Z /\ action = "send_message"
         /\ Mail.files (snd r) = Mail.files w
         /\ exists c' r0, Mail.spawn h (Mail.calls w) c' = Gone r0
                          /\ Mail.input c' <> None
                          /\ Mail.calls (snd r) = Mail.calls w ++ [c']
     end.

(** [l] without its leading white space ([trimStart] on a list). *)
Fixpoint dropWs (l : list ascii) : list ascii :=
  match l with
  | c :: r => if is_ws c then dropWs r else l
  | [] => []
  end.

(** Whether [s] holds a carriage return directly followed by a line feed. *)
Fixpoint hasCrLf (s : string) : bool :=
  match s with
  | String c r =>
      match r with
      | String c' _ => (Ascii.eqb c "013"%char && Ascii.eqb c' "010"%char) || hasCrLf r
      | EmptyString => false
      end
  | EmptyString => false
  end.

(** Whether [s] holds the character [c]. *)
Fixpoint holds (c : ascii) (s : string) : bool :=
  match s with
  | String c' r => Ascii.eqb c c' || holds c r
  | EmptyString => false
  end.

(** The file in which the notes adapter keeps the time of its last call
    per rate-limit key. *)
Definition rateLimitFile (h : Notes.Host) (s : Notes.settings) : string :=
  Notes.path_join (if String.eqb (Notes.stateDir s) "" then Notes.defaultStateDir h
                   else Notes.stateDir s)
                  "rate-limit.json".

(** The time recorded for [key] in the rate-limit file; 0 when there is
    none. *)
Definition lastCall (file : option value) (key : string) : Z :=
  match prop (match file with Some JNull | None => JObj [] | Some v => v end) "lastByKey" with
  | JObj o => match get key o with JNum n => n | _ => 0%Z end
  | _ => 0%Z
  end.

(** The interval that [applyRateLimit] enforces. *)
Definition minInterval (s : Notes.settings) : Z :=
  readPositiveInt (JNum (Notes.minIntervalMs s)) Notes.DEFAULT_MIN_INTERVAL_MS.

(** The endpoints of the notes API that the adapter knows. *)
Definition apiPaths : list string :=
  ["/api/open/api/v1/note/create"; "/api/open/api/v1/note/edit";
   "/api/open/api/v1/note/set"; "/api/open/api/v1/upload/prepare";
   "/api/open/api/v1/upload/url"].

(** The action names that reach the notes API. *)
Definition apiActions : list string :=
  ["create_doc"; "update_doc"; "set_doc"; "create_note"; "edit_note"; "set_note";
   "upload_prepare"; "upload_url"].

(** The request that [callMowenApi] sends for a resolved action. *)
Definition notesRequest (s : Notes.settings) (key : string) (res : Notes.resolved)
  : Notes.http_call :=
  {| Notes.url := (Notes.baseUrl s ++ Notes.endpointPath res)%string;
     Notes.authorization := ("Bearer " ++ key)%string;
     Notes.user_agent := Notes.userAgent s;
     Notes.request_body := Notes.requestBody res;
     Notes.abort_after := Notes.timeoutMs s |}.

(** The key that [listEvents] sorts by: the start of a row, 0 when it has
    none. *)
Definition startKey (r : Calendar.Jxa.row) : Z := nullish (Calendar.Jxa.start r) 0%Z.

(** Rows in chronological order: no row starts later than a row after it. *)
Fixpoint chronological (l : list Calendar.Jxa.row) : Prop :=
  match l with
  | [] => True
  | a :: rest => Forall (fun b => (startKey a <= startKey b)%Z) rest /\ chronological rest
  end.

(** The [osascript] run that the calendar adapter makes for an envelope. *)
Definition calendarCall (h : Calendar.Host) (envelope : value) : Calendar.call :=
  let s := Calendar.resolveAdapterSettings h envelope in
  {| Calendar.argv := [Calendar.osascriptBin s; "-l"; "JavaScript"];
     Calendar.request :=
       JObj [("action", prop envelope "action");
             ("payload", Calendar.payload s);
             ("config",
              JObj [("defaultCalendar", optStr (Calendar.defaultCalendar s))])];
     Calendar.call_timeoutMs := readPositiveInt (JNum (Calendar.timeoutMs s)) 30000 |}.

(** Whether an [osascript] run counts as a success for the calendar
    router: it closed with exit code 0 and printed an object with
    [ok = true]. *)
Definition scriptSucceeded (h : Calendar.Host) (o : spawned) : bool :=
  match o with
  | Closed r =>
      match code r with Some 0%Z => true | _ => false end
      && isRecord (Calendar.parseJsonOrUndefined h (stdout r))
      && match prop (Calendar.parseJsonOrUndefined h (stdout r)) "ok" with
         | JBool true => true
         | _ => false
         end
  | SpawnError _ => false
  | Gone _ => false
  end.

End Laws.

(** * The plugin that runs the adapters

    [Config] is the plugin configuration reader ([config.ts]); [Command]
    holds what the chat command ([command.ts]) and the agent tool
    ([tools.ts]) make of an adapter process that has ended. *)

Module Config.

Import Js.

Definition DEFAULT_TIMEOUT_MS : Z := 30000.

(** [readPositiveInt] of [config.ts]: numbers only. *)
Definition readPositiveInt (v : value) (fallback : Z) : Z :=
  match v with
  | JNum n => if (0 <? n)%Z then n else fallback
  | _ => fallback
  end.

(** [readStringMap]: the entries whose value is a string; [None] when the
    value is no object or no entry is left. *)
Definition readStringMap (v : value) : option (list (string * string)) :=
  match v with
  | JObj fields =>
      match filter_map (fun kv => match snd kv with
                                  | JStr s => Some (fst kv, s)
                                  | _ => None
                                  end) fields with
      | [] => None
      | out => Some out
      end
  | _ => None
  end.

Record AdapterConfig : Type := {
  enabled : bool;
  command : option string;
  args : list string;
  cwd : option string;
  timeoutMs : Z;
  env : option (list (string * string))
}.

Record LocalFiles : Type := {
  roots : list string;
  inboxPath : option string;
  showTccHints : bool
}.

Record Service : Type := {
  s_enabled : bool;
  tickSeconds : Z;
  writeStatusFile : bool
}.

Record Observability : Type := {
  recordCalls : bool;
  maxOutputChars : Z
}.

Record MyOpsPluginConfig : Type := {
  calendar : AdapterConfig;
  mail : AdapterConfig;
  mowen : AdapterConfig;
  localFiles : LocalFiles;
  service : Service;
  observability : Observability
}.

(** [raw && typeof raw === "object" && !Array.isArray(raw) ? raw : {}] *)
Definition asObject (raw : value) : value := if isRecord raw then raw else JObj [].

Definition normalizeAdapter (raw : value) : AdapterConfig :=
  let o := asObject raw in
  {| enabled := readBoolean (prop o "enabled") true;
     command := readString (prop o "command");
     args := readStringArray (prop o "args");
     cwd := readString (prop o "cwd");
     timeoutMs := readPositiveInt (prop o "timeoutMs") DEFAULT_TIMEOUT_MS;
     env := readStringMap (prop o "env") |}.

Definition readMyOpsConfig (raw : value) : MyOpsPluginConfig :=
  let o := asObject raw in
  let adaptersRaw := asObject (prop o "adapters") in
  let serviceRaw := asObject (prop o "service") in
  let obsRaw := asObject (prop o "observability") in
  let localFilesRaw := asObject (prop o "localFiles") in
  {| calendar := normalizeAdapter (prop adaptersRaw "calendar");
     mail := normalizeAdapter (prop adaptersRaw "mail");
     mowen := normalizeAdapter (prop adaptersRaw "mowen");
     localFiles := {| roots := readStringArray (prop localFilesRaw "roots");
                      inboxPath := readString (prop localFilesRaw "inboxPath");
                      showTccHints := readBoolean (prop localFilesRaw "showTccHints") true |};
     service := {| s_enabled := readBoolean (prop serviceRaw "enabled") true;
                   tickSeconds := readPositiveInt (prop serviceRaw "tickSeconds") 300;
                   writeStatusFile := readBoolean (prop serviceRaw "writeStatusFile") true |};
     observability :=
       {| recordCalls := readBoolean (prop obsRaw "recordCalls") true;
          maxOutputChars := readPositiveInt (prop obsRaw "maxOutputChars") 4000 |} |}.

End Config.

Module Command.

Import Js Proc.

(** What [runMowenAdapter], [runMailAdapter] and [runCalendarAdapter]
    return, without the raw output. *)
Record run_result : Type := {
  ok : bool;
  code : option Z;
  json : value
}.

(** [parsedJson?.ok === true || result.code === 0] *)
Definition adapterOk (parsedJson : value) (code : option Z) : bool :=
  match prop parsedJson "ok" with JBool true => true | _ => false end
  || match code with Some 0%Z => true | _ => false end.

(** The result of a [run*Adapter] call once the adapter process has ended
    with [out].  The caller parses the line the adapter printed and keeps
    it when it is an object; a field holding [undefined] is not printed
    and reads as [undefined] either way, so reading a field of the parsed
    object gives what the adapter put there. *)
Definition runAdapterResult (out : exited) : run_result :=
  let parsedJson := if isRecord (stdout_json out) then stdout_json out else JUndef in
  {| ok := adapterOk parsedJson (Some (exit_code out));
     code := Some (exit_code out);
     json := parsedJson |}.

(** [const ok = result.code === 0] in [createDomainAdapterTool]
    ([tools.ts]). *)
Definition toolOk (code : option Z) : bool :=
  match code with Some 0%Z => true | _ => false end.

(** [pickId] inside [extractMowenNoteId]: the first of [noteId],
    [note_id], [id] that is a non-blank string, trimmed. *)
Definition pickId (v : value) : option string :=
  if negb (isRecord v) then None
  else
    let nonBlank (x : value) : option string :=
      match x with
      | JStr s => if (0 <? String.length (trim s))%nat then Some (trim s) else None
      | _ => None
      end in
    orElse (nonBlank (prop v "noteId"))
           (orElse (nonBlank (prop v "note_id")) (nonBlank (prop v "id"))).

Definition extractMowenNoteId (res : run_result) : option string :=
  match pickId (json res) with
  | Some adapterTopLevelId => Some adapterTopLevelId
  | None =>
      let response := prop (json res) "response" in
      if negb (isRecord response) then None
      else
        let root := prop response "json" in
        if negb (isRecord root) then None
        else
          orElse (pickId root)
            (orElse (pickId (prop root "data"))
               (orElse (pickId (prop root "result"))
                  (orElse (pickId (prop root "note"))
                     (if isRecord (prop root "data")
                      then pickId (prop (prop root "data") "note")
                      else None))))
  end.

End Command.

(** * More example requests and hosts *)

Module Samples.

Import Js Proc.

(** Archive two messages, one id given as a number and one as text. *)
Definition archiveEnvelope : value :=
  JObj [("version", JNum 1); ("domain", JStr "mail"); ("action", JStr "archive");
        ("payload", JObj [("ids", JArr [JNum 7; JStr " 12 "; JStr " "])])].

Definition createNoteEnvelope : value :=
  JObj [("version", JNum 1); ("domain", JStr "mowen"); ("action", JStr "create_doc");
        ("payload", JObj [("text", JStr "buy milk"); ("tags", JArr [JStr " todo "])])].

(** A backend whose child is gone before anything can be written to it. *)
Definition goneBackend : list Mail.call -> Mail.call -> spawned :=
  fun _ _ => Gone (Examples.exitedWith 1).

(** What the notes API answers to a [create]. *)
Definition noteCreated : value :=
  JObj [("data", JObj [("noteId", JStr " n-1 ")])].

(** The character U+4E2D (three bytes, one UTF-16 code unit) and the
    character U+1F600 (four bytes, two UTF-16 code units). *)
Definition zhong : string :=
  String "228"%char (String "184"%char (String "173"%char EmptyString)).

Definition grin : string :=
  String "240"%char
    (String "159"%char (String "152"%char (String "128"%char EmptyString))).

Fixpoint times (n : nat) (s : string) : string :=
  match n with
  | O => EmptyString
  | S k => s ++ times k s
  end.

(** A note with a tag of eleven Chinese characters and a tag of fifteen
    emoji after a letter: 11 and 31 code units. *)
Definition taggedPayload : value :=
  JObj [("text", JStr "buy milk");
        ("tags", JArr [JStr (times 11 zhong); JStr ("a" ++ times 15 grin)])].

Definition listCalendarsEnvelope : value :=
  JObj [("version", JNum 1); ("domain", JStr "calendar");
        ("action", JStr "list_calendars"); ("payload", JObj [])].

Definition documents : list (string * value) :=
  [("archive", archiveEnvelope);
   ("create-note", createNoteEnvelope);
   ("note-created", noteCreated);
   ("list-calendars", listCalendarsEnvelope)].

Definition parse (t : string) : option value := lookup t documents.

(** A notes host whose API accepts every request. *)
Definition notesHost (key : option string) : Notes.Host :=
  {| Notes.getenv := fun n => if String.eqb n "MYOPS_MOWEN_API_KEY" then key else None;
     Notes.defaultStateDir := "/home/ops/.local/state/my-ops/mowen";
     Notes.fetch :=
       fun _ _ => Notes.Fetched {| Notes.took := 120; Notes.r_ok := true;
                                   Notes.status := 200; Notes.statusText := "OK";
                                   Notes.headers := [("content-type", "application/json")];
                                   Notes.text := "note-created" |};
     Notes.JSON_parse := parse;
     Notes.syntaxError := fun _ => "Unexpected token";
     Notes.toISOString := fun _ => "2026-02-22T00:00:00.000Z" |}.

(** A calendar host whose [osascript] is gone before the script can be
    written to it. *)
Definition goneCalendarHost : Calendar.Host :=
  {| Calendar.getenv := fun _ => None;
     Calendar.osascript := fun _ _ => Gone (Examples.exitedWith 1);
     Calendar.JSON_parse := parse;
     Calendar.syntaxError := fun _ => "Unexpected token";
     Calendar.elapsedMs := 5 |}.

(** The answer of the API above as [callMowenApi] returns it. *)
Definition createdResponse : Notes.api_response :=
  {| Notes.a_ok := true; Notes.a_status := 200; Notes.a_statusText := "OK";
     Notes.a_headers := JObj [("content-type", JStr "application/json")];
     Notes.a_durationMs := 120; Notes.a_json := noteCreated;
     Notes.a_text := "note-created"; Notes.a_jsonParseError := None |}.

Definition calendarA : Calendar.Jxa.calendar :=
  {| Calendar.Jxa.cal_name := Some "Holidays";
     Calendar.Jxa.cal_identifier := Some "cal-0";
     Calendar.Jxa.cal_writable := false;
     Calendar.Jxa.cal_description := None |}.

(** Calendar.app with a read-only calendar before a writable one. *)
Definition twoCalendars : Calendar.Jxa.App :=
  {| Calendar.Jxa.calendars := [calendarA; Examples.workCalendar];
     Calendar.Jxa.calendarsNamed :=
       fun n => if String.eqb n "Work" then [Examples.workCalendar]
                else if String.eqb n "Holidays" then [calendarA] else [];
     Calendar.Jxa.eventsIn := fun _ _ _ => [] |}.

End Samples.

(** * Properties *)

Module JsFacts.

Import Js.

Lemma get_set_same (k : string) (v : value) (o : obj) : get k (set k v o) = v.
Proof.
  induction o as [|[k' v'] rest IH]; simpl.
  - now rewrite String.eqb_refl.
  - destruct (String.eqb k k') eqn:E; simpl; rewrite E; auto.
Qed.

Lemma get_set_other (k k' : string) (v : value) (o : obj) :
  k <> k' -> get k (set k' v o) = get k o.
Proof.
  intros Hne. induction o as [|[k0 v0] rest IH]; simpl.
  - destruct (String.eqb_spec k k'); [contradiction | reflexivity].
  - destruct (String.eqb_spec k' k0); simpl.
    + subst k0. destruct (String.eqb_spec k k'); [contradiction | reflexivity].
    + destruct (String.eqb k k0); auto.
Qed.

Lemma lookup_absent {A : Type} (k : string) (l : list (string * A)) :
  ~ In k (map fst l) -> lookup k l = None.
Proof.
  induction l as [|[k' a] rest IH]; simpl; intros Hnot.
  - reflexivity.
  - destruct (String.eqb_spec k k') as [->|Hne].
    + exfalso. apply Hnot. now left.
    + apply IH. intros Hin. apply Hnot. now right.
Qed.

Lemma existsb_eqb_absent (k : string) (l : list string) :
  ~ In k l -> existsb (String.eqb k) l = false.
Proof.
  induction l as [|x rest IH]; simpl; intros Hnot.
  - reflexivity.
  - destruct (String.eqb_spec k x) as [->|Hne].
    + exfalso. apply Hnot. now left.
    + apply IH. intros Hin. apply Hnot. now right.
Qed.

End JsFacts.

(** ** The mail router *)

Module MailFacts.

Import Js Proc Mail JsFacts.

Lemma dispatch_send_message (h : Host) (envelope : value) :
  dispatch h envelope "send_message" = handleSendMessage h envelope "send_message".
Proof. reflexivity. Qed.

Lemma dispatch_health (h : Host) (envelope : value) :
  dispatch h envelope "health" = handleHealth h envelope "health".
Proof. reflexivity. Qed.

Section SendMessage.

Variable h : Host.
Variable envelope : value.
Variables content key : string.

Let s := resolveAdapterSettings h envelope.

Hypothesis Hcontent : sendContent (payload s) = Some content.
Hypothesis Hkey : sendIdempotencyKey envelope (payload s) = Some key.

Lemma send_fresh (w : world) (r : proc_result) :
  isRecord (storedEntry h w envelope key) = false ->
  spawn h (calls w) (sendCallOf h envelope content) = Closed r ->
  exists res w',
    handleSendMessage h envelope "send_message" w = (Ret res, w')
    /\ calls w' = calls w ++ [sendCallOf h envelope content]
    /\ exitCode res = (match code r with Some 0%Z => 0%Z | _ => 3%Z end)
    /\ prop (body res) "ok" = JBool (match code r with Some 0%Z => true | _ => false end)
    /\ prop (prop (body res) "idempotency") "duplicate" = JBool false
    /\ match code r with
       | Some 0%Z =>
           exists existing,
             storedEntry h w' envelope key = JObj existing
             /\ get "contentHash" existing = JStr (sha256Hex h content)
       | _ => files w' = files w
       end.
Proof.
  intros Hfresh Hspawn.
  unfold handleSendMessage. fold s. rewrite Hcontent, Hkey. cbn [isSome negb andb].
  rewrite Bool.andb_false_r.
  unfold storedEntry in Hfresh. fold s in Hfresh.
  unfold bind at 1. unfold readIdempotencyStore.
  destruct (get _ (storeKeys (files w (resolveIdempotencyStorePath h s)))) eqn:Eg;
    try discriminate Hfresh.
  all: unfold runHimalaya, runCommand, bind.
  all: cbn [nullish opt_timeoutMs opt_input includeAccount jsonOutput quiet].
  all: change ({| argv := _; input := _; call_timeoutMs := _ |}) with (sendCallOf h envelope content).
  all: rewrite Hspawn.
  all: unfold ret; cbn [ok exec stdoutJson].
  all: destruct (code r) as [[|p|p]|]; cbn [ok].
  all: unfold writeIdempotencyStore, ret, respond; cbn [ok].
  all: do 2 eexists; split; [reflexivity|].
  all: cbn [calls files exitCode body].
  all: do 4 (split; [reflexivity|]).
  all: try reflexivity.
  all: unfold storedEntry; fold s; cbn [files].
  all: rewrite String.eqb_refl; cbn [storeKeys get String.eqb Ascii.eqb Bool.eqb].
  all: rewrite get_set_same.
  all: eexists; split; reflexivity.
Qed.

Lemma send_fresh_any (w : world) :
  isRecord (storedEntry h w envelope key) = false ->
  exists out w',
    handleSendMessage h envelope "send_message" w = (out, w')
    /\ calls w' = calls w ++ [sendCallOf h envelope content]
    /\ forall res, out = Ret res ->
         prop (prop (body res) "idempotency") "duplicate" = JBool false.
Proof.
  intros Hfresh.
  destruct (spawn h (calls w) (sendCallOf h envelope content)) as [e|r|r] eqn:Hspawn.
  2: { destruct (send_fresh w r Hfresh Hspawn)
         as (res & w' & Hrun & Hcalls & _ & _ & Hdup & _).
       exists (Ret res), w'. split; [exact Hrun|]. split; [exact Hcalls|].
       intros res' Hres. injection Hres as <-. exact Hdup. }
  (* the command could not be started, or the child was gone before the
     message was written to it *)
  all: unfold handleSendMessage; fold s; rewrite Hcontent, Hkey; cbn [isSome negb andb].
  all: rewrite Bool.andb_false_r.
  all: unfold storedEntry in Hfresh; fold s in Hfresh.
  all: unfold bind at 1; unfold readIdempotencyStore.
  all: destruct (get _ (storeKeys (files w (resolveIdempotencyStorePath h s)))) eqn:Eg;
    try discriminate Hfresh.
  all: unfold runHimalaya, runCommand, bind, die.
  all: cbn [nullish opt_timeoutMs opt_input includeAccount jsonOutput quiet].
  all: change ({| argv := _; input := _; call_timeoutMs := _ |})
         with (sendCallOf h envelope content).
  all: rewrite Hspawn.
  all: do 2 eexists; split; [reflexivity|]; split; [reflexivity|].
  all: intros res Hres; discriminate Hres.
Qed.

(** A request whose composite key is already recorded never reaches the
    backend: it is answered from the store, as a conflict when the recorded
    hash differs and as a duplicate otherwise. *)
Lemma send_recorded (w : world) (existing : obj) :
  storedEntry h w envelope key = JObj existing ->
  exists res,
    handleSendMessage h envelope "send_message" w = (Ret res, w)
    /\ match readString (get "contentHash" existing) with
       | Some existingHash =>
           if String.eqb existingHash (sha256Hex h content) then
             exitCode res = 0%Z
             /\ prop (body res) "ok" = JBool true
             /\ prop (prop (body res) "idempotency") "duplicate" = JBool true
             /\ prop (prop (body res) "idempotency") "skippedSend" = JBool true
           else
             exitCode res = 2%Z
             /\ prop (body res) "ok" = JBool false
             /\ prop (prop (body res) "idempotency") "conflict" = JBool true
       | None =>
           exitCode res = 0%Z
           /\ prop (body res) "ok" = JBool true
           /\ prop (prop (body res) "idempotency") "duplicate" = JBool true
           /\ prop (prop (body res) "idempotency") "skippedSend" = JBool true
       end.
Proof.
  intros Hrec.
  unfold handleSendMessage. fold s. rewrite Hcontent, Hkey. cbn [isSome negb andb].
  rewrite Bool.andb_false_r.
  unfold storedEntry in Hrec. fold s in Hrec.
  unfold bind at 1. unfold readIdempotencyStore. rewrite Hrec.
  destruct (readString (get "contentHash" existing)) as [existingHash|].
  - destruct (String.eqb existingHash (sha256Hex h content)); cbn [negb];
      eexists; (split; [reflexivity|]); repeat split.
  - eexists; (split; [reflexivity|]); repeat split.
Qed.

End SendMessage.

(** C1 (amended).  When the payload carries a message, the envelope an
    idempotency key that the store does not hold yet, and the backend accepts
    the first send (exit code 0), sending the same envelope twice succeeds
    both times with exit code 0, the second answer is marked
    [duplicate] and [skippedSend], and the backend received exactly one
    [send] command.  The digest of the content is assumed to be a proper
    hex digest (not blank, no surrounding white space). *)
Theorem C1_idempotent_send (h : Host) (envelope : value) (w0 : world)
    (content key : string) (r : proc_result) :
  sendContent (payload (resolveAdapterSettings h envelope)) = Some content ->
  sendIdempotencyKey envelope (payload (resolveAdapterSettings h envelope)) = Some key ->
  isRecord (storedEntry h w0 envelope key) = false ->
  spawn h (calls w0) (sendCallOf h envelope content) = Closed r ->
  code r = Some 0%Z ->
  readString (JStr (sha256Hex h content)) = Some (sha256Hex h content) ->
  Spec.idempotentSend h envelope w0.
Proof.
  intros Hcontent Hkey Hfresh Hspawn Hcode Hdigest.
  destruct (send_fresh h envelope content key Hcontent Hkey w0 r Hfresh Hspawn)
    as (r1 & w1 & Hrun1 & Hcalls1 & Hexit1 & Hok1 & _ & Hstored).
  rewrite Hcode in Hexit1, Hok1, Hstored.
  destruct Hstored as (existing & Hentry & Hhash).
  destruct (send_recorded h envelope content key Hcontent Hkey w1 existing Hentry)
    as (r2 & Hrun2 & Hshape).
  rewrite Hhash, Hdigest, String.eqb_refl in Hshape.
  destruct Hshape as (Hexit2 & Hok2 & Hdup & Hskip).
  exists r1, w1, r2, w1, content.
  rewrite !dispatch_send_message.
  repeat split; assumption.
Qed.

Lemma C1_idempotent_send_witness :
  Spec.idempotentSend (Examples.mailHost (Examples.always 0)) Examples.sendEnvelope
    Examples.mailWorld.
Proof.
  apply (C1_idempotent_send (Examples.mailHost (Examples.always 0)) Examples.sendEnvelope
           Examples.mailWorld "Subject: Hello" "send-42" (Examples.exitedWith 0));
    reflexivity.
Defined.

(** A payload without a message is refused before anything is sent: the
    claim of C1 does not hold for every payload. *)
Lemma C1_counterexample_payload_without_message :
  ~ Spec.idempotentSend (Examples.mailHost (Examples.always 0))
      Examples.emptySendEnvelope Examples.mailWorld.
Proof.
  intros (r1 & w1 & r2 & w2 & content & Hrun1 & _ & Hexit1 & _).
  vm_compute in Hrun1. injection Hrun1 as <- _. discriminate Hexit1.
Qed.

(** A backend that refuses the send breaks the promise as well. *)
Lemma idempotent_send_needs_a_working_backend :
  ~ Spec.idempotentSend (Examples.mailHost (Examples.always 1)) Examples.sendEnvelope
      Examples.mailWorld.
Proof.
  intros (r1 & w1 & r2 & w2 & content & Hrun1 & _ & Hexit1 & _).
  vm_compute in Hrun1. injection Hrun1 as <- _. discriminate Hexit1.
Qed.

(** C2.  When the store holds a record for the request's composite key
    [account::mode::key] whose content hash differs from the hash of the
    message at hand, [send_message] answers [ok = false] with exit code 2
    and [idempotency.conflict = true], and the world is left as it was: no
    backend command is issued and the record is not overwritten. *)
Theorem C2_idempotency_conflict (h : Host) (envelope : value) (w : world)
    (content key recordedHash : string) (existing : obj) :
  sendContent (payload (resolveAdapterSettings h envelope)) = Some content ->
  sendIdempotencyKey envelope (payload (resolveAdapterSettings h envelope)) = Some key ->
  storedEntry h w envelope key = JObj existing ->
  readString (get "contentHash" existing) = Some recordedHash ->
  recordedHash <> sha256Hex h content ->
  exists res,
    dispatch h envelope "send_message" w = (Ret res, w)
    /\ exitCode res = 2%Z
    /\ prop (body res) "ok" = JBool false
    /\ prop (prop (body res) "idempotency") "conflict" = JBool true.
Proof.
  intros Hcontent Hkey Hentry Hhash Hdiff.
  destruct (send_recorded h envelope content key Hcontent Hkey w existing Hentry)
    as (res & Hrun & Hshape).
  rewrite Hhash in Hshape.
  destruct (String.eqb_spec recordedHash (sha256Hex h content)) as [Heq|_];
    [contradiction|].
  exists res. rewrite dispatch_send_message. split; [exact Hrun | exact Hshape].
Qed.

Lemma C2_idempotency_conflict_witness :
  exists res,
    dispatch (Examples.mailHost (Examples.always 0)) Examples.sendEnvelopeB "send_message"
      Examples.recordedWorld = (Ret res, Examples.recordedWorld)
    /\ exitCode res = 2%Z
    /\ prop (body res) "ok" = JBool false
    /\ prop (prop (body res) "idempotency") "conflict" = JBool true.
Proof.
  eapply (C2_idempotency_conflict (Examples.mailHost (Examples.always 0))
            Examples.sendEnvelopeB Examples.recordedWorld "Subject: Other" "send-42"
            "digest-of:Subject: Hello").
  - reflexivity.
  - reflexivity.
  - vm_compute. reflexivity.
  - reflexivity.
  - vm_compute. discriminate.
Defined.

(** C2, as worded for every recorded key, does not hold.  The record is
    looked up under [account::mode::key] only.  [recordedWorld] holds the
    key [send-42] under [default::raw-message::send-42] with the hash of
    [Subject: Hello]; the same key with another body and
    [format = mml] is looked up under [default::template::send-42],
    finds nothing, and is sent: exit code 0 and one more backend
    command. *)
Lemma C2_counterexample_key_reused_in_another_mode :
  get "default::raw-message::send-42"
    (storeKeys (files Examples.recordedWorld
                  (resolveIdempotencyStorePath (Examples.mailHost (Examples.always 0))
                     (resolveAdapterSettings (Examples.mailHost (Examples.always 0))
                        Examples.sendEnvelopeMml))))
  = JObj Examples.recordedEntry
  /\ get "idempotencyKey" Examples.recordedEntry = JStr "send-42"
  /\ get "contentHash" Examples.recordedEntry = JStr "digest-of:Subject: Hello"
  /\ (exists res w',
        dispatch (Examples.mailHost (Examples.always 0)) Examples.sendEnvelopeMml
          "send_message" Examples.recordedWorld = (Ret res, w')
        /\ exitCode res = 0%Z
        /\ prop (body res) "ok" = JBool true
        /\ length (calls w') = S (length (calls Examples.recordedWorld)))
  /\ ~ Spec.conflictOnReusedKey (Examples.mailHost (Examples.always 0))
        Examples.sendEnvelopeMml Examples.recordedWorld.
Proof.
  split; [vm_compute; reflexivity|]. split; [reflexivity|]. split; [reflexivity|].
  split; [do 2 eexists; split; [vm_compute; reflexivity|]; repeat split|].
  intros Hclaim.
  destruct (Hclaim "Subject: Other" "send-42" "default::raw-message::send-42"
              Examples.recordedEntry "digest-of:Subject: Hello")
    as (res & w' & Hrun & Hexit & _).
  - reflexivity.
  - reflexivity.
  - vm_compute. reflexivity.
  - reflexivity.
  - reflexivity.
  - vm_compute. discriminate.
  - vm_compute in Hrun. injection Hrun as <- _. discriminate Hexit.
Qed.

(** C3.  When the backend command of a keyed [send_message] exits with a
    code other than 0, the answer is [ok = false] with exit code 3 and the
    files are exactly as before, so nothing is recorded under the key; the
    same envelope sent again reaches the backend with a new [send] command
    and, if it returns, is not answered as a duplicate. *)
Theorem C3_failed_send_is_not_recorded (h : Host) (envelope : value) (w : world)
    (content key : string) (r : proc_result) :
  sendContent (payload (resolveAdapterSettings h envelope)) = Some content ->
  sendIdempotencyKey envelope (payload (resolveAdapterSettings h envelope)) = Some key ->
  isRecord (storedEntry h w envelope key) = false ->
  spawn h (calls w) (sendCallOf h envelope content) = Closed r ->
  code r <> Some 0%Z ->
  exists res w1,
    dispatch h envelope "send_message" w = (Ret res, w1)
    /\ exitCode res = 3%Z
    /\ prop (body res) "ok" = JBool false
    /\ files w1 = files w
    /\ storedEntry h w1 envelope key = storedEntry h w envelope key
    /\ exists out w2,
         dispatch h envelope "send_message" w1 = (out, w2)
         /\ calls w2 = calls w1 ++ [sendCallOf h envelope content]
         /\ forall res2, out = Ret res2 ->
              prop (prop (body res2) "idempotency") "duplicate" = JBool false.
Proof.
  intros Hcontent Hkey Hfresh Hspawn Hcode.
  destruct (send_fresh h envelope content key Hcontent Hkey w r Hfresh Hspawn)
    as (res & w1 & Hrun & Hcalls & Hexit & Hok & _ & Hfiles).
  assert (Hfail : exitCode res = 3%Z /\ prop (body res) "ok" = JBool false
                  /\ files w1 = files w).
  { destruct (code r) as [[|p|p]|]; try (repeat split; assumption).
    exfalso. apply Hcode. reflexivity. }
  destruct Hfail as (Hexit3 & Hok3 & Hsame).
  assert (Hstored : storedEntry h w1 envelope key = storedEntry h w envelope key).
  { unfold storedEntry. rewrite Hsame. reflexivity. }
  exists res, w1. rewrite !dispatch_send_message.
  repeat (split; [assumption|]).
  apply (send_fresh_any h envelope content key Hcontent Hkey w1).
  rewrite Hstored. exact Hfresh.
Qed.

Lemma C3_failed_send_is_not_recorded_witness :
  exists res w1,
    dispatch (Examples.mailHost (Examples.always 1)) Examples.sendEnvelope "send_message"
      Examples.mailWorld = (Ret res, w1)
    /\ exitCode res = 3%Z
    /\ prop (body res) "ok" = JBool false
    /\ files w1 = files Examples.mailWorld
    /\ storedEntry (Examples.mailHost (Examples.always 1)) w1 Examples.sendEnvelope "send-42"
       = storedEntry (Examples.mailHost (Examples.always 1)) Examples.mailWorld
           Examples.sendEnvelope "send-42"
    /\ exists out w2,
         dispatch (Examples.mailHost (Examples.always 1)) Examples.sendEnvelope
           "send_message" w1 = (out, w2)
         /\ calls w2
            = calls w1 ++ [sendCallOf (Examples.mailHost (Examples.always 1))
                             Examples.sendEnvelope "Subject: Hello"]
         /\ forall res2, out = Ret res2 ->
              prop (prop (body res2) "idempotency") "duplicate" = JBool false.
Proof.
  apply (C3_failed_send_is_not_recorded (Examples.mailHost (Examples.always 1))
           Examples.sendEnvelope Examples.mailWorld "Subject: Hello" "send-42"
           (Examples.exitedWith 1)); try reflexivity.
  discriminate.
Defined.

(** The [--version] command of [handleHealth]. *)
Lemma health_version_check (h : Host) (envelope : value) (w : world) (r : proc_result) :
  readBoolean (prop (payload (resolveAdapterSettings h envelope)) "deep") false = false ->
  spawn h (calls w)
    {| argv := [binary (resolveAdapterSettings h envelope); "--version"];
       input := None;
       call_timeoutMs :=
         readPositiveInt (JNum (timeoutMs (resolveAdapterSettings h envelope))) 30000 |}
  = Closed r ->
  exists res w',
    dispatch h envelope "health" w = (Ret res, w')
    /\ exitCode res = (match code r with Some 0%Z => 0%Z | _ => 3%Z end)
    /\ prop (body res) "ok" = JBool true
    /\ prop (prop (body res) "checks") "binaryOk"
       = JBool (match code r with Some 0%Z => true | _ => false end).
Proof.
  intros Hdeep Hspawn.
  rewrite dispatch_health. unfold handleHealth.
  unfold bind at 1. unfold try_catch, bind, runCommand. rewrite Hspawn.
  unfold ret. rewrite Hdeep. cbn [andb].
  do 2 eexists. split; [reflexivity|]. cbn [exitCode body].
  repeat split.
  destruct (code r) as [[|p|p]|]; reflexivity.
Qed.

(** C6, at the point where the code departs from it: when the binary check
    of the mail router's [health] fails (the [--version] command exits with
    a code other than 0), the answer carries exit code 3 and
    [checks.binaryOk = false], and yet [ok = true]. *)
Theorem C6_mail_health_ok_despite_failed_check (h : Host) (envelope : value) (w : world)
    (r : proc_result) :
  readBoolean (prop (payload (resolveAdapterSettings h envelope)) "deep") false = false ->
  spawn h (calls w)
    {| argv := [binary (resolveAdapterSettings h envelope); "--version"];
       input := None;
       call_timeoutMs :=
         readPositiveInt (JNum (timeoutMs (resolveAdapterSettings h envelope))) 30000 |}
  = Closed r ->
  code r <> Some 0%Z ->
  exists res w',
    dispatch h envelope "health" w = (Ret res, w')
    /\ exitCode res = 3%Z
    /\ prop (prop (body res) "checks") "binaryOk" = JBool false
    /\ prop (body res) "ok" = JBool true.
Proof.
  intros Hdeep Hspawn Hcode.
  destruct (health_version_check h envelope w r Hdeep Hspawn)
    as (res & w' & Hrun & Hexit & Hok & Hbin).
  exists res, w'. split; [exact Hrun|].
  destruct (code r) as [[|p|p]|]; try (repeat split; assumption).
  exfalso. apply Hcode. reflexivity.
Qed.

Lemma C6_mail_health_ok_despite_failed_check_witness :
  exists res w',
    dispatch (Examples.mailHost (Examples.always 1)) Examples.mailHealthEnvelope "health"
      Examples.mailWorld = (Ret res, w')
    /\ exitCode res = 3%Z
    /\ prop (prop (body res) "checks") "binaryOk" = JBool false
    /\ prop (body res) "ok" = JBool true.
Proof.
  apply (C6_mail_health_ok_despite_failed_check (Examples.mailHost (Examples.always 1))
           Examples.mailHealthEnvelope Examples.mailWorld (Examples.exitedWith 1));
    try reflexivity.
  discriminate.
Defined.

End MailFacts.

(** ** Reading the envelope (the three entry points) *)

Module EntryFacts.

Import Js Proc JsFacts.

Lemma classify_envelope (parse : string -> option value) (stdin : string) (v : value) :
  Spec.classify parse stdin = Spec.Envelope v ->
  String.eqb (trim stdin) "" = false /\ parse (trim stdin) = Some v /\ isRecord v = true.
Proof.
  unfold Spec.classify.
  destruct (String.eqb (trim stdin) ""); [discriminate|].
  destruct (parse (trim stdin)) as [u|]; [|discriminate].
  destruct (isRecord u) eqn:E; [|discriminate].
  intros H. injection H as <-. auto.
Qed.

Lemma classify_non_object (parse : string -> option value) (stdin : string) (v : value) :
  Spec.classify parse stdin = Spec.NonObject v ->
  String.eqb (trim stdin) "" = false /\ parse (trim stdin) = Some v /\ isRecord v = false.
Proof.
  unfold Spec.classify.
  destruct (String.eqb (trim stdin) ""); [discriminate|].
  destruct (parse (trim stdin)) as [u|]; [|discriminate].
  destruct (isRecord u) eqn:E; [discriminate|].
  intros H. injection H as <-. auto.
Qed.

Lemma classify_unparsable (parse : string -> option value) (stdin : string) :
  Spec.classify parse stdin = Spec.Unparsable ->
  String.eqb (trim stdin) "" = false /\ parse (trim stdin) = None.
Proof.
  unfold Spec.classify.
  destruct (String.eqb (trim stdin) ""); [discriminate|].
  destruct (parse (trim stdin)) as [u|]; [|auto].
  destruct (isRecord u); discriminate.
Qed.

Lemma classify_empty (parse : string -> option value) (stdin : string) :
  Spec.classify parse stdin = Spec.Empty -> String.eqb (trim stdin) "" = true.
Proof.
  unfold Spec.classify.
  destruct (String.eqb (trim stdin) ""); [auto|].
  destruct (parse (trim stdin)) as [u|]; [|discriminate].
  destruct (isRecord u); discriminate.
Qed.

(** A name that is not in a list of literals differs from each of them. *)
Ltac absent_from H :=
  repeat match goal with
         | |- context [String.eqb ?a ?lit] =>
             lazymatch a with
             | context [String.eqb] => fail
             | _ => idtac
             end;
             let E := fresh "E" in
             destruct (String.eqb_spec a lit) as [E|E];
             [exfalso; apply H; rewrite E; simpl; tauto|]
         end.

(** *** Mail *)

Lemma mail_unknown_action (h : Mail.Host) (stdin : string) (w : Mail.world)
    (envelope : value) (action : string) :
  Spec.classify (Mail.JSON_parse h) stdin = Spec.Envelope envelope ->
  readString (prop envelope "action") = Some action ->
  ~ In action Mail.supportedActions ->
  exists out, Mail.run h stdin w = (out, w)
              /\ Spec.rejectsListing out Mail.supportedActions.
Proof.
  intros Hc Haction Hnot.
  destruct (classify_envelope _ _ _ Hc) as (Hne & Hparse & Hrec).
  unfold Mail.run, Mail.main, Mail.readJsonStdin, bind, ret.
  rewrite Hne, Hparse, Hrec, Haction. cbn [negb].
  unfold Mail.dispatch.
  rewrite (lookup_absent action (Mail.handlers h)) by exact Hnot.
  unfold ret, writeAndExit.
  eexists. split; [reflexivity|]. repeat split.
Qed.

Lemma mail_malformed (h : Mail.Host) (stdin : string) (w : Mail.world) :
  match Spec.classify (Mail.JSON_parse h) stdin with
  | Spec.Empty | Spec.Unparsable =>
      exists out, Mail.run h stdin w = (out, w)
                  /\ exit_code out = 99%Z
                  /\ prop (stdout_json out) "ok" = JBool false
  | Spec.NonObject _ =>
      exists out, Mail.run h stdin w = (out, w) /\ Spec.rejects out
  | Spec.Envelope _ => True
  end.
Proof.
  destruct (Spec.classify (Mail.JSON_parse h) stdin) as [| |v|v] eqn:Hc.
  - apply classify_empty in Hc.
    unfold Mail.run, Mail.main, Mail.readJsonStdin, bind, throw. rewrite Hc.
    eexists. split; [reflexivity|]. split; reflexivity.
  - apply classify_unparsable in Hc. destruct Hc as (Hne & Hparse).
    unfold Mail.run, Mail.main, Mail.readJsonStdin, bind, throw. rewrite Hne, Hparse.
    eexists. split; [reflexivity|]. split; reflexivity.
  - apply classify_non_object in Hc. destruct Hc as (Hne & Hparse & Hrec).
    unfold Mail.run, Mail.main, Mail.readJsonStdin, bind, ret. rewrite Hne, Hparse, Hrec.
    eexists. split; [reflexivity|]. split; reflexivity.
  - exact I.
Qed.

(** The process exits with the code of the handler and prints its body. *)
Lemma mail_run_dispatch (h : Mail.Host) (stdin : string) (w w' : Mail.world)
    (envelope : value) (action : string) (res : Mail.response) :
  Spec.classify (Mail.JSON_parse h) stdin = Spec.Envelope envelope ->
  readString (prop envelope "action") = Some action ->
  Mail.dispatch h envelope action w = (Ret res, w') ->
  Mail.run h stdin w
  = ({| stdout_json := Mail.body res; exit_code := Mail.exitCode res |}, w').
Proof.
  intros Hc Haction Hrun.
  destruct (classify_envelope _ _ _ Hc) as (Hne & Hparse & Hrec).
  unfold Mail.run, Mail.main, Mail.readJsonStdin, bind, ret.
  rewrite Hne, Hparse, Hrec, Haction. cbn [negb]. rewrite Hrun. reflexivity.
Qed.

Example mail_send_twice_through_the_process :
  let host := Examples.mailHost (Examples.always 0) in
  let first := Mail.run host "send" Examples.mailWorld in
  let second := Mail.run host "send" (snd first) in
  exit_code (fst first) = 0%Z
  /\ prop (prop (stdout_json (fst first)) "idempotency") "duplicate" = JBool false
  /\ exit_code (fst second) = 0%Z
  /\ prop (prop (stdout_json (fst second)) "idempotency") "duplicate" = JBool true
  /\ length (Mail.calls (snd second)) = 1%nat.
Proof. repeat split. Qed.

Example mail_health_with_a_broken_binary :
  let out := fst (Mail.run (Examples.mailHost (Examples.always 1)) "mail-health"
                    Examples.mailWorld) in
  exit_code out = 3%Z /\ prop (stdout_json out) "ok" = JBool true.
Proof. split; reflexivity. Qed.

Example mail_array_is_refused :
  exit_code (fst (Mail.run (Examples.mailHost (Examples.always 0)) "array"
                    Examples.mailWorld)) = 2%Z.
Proof. reflexivity. Qed.

(** *** Calendar *)

Lemma calendar_unknown_action (h : Calendar.Host) (stdin : string) (w : Calendar.world)
    (envelope : value) (action : string) :
  Spec.classify (Calendar.JSON_parse h) stdin = Spec.Envelope envelope ->
  readString (prop envelope "action") = Some action ->
  ~ In action Calendar.supportedActions ->
  exists out, Calendar.run h stdin w = (out, w)
              /\ Spec.rejectsListing out Calendar.supportedActions.
Proof.
  intros Hc Haction Hnot.
  destruct (classify_envelope _ _ _ Hc) as (Hne & Hparse & Hrec).
  unfold Calendar.run, Calendar.main, Calendar.readJsonStdin, bind, ret.
  rewrite Hne, Hparse, Hrec, Haction. cbn [negb].
  rewrite (existsb_eqb_absent action Calendar.supportedActions) by exact Hnot.
  unfold writeAndExit.
  eexists. split; [reflexivity|]. repeat split.
Qed.

Lemma calendar_malformed (h : Calendar.Host) (stdin : string) (w : Calendar.world) :
  match Spec.classify (Calendar.JSON_parse h) stdin with
  | Spec.Empty | Spec.Unparsable =>
      exists out, Calendar.run h stdin w = (out, w)
                  /\ exit_code out = 1%Z
                  /\ prop (stdout_json out) "ok" = JBool false
  | Spec.NonObject _ =>
      exists out, Calendar.run h stdin w = (out, w) /\ Spec.rejects out
  | Spec.Envelope _ => True
  end.
Proof.
  destruct (Spec.classify (Calendar.JSON_parse h) stdin) as [| |v|v] eqn:Hc.
  - apply classify_empty in Hc.
    unfold Calendar.run, Calendar.main, Calendar.readJsonStdin, bind, throw. rewrite Hc.
    eexists. split; [reflexivity|]. split; reflexivity.
  - apply classify_unparsable in Hc. destruct Hc as (Hne & Hparse).
    unfold Calendar.run, Calendar.main, Calendar.readJsonStdin, bind, throw.
    rewrite Hne, Hparse.
    eexists. split; [reflexivity|]. split; reflexivity.
  - apply classify_non_object in Hc. destruct Hc as (Hne & Hparse & Hrec).
    unfold Calendar.run, Calendar.main, Calendar.readJsonStdin, bind, ret.
    rewrite Hne, Hparse, Hrec.
    eexists. split; [reflexivity|]. split; reflexivity.
  - exact I.
Qed.

(** *** Notes *)

Lemma notes_malformed (h : Notes.Host) (stdin : string) (w : Notes.world) :
  match Spec.classify (Notes.JSON_parse h) stdin with
  | Spec.Empty | Spec.Unparsable | Spec.NonObject _ =>
      exists out, Notes.run h stdin w = (out, w) /\ Spec.rejects out
  | Spec.Envelope _ => True
  end.
Proof.
  destruct (Spec.classify (Notes.JSON_parse h) stdin) as [| |v|v] eqn:Hc.
  - apply classify_empty in Hc.
    unfold Notes.run, Notes.main, Notes.readJsonStdin, bind, throw. rewrite Hc.
    eexists. split; [reflexivity|]. split; reflexivity.
  - apply classify_unparsable in Hc. destruct Hc as (Hne & Hparse).
    unfold Notes.run, Notes.main, Notes.readJsonStdin, bind, throw. rewrite Hne, Hparse.
    eexists. split; [reflexivity|]. split; reflexivity.
  - apply classify_non_object in Hc. destruct Hc as (Hne & Hparse & Hrec).
    unfold Notes.run, Notes.main, Notes.readJsonStdin, bind, ret. rewrite Hne, Hparse, Hrec.
    eexists. split; [reflexivity|]. split; reflexivity.
  - exact I.
Qed.

Lemma notes_unknown_action (h : Notes.Host) (stdin : string) (w : Notes.world)
    (envelope : value) (action : string) :
  Spec.classify (Notes.JSON_parse h) stdin = Spec.Envelope envelope ->
  readString (prop envelope "action") = Some action ->
  ~ In action Notes.actionSet ->
  exists out, Notes.run h stdin w = (out, w)
              /\ Spec.rejects out
              /\ prop (stdout_json out) "supportedActions" = JUndef.
Proof.
  intros Hc Haction Hnot.
  destruct (classify_envelope _ _ _ Hc) as (Hne & Hparse & Hrec).
  unfold Notes.run, Notes.main, Notes.readJsonStdin, bind, ret.
  rewrite Hne, Hparse, Hrec, Haction. cbn [negb].
  unfold Notes.normalizeAction, Notes.resolveEndpointAndRequest.
  absent_from Hnot.
  destruct (match readString (prop envelope "domain") with
            | Some d => negb (d =? "mowen")
            | None => false
            end);
    [|destruct ((action =? "append_doc") || (action =? "read_doc")
                || (action =? "search") || (action =? "list_spaces"));
      [|destruct (negb (isSome (Notes.apiKey (Notes.resolveSettings h envelope))))]].
  all: unfold writeAndExit; eexists; (split; [reflexivity|]); repeat split.
Qed.

Lemma mail_dispatch_unknown (h : Mail.Host) (envelope : value) (action : string)
    (w : Mail.world) :
  ~ In action Mail.supportedActions ->
  exists res, Mail.dispatch h envelope action w = (Ret res, w)
              /\ Mail.exitCode res = 2%Z
              /\ prop (Mail.body res) "ok" = JBool false
              /\ prop (Mail.body res) "supportedActions"
                 = JArr (map JStr Mail.supportedActions).
Proof.
  intros Hnot. unfold Mail.dispatch.
  rewrite (lookup_absent action (Mail.handlers h)) by exact Hnot.
  eexists. split; [reflexivity|]. repeat split.
Qed.

(** C4 (amended).  An action name (the envelope's [action], trimmed and not
    blank) outside the router's action set is refused with [ok = false] and
    exit code 2 by all three routers, before any backend is contacted.  The
    mail router (in [dispatch]) and the calendar router (in [main]) return
    the list [supportedActions]; the notes router returns an error message
    only and no list of its actions. *)
Theorem C4_unknown_action_rejection :
  (forall (h : Mail.Host) (envelope : value) (action : string) (w : Mail.world),
      ~ In action Mail.supportedActions ->
      exists res, Mail.dispatch h envelope action w = (Ret res, w)
                  /\ Mail.exitCode res = 2%Z
                  /\ prop (Mail.body res) "ok" = JBool false
                  /\ prop (Mail.body res) "supportedActions"
                     = JArr (map JStr Mail.supportedActions))
  /\ (forall (h : Mail.Host) (stdin : string) (w : Mail.world) (envelope : value)
             (action : string),
         Spec.classify (Mail.JSON_parse h) stdin = Spec.Envelope envelope ->
         readString (prop envelope "action") = Some action ->
         ~ In action Mail.supportedActions ->
         exists out, Mail.run h stdin w = (out, w)
                     /\ Spec.rejectsListing out Mail.supportedActions)
  /\ (forall (h : Calendar.Host) (stdin : string) (w : Calendar.world) (envelope : value)
             (action : string),
         Spec.classify (Calendar.JSON_parse h) stdin = Spec.Envelope envelope ->
         readString (prop envelope "action") = Some action ->
         ~ In action Calendar.supportedActions ->
         exists out, Calendar.run h stdin w = (out, w)
                     /\ Spec.rejectsListing out Calendar.supportedActions)
  /\ (forall (h : Notes.Host) (stdin : string) (w : Notes.world) (envelope : value)
             (action : string),
         Spec.classify (Notes.JSON_parse h) stdin = Spec.Envelope envelope ->
         readString (prop envelope "action") = Some action ->
         ~ In action Notes.actionSet ->
         exists out, Notes.run h stdin w = (out, w)
                     /\ Spec.rejects out
                     /\ prop (stdout_json out) "supportedActions" = JUndef).
Proof.
  split; [exact mail_dispatch_unknown|].
  split; [exact mail_unknown_action|].
  split; [exact calendar_unknown_action | exact notes_unknown_action].
Qed.

Lemma not_in_literals (a : string) (l : list string) :
  existsb (String.eqb a) l = false -> ~ In a l.
Proof.
  intros Hex Hin.
  assert (Ht : existsb (String.eqb a) l = true).
  { apply existsb_exists. exists a. split; [exact Hin | apply String.eqb_refl]. }
  rewrite Hex in Ht. discriminate Ht.
Qed.

Lemma C4_unknown_action_rejection_witness :
  (exists out, Mail.run (Examples.mailHost (Examples.always 0)) "mail-unknown"
                 Examples.mailWorld = (out, Examples.mailWorld)
               /\ Spec.rejectsListing out Mail.supportedActions)
  /\ (exists out, Calendar.run Examples.calendarHost "calendar-unknown"
                    Examples.calendarWorld = (out, Examples.calendarWorld)
                  /\ Spec.rejectsListing out Calendar.supportedActions)
  /\ (exists out, Notes.run (Examples.notesHost (Some "key")) "notes-unknown"
                    Examples.notesWorld = (out, Examples.notesWorld)
                  /\ Spec.rejects out
                  /\ prop (stdout_json out) "supportedActions" = JUndef).
Proof.
  destruct C4_unknown_action_rejection as (_ & Hmail & Hcal & Hnotes).
  split; [|split].
  - apply (Hmail (Examples.mailHost (Examples.always 0)) "mail-unknown" Examples.mailWorld
             (Examples.unknownActionEnvelope "mail") "frobnicate");
      [reflexivity | reflexivity | apply not_in_literals; reflexivity].
  - apply (Hcal Examples.calendarHost "calendar-unknown" Examples.calendarWorld
             (Examples.unknownActionEnvelope "calendar") "frobnicate");
      [reflexivity | reflexivity | apply not_in_literals; reflexivity].
  - apply (Hnotes (Examples.notesHost (Some "key")) "notes-unknown" Examples.notesWorld
             (Examples.unknownActionEnvelope "mowen") "frobnicate");
      [reflexivity | reflexivity | apply not_in_literals; reflexivity].
Defined.

(** The notes router, asked for an action it does not have, answers with a
    message and without any list of its actions. *)
Lemma C4_counterexample_notes_lists_nothing :
  fst (Notes.run (Examples.notesHost (Some "key")) "notes-unknown" Examples.notesWorld)
  = {| stdout_json :=
         JObj [("ok", JBool false); ("domain", JStr "mowen");
               ("action", JStr "frobnicate"); ("mappedAction", JStr "frobnicate");
               ("adapter", JStr "mowen-openapi");
               ("error", JStr "unsupported action: frobnicate")];
       exit_code := 2 |}
  /\ ~ Spec.rejectsListing
        (fst (Notes.run (Examples.notesHost (Some "key")) "notes-unknown"
                Examples.notesWorld))
        Notes.actionSet.
Proof.
  split; [reflexivity|].
  intros (_ & _ & Hlist). vm_compute in Hlist. discriminate Hlist.
Qed.

(** C5 (amended).  Input that is empty or does not parse makes
    [readJsonStdin] throw, and the exception reaches the handler attached to
    [main()]: the mail adapter then exits with 99, the calendar adapter with
    1 and the notes adapter with 2.  Input that parses to something other
    than an object is refused by [main] itself with exit code 2 in all
    three.  Each time one JSON document with [ok = false] is written and the
    world is untouched. *)
Theorem C5_malformed_input (stdin : string) :
  (forall (h : Mail.Host) (w : Mail.world),
      match Spec.classify (Mail.JSON_parse h) stdin with
      | Spec.Empty | Spec.Unparsable =>
          exists out, Mail.run h stdin w = (out, w)
                      /\ exit_code out = 99%Z
                      /\ prop (stdout_json out) "ok" = JBool false
      | Spec.NonObject _ =>
          exists out, Mail.run h stdin w = (out, w) /\ Spec.rejects out
      | Spec.Envelope _ => True
      end)
  /\ (forall (h : Calendar.Host) (w : Calendar.world),
         match Spec.classify (Calendar.JSON_parse h) stdin with
         | Spec.Empty | Spec.Unparsable =>
             exists out, Calendar.run h stdin w = (out, w)
                         /\ exit_code out = 1%Z
                         /\ prop (stdout_json out) "ok" = JBool false
         | Spec.NonObject _ =>
             exists out, Calendar.run h stdin w = (out, w) /\ Spec.rejects out
         | Spec.Envelope _ => True
         end)
  /\ (forall (h : Notes.Host) (w : Notes.world),
         match Spec.classify (Notes.JSON_parse h) stdin with
         | Spec.Empty | Spec.Unparsable | Spec.NonObject _ =>
             exists out, Notes.run h stdin w = (out, w) /\ Spec.rejects out
         | Spec.Envelope _ => True
         end).
Proof.
  split; [|split]; intros h w.
  - apply mail_malformed.
  - apply calendar_malformed.
  - apply notes_malformed.
Qed.

(** Empty input to the mail adapter ends in the crash handler, not in a
    validation error. *)
Lemma C5_counterexample_empty_stdin :
  Spec.classify Examples.parse "" = Spec.Empty
  /\ fst (Mail.run (Examples.mailHost (Examples.always 0)) "" Examples.mailWorld)
     = {| stdout_json :=
            JObj [("ok", JBool false); ("domain", JStr "mail");
                  ("adapter", JStr "himalaya");
                  ("error",
                   JStr "adapter crash: Error: empty stdin; expected JSON envelope")];
          exit_code := 99 |}
  /\ exit_code (fst (Mail.run (Examples.mailHost (Examples.always 0)) ""
                       Examples.mailWorld)) <> 2%Z.
Proof.
  split; [reflexivity|]. split; [reflexivity|]. vm_compute. discriminate.
Qed.

(** *** The notes router's health action and domain guard *)

Lemma notes_health (h : Notes.Host) (stdin : string) (w : Notes.world)
    (envelope : value) :
  Spec.classify (Notes.JSON_parse h) stdin = Spec.Envelope envelope ->
  readString (prop envelope "action") = Some "health" ->
  match readString (prop envelope "domain") with
  | Some d => negb (String.eqb d "mowen")
  | None => false
  end = false ->
  Notes.run h stdin w
  = ({| stdout_json := Notes.sanitizeForHealth (Notes.resolveSettings h envelope);
        exit_code := 0 |}, w).
Proof.
  intros Hc Haction Hdomain.
  destruct (classify_envelope _ _ _ Hc) as (Hne & Hparse & Hrec).
  unfold Notes.run, Notes.main, Notes.readJsonStdin, bind, ret.
  rewrite Hne, Hparse, Hrec, Haction, Hdomain. reflexivity.
Qed.

(** C9.  A [health] request to the notes adapter (domain absent or
    [mowen]) is answered with exit code 0 by [sanitizeForHealth], a function
    of the local settings alone, whether or not an API key is configured;
    the world after the run is the world before it: no HTTP request was
    issued, no rate-limit file was read or written, no sleep was taken. *)
Theorem C9_notes_health_is_local (h : Notes.Host) (stdin : string) (w : Notes.world)
    (envelope : value) :
  Spec.classify (Notes.JSON_parse h) stdin = Spec.Envelope envelope ->
  readString (prop envelope "action") = Some "health" ->
  readString (prop envelope "domain") = None
  \/ readString (prop envelope "domain") = Some "mowen" ->
  exists out w',
    Notes.run h stdin w = (out, w')
    /\ exit_code out = 0%Z
    /\ stdout_json out = Notes.sanitizeForHealth (Notes.resolveSettings h envelope)
    /\ prop (stdout_json out) "ok"
       = JBool (isSome (Notes.apiKey (Notes.resolveSettings h envelope)))
    /\ w' = w
    /\ Notes.requests w' = Notes.requests w
    /\ Notes.files w' = Notes.files w
    /\ Notes.sleeps w' = Notes.sleeps w.
Proof.
  intros Hc Haction Hdomain.
  exists {| stdout_json := Notes.sanitizeForHealth (Notes.resolveSettings h envelope);
            exit_code := 0 |}, w.
  split.
  - apply notes_health; try assumption.
    destruct Hdomain as [-> | ->]; reflexivity.
  - repeat split.
Qed.

Lemma C9_notes_health_is_local_witness :
  (exists out w',
      Notes.run (Examples.notesHost None) "notes-health" Examples.notesWorld = (out, w')
      /\ exit_code out = 0%Z
      /\ stdout_json out
         = Notes.sanitizeForHealth
             (Notes.resolveSettings (Examples.notesHost None)
                (Examples.notesHealthEnvelope (JStr "mowen")))
      /\ prop (stdout_json out) "ok"
         = JBool (isSome (Notes.apiKey
                            (Notes.resolveSettings (Examples.notesHost None)
                               (Examples.notesHealthEnvelope (JStr "mowen")))))
      /\ w' = Examples.notesWorld
      /\ Notes.requests w' = Notes.requests Examples.notesWorld
      /\ Notes.files w' = Notes.files Examples.notesWorld
      /\ Notes.sleeps w' = Notes.sleeps Examples.notesWorld).
Proof.
  apply (C9_notes_health_is_local (Examples.notesHost None) "notes-health"
           Examples.notesWorld (Examples.notesHealthEnvelope (JStr "mowen")));
    [reflexivity | reflexivity | right; reflexivity].
Defined.

(** C10 (amended).  The domain guard works on the trimmed [domain]: when
    the envelope's [domain], trimmed, is a non-empty string other than
    [mowen], the notes adapter exits with 2 and [ok = false] and leaves the
    world untouched, and if the envelope has an action the answer is the
    domain error whatever that action is.  A domain that is missing, not a
    string, or blank passes the guard (shown on [health], which then exits
    with 0). *)
Theorem C10_foreign_domain_is_rejected (h : Notes.Host) (stdin : string)
    (w : Notes.world) (envelope : value) :
  Spec.classify (Notes.JSON_parse h) stdin = Spec.Envelope envelope ->
  (forall d, readString (prop envelope "domain") = Some d -> d <> "mowen" ->
     exists out,
       Notes.run h stdin w = (out, w)
       /\ Spec.rejects out
       /\ forall action, readString (prop envelope "action") = Some action ->
            stdout_json out
            = JObj [("ok", JBool false);
                    ("error", JStr ("unexpected domain '" ++ d ++ "', expected 'mowen'"))])
  /\ (readString (prop envelope "domain") = None ->
      readString (prop envelope "action") = Some "health" ->
      exists out, Notes.run h stdin w = (out, w) /\ exit_code out = 0%Z).
Proof.
  intros Hc. split.
  - intros d Hd Hne.
    destruct (classify_envelope _ _ _ Hc) as (Hnb & Hparse & Hrec).
    unfold Notes.run, Notes.main, Notes.readJsonStdin, bind, ret.
    rewrite Hnb, Hparse, Hrec, Hd. cbn [negb nullish].
    destruct (String.eqb_spec d "mowen") as [Heq|_]; [contradiction|]. cbn [negb].
    destruct (readString (prop envelope "action")) as [action|];
      unfold writeAndExit; eexists; (split; [reflexivity|]);
        (split; [split; reflexivity|]).
    + intros a _. reflexivity.
    + intros a Ha. discriminate Ha.
  - intros Hd Haction.
    exists {| stdout_json := Notes.sanitizeForHealth (Notes.resolveSettings h envelope);
              exit_code := 0 |}.
    split; [|reflexivity].
    apply notes_health; try assumption. rewrite Hd. reflexivity.
Qed.

Lemma C10_foreign_domain_is_rejected_witness :
  exists out,
    Notes.run (Examples.notesHost (Some "key")) "notes-health-other-domain"
      Examples.notesWorld = (out, Examples.notesWorld)
    /\ Spec.rejects out
    /\ forall action,
         readString (prop (Examples.notesHealthEnvelope (JStr "notes")) "action")
         = Some action ->
         stdout_json out
         = JObj [("ok", JBool false);
                 ("error", JStr "unexpected domain 'notes', expected 'mowen'")].
Proof.
  destruct (C10_foreign_domain_is_rejected (Examples.notesHost (Some "key"))
              "notes-health-other-domain" Examples.notesWorld
              (Examples.notesHealthEnvelope (JStr "notes")) eq_refl) as (Hreject & _).
  apply (Hreject "notes"); [reflexivity | discriminate].
Defined.

(** A domain made of white space is a non-empty string other than [mowen],
    and it passes the guard. *)
Lemma C10_counterexample_blank_domain :
  prop (Examples.notesHealthEnvelope (JStr " ")) "domain" = JStr " "
  /\ " " <> "" /\ " " <> "mowen"
  /\ Examples.parse "notes-health-blank-domain"
     = Some (Examples.notesHealthEnvelope (JStr " "))
  /\ exit_code (fst (Notes.run (Examples.notesHost (Some "key"))
                       "notes-health-blank-domain" Examples.notesWorld)) = 0%Z
  /\ prop (stdout_json (fst (Notes.run (Examples.notesHost (Some "key"))
                               "notes-health-blank-domain" Examples.notesWorld))) "ok"
     = JBool true.
Proof.
  repeat split; try reflexivity; discriminate.
Qed.

(** The notes router's [health] reports [ok] exactly when an API key is
    configured (the part of C6 that the code keeps). *)
Lemma notes_health_ok_iff_configured (s : Notes.settings) :
  prop (Notes.sanitizeForHealth s) "ok" = JBool true <-> Notes.apiKey s <> None.
Proof.
  unfold Notes.sanitizeForHealth. cbn [prop get String.eqb Ascii.eqb Bool.eqb].
  destruct (Notes.apiKey s); cbn [isSome]; split; intros H;
    try reflexivity; try discriminate; congruence.
Qed.

End EntryFacts.

(** ** The calendar script *)

Module CalendarFacts.

Import Js Proc Calendar.Jxa.

Local Open Scope Z_scope.

(** *** Local wall-clock arithmetic *)

Lemma local_fields_shift (l k : Z) :
  MakeDate (Day l) (MakeTime (HourFromTime l + k) (MinFromTime l) (SecFromTime l)
                             (msFromTime l))
  = l + k * msPerHour.
Proof.
  unfold MakeDate, MakeTime, Day, HourFromTime, MinFromTime, SecFromTime, msFromTime,
    msPerDay, msPerHour, msPerMinute, msPerSecond.
  Z.div_mod_to_equations. lia.
Qed.

Lemma setHours_shift (h : Host) (t k : Z) :
  setHours h t (getHours h t + k) = TimeClip (UTC h (LocalTime h t + k * msPerHour)).
Proof.
  unfold setHours, getHours. rewrite local_fields_shift. reflexivity.
Qed.

Lemma TimeClip_in_range (t : Z) : Z.abs t <= maxTime -> TimeClip t = Some t.
Proof.
  intros H. unfold TimeClip. destruct (Z.leb_spec (Z.abs t) maxTime); [reflexivity | lia].
Qed.

(** The default end of an event: [start] moved by [k] hours of local
    wall-clock time. *)
Lemma default_end (h : Host) (payload : value) (s : Z) :
  parseDateInput h (FromJson (prop payload "start")) "payload.start" = inr s ->
  truthy (prop payload "end") = false ->
  ensureEventTimesOf h payload
  = match TimeClip (UTC h (LocalTime h s
                           + (if payloadAllDay payload then 24 else 1) * msPerHour)) with
    | Some e =>
        if s <? e
        then inr {| t_start := s; t_end := e; t_allDay := payloadAllDay payload |}
        else inl "payload.end must be later than payload.start"%string
    | None => inl "payload.end must be later than payload.start"%string
    end.
Proof.
  intros Hstart Hend.
  unfold ensureEventTimesOf, ensureEventTimes. rewrite Hstart.
  cbn [dtruthy]. rewrite Hend. rewrite setHours_shift. reflexivity.
Qed.

(** C8 (amended).  With a valid [start] and no [end] (missing or falsy), the
    end is [start] moved by one hour, or by 24 hours for an all-day event,
    of local wall-clock time ([setHours]); it equals [start] plus exactly
    that many hours when the zone's UTC offset at the resulting local time
    is the offset at [start] and the result is a valid date.  With both
    given, the call succeeds when [end] is strictly later than [start] and
    fails with the message [payload.end must be later than payload.start]
    otherwise. *)
Theorem C8_event_times (h : Host) (payload : value) (s : Z) :
  parseDateInput h (FromJson (prop payload "start")) "payload.start" = inr s ->
  (truthy (prop payload "end") = false ->
   offsetAtLocal (zone h)
     (LocalTime h s + (if payloadAllDay payload then 24 else 1) * msPerHour)
   = offsetAtUtc (zone h) s ->
   Z.abs (s + (if payloadAllDay payload then 24 else 1) * msPerHour) <= maxTime ->
   ensureEventTimesOf h payload
   = inr {| t_start := s;
            t_end := s + (if payloadAllDay payload then 24 else 1) * msPerHour;
            t_allDay := payloadAllDay payload |})
  /\ (forall e,
        truthy (prop payload "end") = true ->
        parseDateInput h (FromJson (prop payload "end")) "payload.end" = inr e ->
        (s < e ->
         ensureEventTimesOf h payload
         = inr {| t_start := s; t_end := e; t_allDay := payloadAllDay payload |})
        /\ (e <= s ->
            ensureEventTimesOf h payload
            = inl "payload.end must be later than payload.start"%string)).
Proof.
  intros Hstart. split.
  - intros Hend Hoffset Hrange.
    rewrite (default_end h payload s Hstart Hend).
    set (k := if payloadAllDay payload then 24 else 1) in *.
    assert (Hk : 0 < k) by (subst k; destruct (payloadAllDay payload); lia).
    assert (Hutc : UTC h (LocalTime h s + k * msPerHour) = s + k * msPerHour).
    { unfold UTC. rewrite Hoffset. unfold LocalTime. lia. }
    rewrite Hutc, (TimeClip_in_range _ Hrange).
    destruct (Z.ltb_spec s (s + k * msPerHour)) as [_|Hle]; [reflexivity|].
    unfold msPerHour in Hle. lia.
  - intros e Hend Hparse.
    unfold ensureEventTimesOf, ensureEventTimes. rewrite Hstart.
    cbn [dtruthy]. rewrite Hend, Hparse.
    split; intros Hcmp; destruct (Z.ltb_spec s e); try reflexivity; lia.
Qed.

Lemma C8_event_times_witness :
  ensureEventTimesOf (Examples.jxaHost Examples.fixedZone)
    (JObj [("title", JStr "Offsite"); ("start", JStr "2024-11-03");
           ("allDay", JBool true)])
  = inr {| t_start := 1730563200000; t_end := 1730563200000 + 24 * msPerHour;
           t_allDay := true |}
  /\ ensureEventTimesOf (Examples.jxaHost Examples.fixedZone)
       (JObj [("title", JStr "Review"); ("start", JNum Examples.t1130);
              ("end", JNum Examples.t1030)])
     = inl "payload.end must be later than payload.start"%string.
Proof.
  split.
  - destruct (C8_event_times (Examples.jxaHost Examples.fixedZone)
                (JObj [("title", JStr "Offsite"); ("start", JStr "2024-11-03");
                       ("allDay", JBool true)])
                1730563200000 eq_refl) as (Hdefault & _).
    apply Hdefault; [reflexivity | reflexivity | vm_compute; discriminate].
  - destruct (C8_event_times (Examples.jxaHost Examples.fixedZone)
                (JObj [("title", JStr "Review"); ("start", JNum Examples.t1130);
                       ("end", JNum Examples.t1030)])
                Examples.t1130 eq_refl) as (_ & Hboth).
    destruct (Hboth Examples.t1030 eq_refl eq_refl) as (_ & Hfail).
    apply Hfail. vm_compute. discriminate.
Defined.

(** What [createEvent] hands to Calendar.app are the times of
    [ensureEventTimes]. *)
Lemma createEvent_times (h : Host) (app : App) (defaultCalendar payload : value)
    (p : event_props) :
  createEvent h app defaultCalendar payload = inr p ->
  ensureEventTimesOf h payload
  = inr {| t_start := p_startDate p; t_end := p_endDate p;
           t_allDay := p_alldayEvent p |}.
Proof.
  unfold createEvent.
  destruct (match _ with Some t => Some t | None => _ end) as [t|]; [|discriminate].
  destruct (pickTargetCalendar app defaultCalendar payload) as [err|target];
    [discriminate|].
  destruct (ensureEventTimesOf h payload) as [err|[ts te ta]]; [discriminate|].
  intros H. injection H as <-. reflexivity.
Qed.

(** An all-day event on the day daylight saving time ends lasts 25 hours:
    the default end is not [start] plus 24 hours. *)
Lemma C8_counterexample_all_day_across_dst_change :
  exists p,
    createEvent (Examples.jxaHost Examples.easternZone) (Examples.appWith []) JUndef
      (JObj [("title", JStr "Offsite"); ("start", JStr "2024-11-03");
             ("allDay", JBool true)])
    = inr p
    /\ p_alldayEvent p = true
    /\ p_startDate p = 1730606400000
    /\ p_endDate p = p_startDate p + 25 * msPerHour
    /\ p_endDate p <> p_startDate p + 24 * msPerHour.
Proof.
  eexists. split; [vm_compute; reflexivity|]. cbn [p_alldayEvent p_startDate p_endDate].
  repeat split; vm_compute; discriminate.
Qed.

(** The same zone, a timed event at 01:30 before the change: the default end
    is two hours later. *)
Lemma timed_event_across_dst_change :
  ensureEventTimesOf (Examples.jxaHost Examples.easternZone)
    (JObj [("title", JStr "Night shift"); ("start", JNum 1730611800000)])
  = inr {| t_start := 1730611800000; t_end := 1730611800000 + 2 * msPerHour;
           t_allDay := false |}.
Proof. reflexivity. Qed.

(** *** Listing events *)

Lemma filter_map_In {A B : Type} (f : A -> option B) (l : list A) (b : B) :
  In b (filter_map f l) <-> exists a, In a l /\ f a = Some b.
Proof.
  induction l as [|x rest IH]; simpl.
  - split; [contradiction | intros (a & [] & _)].
  - destruct (f x) as [y|] eqn:E; simpl; rewrite IH; split.
    + intros [<- | (a & Ha & Hf)]; [exists x; auto | exists a; auto].
    + intros (a & [<- | Ha] & Hf); [left; congruence | right; exists a; auto].
    + intros (a & Ha & Hf). exists a; auto.
    + intros (a & [<- | Ha] & Hf); [congruence | exists a; auto].
Qed.

Lemma firstn_incl {A : Type} (n : nat) (l : list A) (x : A) :
  In x (firstn n l) -> In x l.
Proof.
  intros Hin. rewrite <- (firstn_skipn n l). apply in_or_app. left. exact Hin.
Qed.

Lemma insertRow_perm (h : Host) (x : row) (l : list row) :
  Permutation (insertRow h x l) (x :: l).
Proof.
  induction l as [|y rest IH]; simpl.
  - apply Permutation_refl.
  - destruct (compareRows h x y <=? 0).
    + apply Permutation_refl.
    + apply perm_trans with (y :: x :: rest).
      * apply perm_skip. exact IH.
      * apply perm_swap.
Qed.

Lemma sortRows_perm (h : Host) (l : list row) : Permutation (sortRows h l) l.
Proof.
  induction l as [|x rest IH]; simpl.
  - apply perm_nil.
  - apply perm_trans with (x :: sortRows h rest).
    + apply insertRow_perm.
    + apply perm_skip. exact IH.
Qed.

Lemma overlaps_deleteNotes (r : row) (rs re : Z) :
  overlaps (deleteNotes r) rs re = overlaps r rs re.
Proof. reflexivity. Qed.

Lemma overlaps_spec (r : row) (rs re : Z) :
  overlaps r rs re = true <->
  exists s e, start r = Some s /\ end_ r = Some e /\ s < re /\ rs < e.
Proof.
  unfold overlaps. destruct (start r) as [s|], (end_ r) as [e|]; split.
  - intros H. apply andb_prop in H. destruct H as (H1 & H2).
    exists s, e. repeat split; lia.
  - intros (s' & e' & Hs & He & H1 & H2). injection Hs as <-. injection He as <-.
    apply andb_true_intro. split; lia.
  - discriminate.
  - intros (s' & e' & _ & He & _). discriminate He.
  - discriminate.
  - intros (s' & e' & Hs & _). discriminate Hs.
  - discriminate.
  - intros (s' & e' & Hs & _). discriminate Hs.
Qed.

(** A row is pushed only for an event that has an id, overlaps the range
    and passes the query. *)
Lemma keepEvent_sound (rs re : Z) (query : string) (includeNotes : bool)
    (calName : option string) (ev : raw_event) (r : row) :
  keepEvent rs re query includeNotes calName ev = Some r ->
  r = (if includeNotes then eventToJson ev calName
       else deleteNotes (eventToJson ev calName))
  /\ id (eventToJson ev calName) <> None
  /\ overlaps r rs re = true
  /\ matchesQuery query includeNotes (eventToJson ev calName) = true.
Proof.
  unfold keepEvent.
  destruct (id (eventToJson ev calName)) as [i|] eqn:Hid; cbn [isSome negb];
    [|discriminate].
  destruct (isSome (start (eventToJson ev calName))
            && isSome (end_ (eventToJson ev calName))); cbn [negb]; [|discriminate].
  destruct (overlaps (eventToJson ev calName) rs re) eqn:Hov; cbn [negb]; [|discriminate].
  destruct (matchesQuery query includeNotes (eventToJson ev calName)) eqn:Hq; cbn [negb];
    [|discriminate].
  intros H. injection H as <-.
  repeat split; try discriminate.
  destruct includeNotes; [exact Hov | rewrite overlaps_deleteNotes; exact Hov].
Qed.

Lemma keepEvent_complete (rs re : Z) (query : string) (includeNotes : bool)
    (calName : option string) (ev : raw_event) :
  id (eventToJson ev calName) <> None ->
  overlaps (eventToJson ev calName) rs re = true ->
  matchesQuery query includeNotes (eventToJson ev calName) = true ->
  keepEvent rs re query includeNotes calName ev
  = Some (if includeNotes then eventToJson ev calName
          else deleteNotes (eventToJson ev calName)).
Proof.
  intros Hid Hov Hq. unfold keepEvent.
  destruct (id (eventToJson ev calName)) as [i|]; [|contradiction]. cbn [isSome negb].
  rewrite Hov, Hq. cbn [negb].
  unfold overlaps in Hov.
  destruct (start (eventToJson ev calName)), (end_ (eventToJson ev calName));
    try discriminate.
  reflexivity.
Qed.

Lemma listEvents_items (h : Host) (app : App) (payload : value) (action : string)
    (l : listing) :
  listEvents h app payload action = inr l ->
  items l
  = firstn (Z.to_nat (clampPositiveInt (prop payload "limit") 50 500))
      (sortRows h (collect app payload (fst (range l)) (snd (range l)))).
Proof.
  unfold listEvents.
  destruct (normalizeDateRange h payload) as [err|[rs re]]; [discriminate|].
  intros H. injection H as <-. reflexivity.
Qed.

Lemma collect_In (app : App) (payload : value) (rs re : Z) (r : row) :
  In r (collect app payload rs re) <->
  exists cal ev,
    In cal (selectCalendars app payload) /\ In ev (eventsIn app cal rs re)
    /\ keepEvent rs re (queryOf payload) (isTrue (prop payload "includeNotes"))
         (cal_name cal) ev = Some r.
Proof.
  unfold collect. rewrite in_flat_map. split.
  - intros (cal & Hcal & Hin). apply filter_map_In in Hin.
    destruct Hin as (ev & Hev & Hkeep). exists cal, ev. auto.
  - intros (cal & ev & Hcal & Hev & Hkeep). exists cal. split; [exact Hcal|].
    apply filter_map_In. exists ev. auto.
Qed.

(** C7 (amended).  Every item of a listing overlaps the requested range in
    the half-open sense ([start < range.end] and [end > range.start]), so an
    event that starts at [range.end] is never listed and containment is not
    required.  Conversely an event returned by Calendar.app for a selected
    calendar is listed when it has an id, overlaps the range and passes the
    [query] filter, provided the rows that qualify do not outnumber
    [limit] (50 by default, at most 500), beyond which the sorted list is
    cut. *)
Theorem C7_listing_overlap (h : Host) (app : App) (payload : value) (action : string)
    (l : listing) :
  listEvents h app payload action = inr l ->
  (forall r, In r (items l) ->
     exists s e, start r = Some s /\ end_ r = Some e
                 /\ s < snd (range l) /\ fst (range l) < e)
  /\ (forall r, In r (items l) -> start r <> Some (snd (range l)))
  /\ (forall cal ev,
        In cal (selectCalendars app payload) ->
        In ev (eventsIn app cal (fst (range l)) (snd (range l))) ->
        id (eventToJson ev (cal_name cal)) <> None ->
        overlaps (eventToJson ev (cal_name cal)) (fst (range l)) (snd (range l)) = true ->
        matchesQuery (queryOf payload) (isTrue (prop payload "includeNotes"))
          (eventToJson ev (cal_name cal)) = true ->
        (length (collect app payload (fst (range l)) (snd (range l)))
         <= Z.to_nat (clampPositiveInt (prop payload "limit") 50 500))%nat ->
        In (if isTrue (prop payload "includeNotes")
            then eventToJson ev (cal_name cal)
            else deleteNotes (eventToJson ev (cal_name cal)))
           (items l)).
Proof.
  intros Hlist.
  pose proof (listEvents_items h app payload action l Hlist) as Hitems.
  assert (Hsound : forall r, In r (items l) ->
            exists s e, start r = Some s /\ end_ r = Some e
                        /\ s < snd (range l) /\ fst (range l) < e).
  { intros r Hin. rewrite Hitems in Hin.
    apply firstn_incl in Hin.
    apply (Permutation_in _ (sortRows_perm h _)) in Hin.
    apply collect_In in Hin. destruct Hin as (cal & ev & _ & _ & Hkeep).
    apply keepEvent_sound in Hkeep. destruct Hkeep as (_ & _ & Hov & _).
    apply overlaps_spec. exact Hov. }
  split; [exact Hsound|]. split.
  - intros r Hin Hstart.
    destruct (Hsound r Hin) as (s & e & Hs & _ & Hlt & _).
    rewrite Hs in Hstart. injection Hstart as ->. lia.
  - intros cal ev Hcal Hev Hid Hov Hq Hlen.
    rewrite Hitems.
    rewrite firstn_all2.
    + apply (Permutation_in _ (Permutation_sym (sortRows_perm h _))).
      apply collect_In. exists cal, ev. split; [exact Hcal|]. split; [exact Hev|].
      apply keepEvent_complete; assumption.
    + rewrite (Permutation_length (sortRows_perm h _)). exact Hlen.
Qed.

Lemma C7_listing_overlap_witness :
  exists l,
    listEvents (Examples.jxaHost Examples.fixedZone)
      (Examples.appWith [Examples.E1; Examples.E2]) (Examples.rangePayload [])
      "list_events" = inr l
    /\ In (deleteNotes (eventToJson Examples.E1 (Some "Work"%string))) (items l)
    /\ (forall r, In r (items l) -> start r <> Some Examples.t1130)
    /\ length (items l) = 1%nat.
Proof.
  eexists. split; [vm_compute; reflexivity|].
  match goal with
  | |- In _ (items ?l) /\ _ =>
      destruct (C7_listing_overlap (Examples.jxaHost Examples.fixedZone)
                  (Examples.appWith [Examples.E1; Examples.E2]) (Examples.rangePayload [])
                  "list_events" l eq_refl) as (_ & Hboundary & Hincluded)
  end.
  split; [|split; [exact Hboundary | reflexivity]].
  apply (Hincluded Examples.workCalendar Examples.E1).
  - left. reflexivity.
  - left. reflexivity.
  - discriminate.
  - reflexivity.
  - reflexivity.
  - vm_compute. lia.
Defined.

(** With [limit = 1] and two overlapping events, the later one overlaps
    the range and is not listed. *)
Lemma C7_counterexample_limit_cuts_overlapping_event :
  ~ Spec.includedIffOverlapping (Examples.jxaHost Examples.fixedZone)
      (Examples.appWith [Examples.E1; Examples.E3])
      (Examples.rangePayload [("limit", JNum 1)]) "list_events".
Proof.
  intros Hclaim.
  let v := eval vm_compute in
             (listEvents (Examples.jxaHost Examples.fixedZone)
                (Examples.appWith [Examples.E1; Examples.E3])
                (Examples.rangePayload [("limit", JNum 1)]) "list_events") in
  match v with
  | inr ?l => specialize (Hclaim l eq_refl Examples.workCalendar Examples.E3)
  end.
  destruct Hclaim as (_ & Hback).
  - left. reflexivity.
  - right. left. reflexivity.
  - destruct Hback as [Hin | Hin].
    + exists Examples.t1030, Examples.t1130. repeat split; vm_compute; reflexivity.
    + vm_compute in Hin. destruct Hin as [Heq | []]. discriminate Heq.
    + vm_compute in Hin. destruct Hin as [Heq | []]. discriminate Heq.
Qed.

End CalendarFacts.

(** * More properties of the adapters and of their callers *)

(** ** More on the shared helpers *)

Module HelperFacts.

Import Js Laws.

(** *** [trim] *)

Lemma trimStart_list (s : string) :
  list_ascii_of_string (trimStart s) = dropWs (list_ascii_of_string s).
Proof.
  induction s as [|c r IH]; simpl; [reflexivity|].
  destruct (is_ws c); [exact IH | reflexivity].
Qed.

Lemma trim_list (s : string) :
  list_ascii_of_string (trim s)
  = rev (dropWs (rev (dropWs (list_ascii_of_string s)))).
Proof.
  unfold trim, reverse.
  rewrite list_ascii_of_string_of_list_ascii, trimStart_list,
    list_ascii_of_string_of_list_ascii, trimStart_list.
  reflexivity.
Qed.

Lemma dropWs_idem (l : list ascii) : dropWs (dropWs l) = dropWs l.
Proof.
  induction l as [|c r IH]; simpl; [reflexivity|].
  destruct (is_ws c) eqn:E; [exact IH | simpl; rewrite E; reflexivity].
Qed.

Lemma dropWs_suffix (l : list ascii) : exists p, l = p ++ dropWs l.
Proof.
  induction l as [|c r (p & Hp)]; simpl.
  - exists []. reflexivity.
  - destruct (is_ws c).
    + exists (c :: p). simpl. rewrite <- Hp. reflexivity.
    + exists []. reflexivity.
Qed.

Lemma dropWs_head (l : list ascii) (c : ascii) (r : list ascii) :
  dropWs l = c :: r -> is_ws c = false.
Proof.
  induction l as [|x l' IH]; simpl; [discriminate|].
  destruct (is_ws x) eqn:E; [exact IH|].
  intros H. injection H as <- _. exact E.
Qed.

(** Trimming from both ends leaves nothing more to trim. *)
Lemma trimmed_list_fixed (l : list ascii) :
  let r := rev (dropWs (rev (dropWs l))) in
  rev (dropWs (rev (dropWs r))) = r.
Proof.
  intros r.
  assert (Hfront : dropWs r = r).
  { destruct (dropWs_suffix (rev (dropWs l))) as (p & Hp).
    assert (Ha : dropWs l = r ++ rev p).
    { rewrite <- (rev_involutive (dropWs l)), Hp, rev_app_distr. reflexivity. }
    destruct r as [|c r'] eqn:Er; [reflexivity|].
    simpl in Ha. apply dropWs_head in Ha. simpl. rewrite Ha. reflexivity. }
  rewrite Hfront. subst r. rewrite rev_involutive, dropWs_idem. reflexivity.
Qed.

Lemma trim_idempotent (s : string) : trim (trim s) = trim s.
Proof.
  rewrite <- (string_of_list_ascii_of_string (trim (trim s))).
  rewrite <- (string_of_list_ascii_of_string (trim s)) at 2.
  f_equal. rewrite trim_list, trim_list.
  apply trimmed_list_fixed.
Qed.

Lemma trim_no_outer_space (s : string) :
  trimStart (trim s) = trim s /\ trimStart (reverse (trim s)) = reverse (trim s).
Proof.
  split.
  - rewrite <- (string_of_list_ascii_of_string (trimStart (trim s))).
    rewrite <- (string_of_list_ascii_of_string (trim s)) at 2.
    f_equal. rewrite trimStart_list, trim_list.
    set (l := list_ascii_of_string s).
    destruct (dropWs_suffix (rev (dropWs l))) as (p & Hp).
    assert (Ha : dropWs l = rev (dropWs (rev (dropWs l))) ++ rev p).
    { rewrite <- (rev_involutive (dropWs l)) at 1. rewrite Hp at 1.
      rewrite rev_app_distr. reflexivity. }
    destruct (rev (dropWs (rev (dropWs l)))) as [|c r'] eqn:Er; [reflexivity|].
    simpl in Ha. apply dropWs_head in Ha. simpl. rewrite Ha. reflexivity.
  - rewrite <- (string_of_list_ascii_of_string (trimStart (reverse (trim s)))).
    rewrite <- (string_of_list_ascii_of_string (reverse (trim s))).
    f_equal. rewrite trimStart_list. unfold reverse.
    rewrite !list_ascii_of_string_of_list_ascii, trim_list, rev_involutive.
    apply dropWs_idem.
Qed.

(** *** The [read*] helpers *)

Lemma readString_nonempty (v : value) (t : string) : readString v = Some t -> t <> "".
Proof.
  destruct v; try discriminate. simpl.
  destruct (String.eqb_spec (trim s) "") as [|Hne]; [discriminate|].
  intros H. injection H as <-. exact Hne.
Qed.

Lemma readString_fixed (v : value) (t : string) : readString v = Some t -> trim t = t.
Proof.
  destruct v; try discriminate. simpl.
  destruct (String.eqb (trim s) ""); [discriminate|].
  intros H. injection H as <-. apply trim_idempotent.
Qed.

Lemma readStringArray_nonempty (v : value) :
  Forall (fun t => t <> "") (readStringArray v).
Proof.
  destruct v; try constructor.
  induction items as [|x rest IH]; simpl; [constructor|].
  destruct (readString x) as [t|] eqn:E; [|exact IH].
  constructor; [apply (readString_nonempty x t E) | exact IH].
Qed.

Lemma readPositiveInt_positive (v : value) (fallback : Z) :
  (0 < fallback)%Z -> (0 < readPositiveInt v fallback)%Z.
Proof.
  intros Hfb. unfold readPositiveInt, positiveInt.
  destruct v; simpl; try exact Hfb.
  - destruct (Z.ltb_spec 0 n); simpl; assumption.
  - destruct (parseInt (trim s)) as [p|]; simpl; [|exact Hfb].
    destruct (Z.ltb_spec 0 p); simpl; assumption.
Qed.

End HelperFacts.

(** ** The mail router, handler by handler *)

Module MailHandlerFacts.

Import Js Proc Mail Laws.
Local Open Scope proc_scope.

Lemma runHimalaya_effect (h : Host) (s : settings) (args : list string) (opts : run_opts)
    (w : world) :
  exists c,
    argv c = binary s :: buildGlobalArgs s opts
             ++ (if includeAccount opts then withAccountArg args (account s) else args)
    /\ input c = opt_input opts
    /\ match spawn h (calls w) c with
       | SpawnError e =>
           runHimalaya h s args opts w
           = (Throw e, {| files := files w; calls := calls w ++ [c] |})
       | Closed r =>
           exists res,
             runHimalaya h s args opts w
             = (Ret res, {| files := files w; calls := calls w ++ [c] |})
             /\ ok res = (match code r with Some 0%Z => true | _ => false end)
             /\ h_argv res = argv c
       | Gone r =>
           match opt_input opts with
           | Some _ =>
               runHimalaya h s args opts w
               = (Exit JUndef 1%Z, {| files := files w; calls := calls w ++ [c] |})
           | None =>
               exists res,
                 runHimalaya h s args opts w
                 = (Ret res, {| files := files w; calls := calls w ++ [c] |})
                 /\ ok res = (match code r with Some 0%Z => true | _ => false end)
                 /\ h_argv res = argv c
           end
       end.
Proof.
  exists {| argv := binary s :: buildGlobalArgs s opts
                     ++ (if includeAccount opts then withAccountArg args (account s)
                         else args);
            input := opt_input opts;
            call_timeoutMs :=
              readPositiveInt (JNum (nullish (opt_timeoutMs opts) (timeoutMs s))) 30000 |}.
  split; [|split]; [reflexivity | reflexivity |].
  unfold runHimalaya, bind, runCommand, die.
  match goal with |- match ?x with _ => _ end => destruct x as [e|r|r] eqn:E end.
  - reflexivity.
  - eexists. split; [reflexivity|]. split; reflexivity.
  - destruct (opt_input opts); [reflexivity|].
    eexists. split; [reflexivity|]. split; reflexivity.
Qed.

(** A command that is handed no input either cannot be started or
    returns. *)
Lemma runHimalaya_quiet (h : Host) (s : settings) (args : list string) (opts : run_opts)
    (w : world) :
  opt_input opts = None ->
  exists c,
    argv c = binary s :: buildGlobalArgs s opts
             ++ (if includeAccount opts then withAccountArg args (account s) else args)
    /\ ((exists e, runHimalaya h s args opts w
                   = (Throw e, {| files := files w; calls := calls w ++ [c] |}))
        \/ exists res,
             runHimalaya h s args opts w
             = (Ret res, {| files := files w; calls := calls w ++ [c] |})
             /\ h_argv res = argv c).
Proof.
  intros Hquiet.
  destruct (runHimalaya_effect h s args opts w) as (c & Hargv & _ & Hrun).
  exists c. split; [exact Hargv|]. rewrite Hquiet in Hrun.
  destruct (spawn h (calls w) c) as [e|r|r].
  - left. exists e. exact Hrun.
  - right. destruct Hrun as (res & Hrun & _ & Hh). exists res. split; assumption.
  - right. destruct Hrun as (res & Hrun & _ & Hh). exists res. split; assumption.
Qed.

(** The common tail of the handlers: one command, then [respond]. *)
Lemma tail_outcome (h : Host) (s : settings) (args : list string) (opts : run_opts)
    (action : string) (request : obj) (w : world) :
  opt_input opts = None ->
  (request = [] \/ exists v, request = [("request", v)]) ->
  mailOutcome action w
    ((result <- runHimalaya h s args opts ;; ret (respond action request result)) w)
  /\ files (snd ((result <- runHimalaya h s args opts ;;
                  ret (respond action request result)) w)) = files w.
Proof.
  intros Hquiet Hreq.
  destruct (runHimalaya_quiet h s args opts w Hquiet)
    as (c & _ & [(e & Hrun) | (res & Hrun & _)]); unfold bind; rewrite Hrun.
  - split; [|reflexivity]. exists c. reflexivity.
  - unfold ret.
    split; [|reflexivity]. unfold mailOutcome, respond. cbn [fst snd exitCode body].
    assert (Hshape : forall b,
              mailEcho action (envelopeFor b action (request ++ [("result", resultBlock res)]))
              /\ prop (envelopeFor b action (request ++ [("result", resultBlock res)])) "ok"
                 = JBool b).
    { intros b. destruct Hreq as [-> | (v & ->)]; destruct b; repeat split. }
    destruct (Hshape (ok res)) as (Hecho & Hokfield).
    split; [exact Hecho|]. right. split; [exists c; reflexivity|].
    rewrite Hokfield. destruct (ok res); [left | right]; split; reflexivity.
Qed.

Lemma refusal_outcome (action : string) (message : string) (w : world) :
  mailOutcome action w
    (ret {| exitCode := 2;
            body := envelopeErrorResponse action [("error", JStr message)] |} w).
Proof.
  unfold mailOutcome, ret. cbn [fst snd exitCode body].
  split; [repeat split|]. left. repeat split.
Qed.

Ltac tail :=
  apply tail_outcome;
  [reflexivity | solve [left; reflexivity | right; eexists; reflexivity]].
Ltac refusal := solve [split; [apply refusal_outcome | reflexivity]].

Section Handlers.

Variable h : Host.
Variable envelope : value.
Variable action : string.
Variable w : world.

(** A handler is orderly when it ends as [mailOutcome] says and writes no
    file. *)
Let orderly (r : outcome response * world) : Prop :=
  mailOutcome action w r /\ files (snd r) = files w.

Lemma handleListAccounts_orderly : orderly (handleListAccounts h envelope action w).
Proof. unfold orderly, handleListAccounts. cbv zeta. tail. Qed.

Lemma handleListFolders_orderly : orderly (handleListFolders h envelope action w).
Proof. unfold orderly, handleListFolders. cbv zeta. tail. Qed.

Lemma handleListMessages_orderly : orderly (handleListMessages h envelope action w).
Proof. unfold orderly, handleListMessages. cbv zeta. tail. Qed.

Lemma handleSearch_orderly : orderly (handleSearch h envelope action w).
Proof. apply handleListMessages_orderly. Qed.

Lemma handleGetMessage_orderly : orderly (handleGetMessage h envelope action w).
Proof.
  unfold orderly, handleGetMessage, idsRequired. cbv zeta.
  destruct (normalizeIdList _ _); [refusal | tail].
Qed.

Lemma handleDraftReply_orderly : orderly (handleDraftReply h envelope action w).
Proof.
  unfold orderly, handleDraftReply. cbv zeta.
  destruct (readString (prop _ "id")); [tail | refusal].
Qed.

Lemma handleArchive_orderly : orderly (handleArchive h envelope action w).
Proof.
  unfold orderly, handleArchive, idsRequired. cbv zeta.
  destruct (normalizeIdList _ _); [refusal | tail].
Qed.

Lemma handleDeleteMessages_orderly : orderly (handleDeleteMessages h envelope action w).
Proof.
  unfold orderly, handleDeleteMessages, idsRequired. cbv zeta.
  destruct (normalizeIdList _ _); [refusal | tail].
Qed.

Lemma handlePurgeFolder_orderly : orderly (handlePurgeFolder h envelope action w).
Proof.
  unfold orderly, handlePurgeFolder. cbv zeta.
  destruct (orElse _ _); [tail | refusal].
Qed.

Lemma handleMarkRead_orderly : orderly (handleMarkRead h envelope action w).
Proof.
  unfold orderly, handleMarkRead, idsRequired. cbv zeta.
  destruct (normalizeIdList _ _); [refusal | tail].
Qed.

Lemma handleLabel_orderly : orderly (handleLabel h envelope action w).
Proof.
  unfold orderly, handleLabel, idsRequired. cbv zeta.
  destruct (normalizeIdList _ _); [refusal|].
  destruct (negb _); [refusal|].
  destruct (readStringArray _); [refusal | tail].
Qed.

End Handlers.

Lemma orderly_law (h : Host) (envelope : value) (action : string) (w : world)
    (r : outcome response * world) :
  mailOutcome action w r /\ files (snd r) = files w ->
  mailDispatchLaw h envelope action w r.
Proof.
  intros (Hout & Hfiles). unfold mailDispatchLaw.
  split; [intros p _; rewrite Hfiles; reflexivity|].
  split; [intros _; exact Hfiles|].
  unfold mailOutcome in Hout. destruct r as [[res|e|p c] w']; cbn [fst snd] in *.
  - destruct Hout as (Hecho & [(Hexit & Hok & ->) | ((c & Hc) & Hcase)]).
    + split; [exists []; rewrite app_nil_r; repeat split; simpl; lia|].
      split; [exact Hecho|]. rewrite Hexit, Hok.
      split; [auto|]. split; [eauto|]. split; [auto|].
      intros _. split; intros H; discriminate H.
    + split; [exists [c]; repeat split; simpl; try lia; exact Hc|].
      split; [exact Hecho|].
      destruct Hcase as [(Hexit & Hok) | (Hexit & Hok)]; rewrite Hexit, Hok.
      * split; [auto|]. split; [eauto|]. split; [intros H; discriminate H|].
        intros _. split; reflexivity.
      * split; [auto|]. split; [eauto|]. split; [intros H; discriminate H|].
        intros _. split; intros H; discriminate H.
  - destruct Hout as (c & Hc).
    split; [exists [c]; repeat split; simpl; try lia; exact Hc | exact I].
  - contradiction.
Qed.

(** The child of a send was gone before the message was written. *)
Ltac died c r Hsp Hin Hrun :=
  cbn [opt_input] in Hrun, Hin; rewrite Hrun; unfold mailDispatchLaw;
  cbn [fst snd files calls];
  split; [reflexivity|]; split; [reflexivity|];
  split; [exists [c]; repeat split; simpl; lia|];
  split; [reflexivity|]; split; [reflexivity|]; split; [reflexivity|];
  split; [reflexivity|]; exists c, r; split; [exact Hsp|];
  split; [rewrite Hin; discriminate | reflexivity].

Lemma handleSendMessage_law (h : Host) (envelope : value) (w : world) :
  mailDispatchLaw h envelope "send_message" w
    (handleSendMessage h envelope "send_message" w).
Proof.
  unfold handleSendMessage. cbv zeta.
  set (s := resolveAdapterSettings h envelope).
  destruct (sendContent (payload s)) as [content|];
    [|apply orderly_law; split; [apply refusal_outcome | reflexivity]].
  destruct (readBoolean (prop (payload s) "requireIdempotencyKey") false
            && negb (isSome (sendIdempotencyKey envelope (payload s)))) eqn:Hreq;
    [apply orderly_law; split; [apply refusal_outcome | reflexivity]|].
  destruct (sendIdempotencyKey envelope (payload s)) as [key|] eqn:Hkey.
  - unfold bind at 1. unfold readIdempotencyStore.
    destruct (get _ (storeKeys (files w (resolveIdempotencyStorePath h s)))) as
      [| | | | | |existing] eqn:Hentry.
    7: { (* a record is there: conflict or duplicate, the world is untouched *)
      assert (Hdup : mailDispatchLaw h envelope "send_message" w
                       (ret (duplicateResponse s "send_message"
                               (sendUseTemplate (payload s)) content key
                               (resolveIdempotencyStorePath h s)
                               (buildIdempotencyEntryKey (account s)
                                  (modeName (sendUseTemplate (payload s))) key)
                               existing) w)).
      { unfold mailDispatchLaw, ret, duplicateResponse. cbn [fst snd exitCode body].
        split; [reflexivity|]. split; [reflexivity|].
        split; [exists []; rewrite app_nil_r; repeat split; simpl; lia|].
        split; [repeat split|]. split; [auto|]. split; [eexists; reflexivity|].
        split; [intros H; discriminate H|]. intros _. split; reflexivity. }
      destruct (readString (get "contentHash" existing)) as [existingHash|];
        [|exact Hdup].
      destruct (negb (existingHash =? sha256Hex h content)%string); [|exact Hdup].
      unfold mailDispatchLaw, ret. cbn [fst snd exitCode body].
      split; [reflexivity|]. split; [reflexivity|].
      split; [exists []; rewrite app_nil_r; repeat split; simpl; lia|].
      split; [repeat split|]. split; [auto|]. split; [eexists; reflexivity|].
      split; [intros _; split; reflexivity|].
      intros _. split; intros H; discriminate H. }
    all: destruct (runHimalaya_effect h s
                     (if sendUseTemplate (payload s) then ["template"; "send"]
                      else ["message"; "send"])
                     {| jsonOutput := true; quiet := true; includeAccount := true;
                        opt_timeoutMs := None; opt_input := Some content |} w)
           as (c & _ & Hin & Hrun).
    all: unfold bind; destruct (spawn h (calls w) c) as [e|r|r] eqn:Hsp;
      [rewrite Hrun; unfold mailDispatchLaw; cbn [fst snd files calls];
       split; [reflexivity|]; split; [reflexivity|];
       split; [exists [c]; repeat split; simpl; lia | exact I]
      | | died c r Hsp Hin Hrun].
    all: destruct Hrun as (res & Hrun & Hok & _); rewrite Hrun.
    all: destruct (ok res) eqn:Hokres; unfold writeIdempotencyStore, ret, respond;
      rewrite ?Hokres; unfold mailDispatchLaw; cbn [fst snd files calls exitCode body].
    all: (split;
          [intros p Hp;
           first [reflexivity
                 | destruct (String.eqb_spec p (resolveIdempotencyStorePath h s));
                   [contradiction | reflexivity]]|]).
    all: (split; [intros Hne; exfalso; apply Hne; reflexivity|]).
    all: (split; [exists [c]; repeat split; simpl; lia|]).
    all: (split; [repeat split|]).
    all: (split; [auto|]); (split; [eexists; reflexivity|]).
    all: (split; [intros H; discriminate H|]).
    all: intros _; split; intros H; try reflexivity; discriminate H.
  - destruct (runHimalaya_effect h s
                (if sendUseTemplate (payload s) then ["template"; "send"]
                 else ["message"; "send"])
                {| jsonOutput := true; quiet := true; includeAccount := true;
                   opt_timeoutMs := None; opt_input := Some content |} w)
      as (c & _ & Hin & Hrun).
    unfold bind. destruct (spawn h (calls w) c) as [e|r|r] eqn:Hsp;
      [| | died c r Hsp Hin Hrun].
    + rewrite Hrun. unfold mailDispatchLaw. cbn [fst snd files calls].
      split; [reflexivity|]. split; [reflexivity|].
      split; [exists [c]; repeat split; simpl; lia | exact I].
    + destruct Hrun as (res & Hrun & Hok & _). rewrite Hrun.
      unfold ret, respond. unfold mailDispatchLaw. cbn [fst snd files calls exitCode body].
      split; [reflexivity|]. split; [reflexivity|].
      split; [exists [c]; repeat split; simpl; lia|].
      destruct (ok res); (split; [repeat split|]);
        (split; [auto|]); (split; [eexists; reflexivity|]);
        (split; [intros H; discriminate H|]);
        intros _; split; intros H; try reflexivity; discriminate H.
Qed.

Lemma handleHealth_law (h : Host) (envelope : value) (w : world) :
  mailDispatchLaw h envelope "health" w (handleHealth h envelope "health" w).
Proof.
  unfold handleHealth. cbv zeta.
  set (s := resolveAdapterSettings h envelope).
  unfold bind at 1. unfold try_catch, bind, runCommand.
  match goal with
  | |- context [spawn h (calls w) ?c] => set (c1 := c); destruct (spawn h (calls w) c1) as [e|r|r]
  end.
  1: { unfold ret, mailDispatchLaw. cbn [fst snd files calls exitCode body].
    split; [reflexivity|]. split; [reflexivity|].
    split; [exists [c1]; repeat split; simpl; lia|].
    split; [repeat split|]. split; [auto|]. split; [eexists; reflexivity|].
    split; [intros H; discriminate H|]. intros Hne. exfalso. apply Hne. reflexivity. }
  (* the version probe is handed no input: a child that is gone is seen
     to close like any other *)
  all: cbv beta iota; unfold ret at 1.
  all: destruct (readBoolean (prop (payload s) "deep") false
              && (isSome (account s) || isSome (configPath s))) eqn:Hdeep.
  all: [> | | | ].
  1,3: match goal with
      | |- context [runHimalaya _ ?s0 ?a ?o] =>
          destruct (runHimalaya_quiet h s0 a o
                      {| files := files w; calls := calls w ++ [c1] |} eq_refl)
            as (c2 & _ & [(e2 & Hrun) | (res & Hrun & _)])
      end;
      cbn [calls files] in Hrun; unfold bind; rewrite Hrun;
      [unfold mailDispatchLaw; cbn [fst snd files calls];
        split; [reflexivity|]; split; [reflexivity|];
        split; [exists [c1; c2]; rewrite <- app_assoc; repeat split; simpl; try lia;
                intros Hne; exfalso; apply Hne; reflexivity | exact I]
      | unfold ret, mailDispatchLaw; cbn [fst snd files calls exitCode body];
        split; [reflexivity|]; split; [reflexivity|];
        split; [exists [c1; c2]; rewrite <- app_assoc; repeat split; simpl; try lia;
                intros Hne; exfalso; apply Hne; reflexivity|];
        split; [repeat split|];
        split; [destruct (code r) as [[|p|p]|]; auto|];
        split; [eexists; reflexivity|];
        split; [destruct (code r) as [[|p|p]|]; intros H; discriminate H|];
        intros Hne; exfalso; apply Hne; reflexivity].
  all: unfold bind, ret, mailDispatchLaw; cbn [fst snd files calls exitCode body];
      split; [reflexivity|]; split; [reflexivity|];
      split; [exists [c1]; repeat split; simpl; lia|];
      split; [repeat split|];
      split; [destruct (code r) as [[|p|p]|]; auto|];
      split; [eexists; reflexivity|];
      split; [destruct (code r) as [[|p|p]|]; intros H; discriminate H|];
      intros Hne; exfalso; apply Hne; reflexivity.
Qed.


(** Every [dispatch] keeps the law. *)
Lemma dispatch_law (h : Host) (envelope : value) (action : string) (w : world) :
  mailDispatchLaw h envelope action w (dispatch h envelope action w).
Proof.
  unfold dispatch, handlers. cbn [lookup].
  repeat match goal with
         | |- context [String.eqb action ?lit] =>
             destruct (String.eqb_spec action lit) as [->|?]
         end.
  - apply handleHealth_law.
  - apply orderly_law, handleListAccounts_orderly.
  - apply orderly_law, handleListFolders_orderly.
  - apply orderly_law, handleListMessages_orderly.
  - apply orderly_law, handleSearch_orderly.
  - apply orderly_law, handleGetMessage_orderly.
  - apply orderly_law, handleDraftReply_orderly.
  - apply handleSendMessage_law.
  - apply orderly_law, handleArchive_orderly.
  - apply orderly_law, handleDeleteMessages_orderly.
  - apply orderly_law, handlePurgeFolder_orderly.
  - apply orderly_law, handleMarkRead_orderly.
  - apply orderly_law, handleLabel_orderly.
  - apply orderly_law. split; [|reflexivity].
    unfold mailOutcome, ret. cbn [fst snd exitCode body].
    split; [repeat split|]. left. repeat split.
Qed.

End MailHandlerFacts.

(** ** The mail router: what every request keeps *)

Module MailLawFacts.

Import Js Proc Mail Laws JsFacts HelperFacts MailHandlerFacts.

(** X1.  [readString] returns only trimmed, non-empty strings: its result
    has no white space at either end and reads back as itself. *)
Theorem readString_is_trimmed (v : value) (t : string) :
  readString v = Some t ->
  t <> ""
  /\ trim t = t
  /\ trimStart t = t
  /\ trimStart (reverse t) = reverse t
  /\ readString (JStr t) = Some t.
Proof.
  intros Hread.
  pose proof (readString_nonempty v t Hread) as Hne.
  pose proof (readString_fixed v t Hread) as Hfixed.
  destruct (trim_no_outer_space t) as (Hfront & Hback). rewrite Hfixed in Hfront, Hback.
  repeat split; try assumption.
  simpl. rewrite Hfixed. destruct (String.eqb_spec t ""); [contradiction | reflexivity].
Qed.

Lemma readString_is_trimmed_witness :
  "boss@example.com" <> ""
  /\ trim "boss@example.com" = "boss@example.com"
  /\ trimStart "boss@example.com" = "boss@example.com"
  /\ trimStart (reverse "boss@example.com") = reverse "boss@example.com"
  /\ readString (JStr "boss@example.com") = Some "boss@example.com".
Proof.
  apply (readString_is_trimmed (JStr "  boss@example.com ") "boss@example.com").
  reflexivity.
Defined.

(** X2.  Whatever the envelope and the environment hold, the settings of
    the mail adapter have a positive timeout and a non-empty binary and
    folder; an account or a configuration path, when present, is not
    blank. *)
Theorem mail_settings_are_usable (h : Host) (envelope : value) :
  let s := resolveAdapterSettings h envelope in
  (0 < timeoutMs s)%Z
  /\ binary s <> ""
  /\ folder s <> ""
  /\ account s <> Some ""
  /\ configPath s <> Some ""
  /\ isRecord (payload s) = true.
Proof.
  unfold resolveAdapterSettings. cbn [timeoutMs binary folder account configPath payload].
  split; [apply readPositiveInt_positive, readPositiveInt_positive; lia|].
  split.
  { destruct (readString (envValue h "MYOPS_HIMALAYA_BIN")) as [b|] eqn:E; simpl.
    - apply (readString_nonempty _ _ E).
    - discriminate. }
  split.
  { destruct (readString (prop _ "folder")) as [f|] eqn:E; simpl.
    - apply (readString_nonempty _ _ E).
    - destruct (readString (envValue h "MYOPS_HIMALAYA_FOLDER")) as [f|] eqn:E2; simpl.
      + apply (readString_nonempty _ _ E2).
      + discriminate. }
  split.
  { destruct (readString (prop _ "account")) as [a|] eqn:E; simpl.
    - intros H. injection H as ->. apply (readString_nonempty _ _ E). reflexivity.
    - destruct (readString (envValue h "MYOPS_HIMALAYA_ACCOUNT")) as [a|] eqn:E2.
      + intros H. injection H as ->. apply (readString_nonempty _ _ E2). reflexivity.
      + discriminate. }
  split.
  { destruct (readString (prop _ "configPath")) as [a|] eqn:E; simpl.
    - intros H. injection H as ->. apply (readString_nonempty _ _ E). reflexivity.
    - destruct (readString (envValue h "MYOPS_HIMALAYA_CONFIG")) as [a|] eqn:E2.
      + intros H. injection H as ->. apply (readString_nonempty _ _ E2). reflexivity.
      + discriminate. }
  destruct (isRecord (prop envelope "payload")) eqn:E; [exact E | reflexivity].
Qed.

(** X3.  For every action other than [health], a response of the mail
    router has exit code 0, 2 or 3, and its [ok] is [true] exactly when
    the exit code is 0. *)
Theorem mail_ok_iff_exit_zero (h : Host) (envelope : value) (action : string)
    (w w' : world) (res : response) :
  action <> "health" ->
  dispatch h envelope action w = (Ret res, w') ->
  (exitCode res = 0 \/ exitCode res = 2 \/ exitCode res = 3)%Z
  /\ (exitCode res = 0%Z <-> prop (body res) "ok" = JBool true)
  /\ (exitCode res <> 0%Z <-> prop (body res) "ok" = JBool false).
Proof.
  intros Hne Hrun.
  pose proof (dispatch_law h envelope action w) as Hlaw.
  rewrite Hrun in Hlaw. destruct Hlaw as (_ & _ & _ & Hres). cbn [fst] in Hres.
  destruct Hres as (_ & Hcodes & (b & Hb) & _ & Hiff).
  specialize (Hiff Hne).
  split; [exact Hcodes|]. split; [exact Hiff|].
  rewrite Hb in *. destruct b; split; intros H.
  - exfalso. apply H. apply Hiff. reflexivity.
  - discriminate H.
  - reflexivity.
  - intros Hz. apply Hiff in Hz. discriminate Hz.
Qed.

Lemma mail_ok_iff_exit_zero_witness :
  exists res w',
    dispatch (Examples.mailHost (Examples.always 1)) Examples.sendEnvelope "send_message"
      Examples.mailWorld = (Ret res, w')
    /\ (exitCode res = 0 \/ exitCode res = 2 \/ exitCode res = 3)%Z
    /\ (exitCode res = 0%Z <-> prop (body res) "ok" = JBool true)
    /\ (exitCode res <> 0%Z <-> prop (body res) "ok" = JBool false).
Proof.
  do 2 eexists. split; [vm_compute; reflexivity|].
  eapply (mail_ok_iff_exit_zero (Examples.mailHost (Examples.always 1))
            Examples.sendEnvelope "send_message" Examples.mailWorld);
    [discriminate | vm_compute; reflexivity].
Defined.

(** X4.  A refusal (exit code 2) of the mail router has [ok = false] and
    leaves the world exactly as it was: no backend command, no write. *)
Theorem mail_refusal_touches_nothing (h : Host) (envelope : value) (action : string)
    (w w' : world) (res : response) :
  dispatch h envelope action w = (Ret res, w') ->
  exitCode res = 2%Z ->
  w' = w /\ prop (body res) "ok" = JBool false.
Proof.
  intros Hrun Hexit.
  pose proof (dispatch_law h envelope action w) as Hlaw.
  rewrite Hrun in Hlaw. destruct Hlaw as (_ & _ & _ & Hres). cbn [fst snd] in Hres.
  destruct Hres as (_ & _ & _ & Hrefuse & _).
  destruct (Hrefuse Hexit) as (Hok & Hw). split; assumption.
Qed.

Lemma mail_refusal_touches_nothing_witness :
  exists res w',
    dispatch (Examples.mailHost (Examples.always 0)) Examples.emptySendEnvelope
      "send_message" Examples.mailWorld = (Ret res, w')
    /\ w' = Examples.mailWorld /\ prop (body res) "ok" = JBool false.
Proof.
  do 2 eexists. split; [vm_compute; reflexivity|].
  eapply (mail_refusal_touches_nothing (Examples.mailHost (Examples.always 0))
            Examples.emptySendEnvelope "send_message" Examples.mailWorld);
    vm_compute; reflexivity.
Defined.

(** X5.  The mail router writes no file but the idempotency store, and
    only [send_message] writes that; one request issues at most one
    backend command, or two for [health] (the version check and the deep
    probe). *)
Theorem mail_writes_only_the_store (h : Host) (envelope : value) (action : string)
    (w : world) :
  let w' := snd (dispatch h envelope action w) in
  (forall p, p <> resolveIdempotencyStorePath h (resolveAdapterSettings h envelope) ->
             files w' p = files w p)
  /\ (action <> "send_message" -> files w' = files w)
  /\ exists cs, calls w' = calls w ++ cs
                /\ (length cs <= 2)%nat
                /\ (action <> "health" -> (length cs <= 1)%nat).
Proof.
  destruct (dispatch_law h envelope action w) as (Hframe & Hother & Hcalls & _).
  repeat split; assumption.
Qed.

(** X6.  Every response of the mail router echoes the request: it carries
    [domain = mail], the action it was asked for and the adapter name,
    and a boolean [ok]. *)
Theorem mail_response_echoes_request (h : Host) (envelope : value) (action : string)
    (w w' : world) (res : response) :
  dispatch h envelope action w = (Ret res, w') ->
  prop (body res) "domain" = JStr "mail"
  /\ prop (body res) "action" = JStr action
  /\ prop (body res) "adapter" = JStr "himalaya"
  /\ exists b, prop (body res) "ok" = JBool b.
Proof.
  intros Hrun.
  pose proof (dispatch_law h envelope action w) as Hlaw.
  rewrite Hrun in Hlaw. destruct Hlaw as (_ & _ & _ & Hres). cbn [fst] in Hres.
  destruct Hres as ((Hd & Ha & Had) & _ & Hb & _).
  repeat split; assumption.
Qed.

Lemma mail_response_echoes_request_witness :
  exists res w',
    dispatch (Examples.mailHost (Examples.always 0)) Examples.mailHealthEnvelope "health"
      Examples.mailWorld = (Ret res, w')
    /\ prop (body res) "domain" = JStr "mail"
    /\ prop (body res) "action" = JStr "health"
    /\ prop (body res) "adapter" = JStr "himalaya"
    /\ exists b, prop (body res) "ok" = JBool b.
Proof.
  do 2 eexists. split; [vm_compute; reflexivity|].
  eapply (mail_response_echoes_request (Examples.mailHost (Examples.always 0))
            Examples.mailHealthEnvelope "health" Examples.mailWorld).
  vm_compute. reflexivity.
Defined.

End MailLawFacts.

(** ** The mail router: identifiers, batches and the idempotency store *)

Module MailStoreFacts.

Import Js Proc Mail Laws JsFacts HelperFacts MailHandlerFacts MailLawFacts.

Lemma stringOfInt_nonempty (n : Z) : stringOfInt n <> "".
Proof.
  unfold stringOfInt, NilZero.string_of_int.
  destruct (Z.to_int n) as [d|d]; [|discriminate].
  unfold NilZero.string_of_uint. destruct d; simpl; discriminate.
Qed.

Lemma idOf_nonempty (v : value) (i : string) : idOf v = Some i -> i <> "".
Proof.
  destruct v; try discriminate.
  - intros H. injection H as <-. apply stringOfInt_nonempty.
  - apply readString_nonempty.
Qed.

Lemma filter_map_idOf_nonempty (items : list value) :
  Forall (fun i => i <> "") (filter_map idOf items).
Proof.
  induction items as [|x rest IH]; simpl; [constructor|].
  destruct (idOf x) as [i|] eqn:E; [|exact IH].
  constructor; [apply (idOf_nonempty x i E) | exact IH].
Qed.

(** X7.  [normalizeIdList] never returns a blank identifier; a [payload.ids]
    array with at least one usable entry is taken whole and in order, and
    [payload.id] is consulted only when [payload.ids] yields nothing, in
    which case it contributes at most one identifier. *)
Theorem normalizeIdList_precedence (ids fallbackId : value) :
  Forall (fun i => i <> "") (normalizeIdList ids fallbackId)
  /\ (forall items, ids = JArr items -> filter_map idOf items <> [] ->
        normalizeIdList ids fallbackId = filter_map idOf items)
  /\ (forall i, idOf ids = Some i -> normalizeIdList ids fallbackId = [i])
  /\ ((forall items, ids = JArr items -> filter_map idOf items = []) ->
      idOf ids = None ->
      normalizeIdList ids fallbackId
      = match idOf fallbackId with Some i => [i] | None => [] end).
Proof.
  assert (Hfb : Forall (fun i => i <> "")
                  (match idOf fallbackId with Some i => [i] | None => [] end)).
  { destruct (idOf fallbackId) as [i|] eqn:E; [|constructor].
    constructor; [apply (idOf_nonempty _ _ E) | constructor]. }
  split; [|split; [|split]].
  - unfold normalizeIdList.
    assert (Hin : Forall (fun i => i <> "")
                    match ids with
                    | JArr items => filter_map idOf items
                    | _ => match idOf ids with Some i => [i] | None => [] end
                    end).
    { assert (Hone : Forall (fun i => i <> "")
                       (match idOf ids with Some i => [i] | None => [] end)).
      { destruct (idOf ids) as [i|] eqn:E; [|constructor].
        constructor; [apply (idOf_nonempty _ _ E) | constructor]. }
      destruct ids; try exact Hone. apply filter_map_idOf_nonempty. }
    destruct (match ids with
              | JArr items => filter_map idOf items
              | _ => match idOf ids with Some i => [i] | None => [] end
              end); [exact Hfb | exact Hin].
  - intros items -> Hne. unfold normalizeIdList.
    destruct (filter_map idOf items); [contradiction | reflexivity].
  - intros i Hi. unfold normalizeIdList.
    destruct ids; try discriminate; rewrite Hi; reflexivity.
  - intros Harr Hnone. unfold normalizeIdList.
    destruct ids; try reflexivity; try (rewrite Hnone; reflexivity).
    rewrite (Harr items eq_refl). reflexivity.
Qed.

Lemma normalizeIdList_precedence_witness :
  normalizeIdList (JArr [JNum 7; JStr " 12 "; JStr " "; JBool true]) (JStr "99") = ["7"; "12"].
Proof.
  destruct (normalizeIdList_precedence (JArr [JNum 7; JStr " 12 "; JStr " "; JBool true])
              (JStr "99")) as (_ & Harray & _).
  apply (Harray [JNum 7; JStr " 12 "; JStr " "; JBool true]); [reflexivity|].
  vm_compute. discriminate.
Defined.

Lemma withAccountArg_keeps_tail (a b : string) (rest ids : list string)
    (account : option string) :
  exists pre, withAccountArg (a :: b :: rest ++ ids) account = pre ++ ids.
Proof.
  destruct account as [acc|]; simpl.
  - exists (a :: b :: "-a" :: acc :: rest). reflexivity.
  - exists (a :: b :: rest). reflexivity.
Qed.

Lemma batch_tail (h : Host) (st : settings) (action : string) (w : world)
    (ids : list string) (a b : string) (rest : list string) (request : obj) :
  exists out c pre,
    bind (runHimalaya h st (a :: b :: rest ++ ids) default_opts)
         (fun result => ret (respond action request result)) w
    = (out, {| files := files w; calls := calls w ++ [c] |})
    /\ argv c = pre ++ ids.
Proof.
  destruct (runHimalaya_quiet h st (a :: b :: rest ++ ids) default_opts w eq_refl)
    as (c & Hargv & [(e & Hrun) | (res & Hrun & _)]).
  all: change (includeAccount default_opts) with true in Hargv; cbv iota in Hargv.
  all: destruct (withAccountArg_keeps_tail a b rest ids (account st)) as (pre & Hpre).
  all: unfold bind.
  - rewrite Hrun. exists (Throw e), c, (binary st :: buildGlobalArgs st default_opts ++ pre).
    split; [reflexivity|]. rewrite Hargv, Hpre, app_assoc. reflexivity.
  - rewrite Hrun. unfold ret.
    eexists _, c, (binary st :: buildGlobalArgs st default_opts ++ pre).
    split; [reflexivity|]. rewrite Hargv, Hpre, app_assoc. reflexivity.
Qed.

(** X8.  [archive], [delete_messages] and [mark_read] are one batch: with no
    usable identifier the request is refused (exit code 2) and nothing is
    run; otherwise exactly one backend command is issued and its command
    line ends with all the identifiers, in order. *)
Theorem mail_batch_is_one_command (h : Host) (envelope : value) (action : string)
    (w : world) :
  In action ["archive"; "delete_messages"; "mark_read"] ->
  let p := payload (resolveAdapterSettings h envelope) in
  let ids := normalizeIdList (prop p "ids") (prop p "id") in
  (ids = [] ->
   exists res, dispatch h envelope action w = (Ret res, w)
               /\ exitCode res = 2%Z
               /\ prop (body res) "error" = JStr "payload.id or payload.ids required")
  /\ (ids <> [] ->
      exists out c pre,
        dispatch h envelope action w
        = (out, {| files := files w; calls := calls w ++ [c] |})
        /\ argv c = pre ++ ids).
Proof.
  intros Hin. cbv zeta.
  destruct Hin as [<- | [<- | [<- | []]]].
  - change (dispatch h envelope "archive" w) with (handleArchive h envelope "archive" w).
    unfold handleArchive, idsRequired. cbv zeta.
    generalize (normalizeIdList
                  (prop (payload (resolveAdapterSettings h envelope)) "ids")
                  (prop (payload (resolveAdapterSettings h envelope)) "id")).
    intros ids. split.
    + intros ->. eexists. repeat split.
    + intros Hne. destruct ids as [|i rest] eqn:E; [contradiction|]. rewrite <- E.
      apply (batch_tail h _ "archive" w ids "message" "move" [_; _; _]).
  - change (dispatch h envelope "delete_messages" w)
      with (handleDeleteMessages h envelope "delete_messages" w).
    unfold handleDeleteMessages, idsRequired. cbv zeta.
    generalize (normalizeIdList
                  (prop (payload (resolveAdapterSettings h envelope)) "ids")
                  (prop (payload (resolveAdapterSettings h envelope)) "id")).
    intros ids. split.
    + intros ->. eexists. repeat split.
    + intros Hne. destruct ids as [|i rest] eqn:E; [contradiction|]. rewrite <- E.
      apply (batch_tail h _ "delete_messages" w ids "message" "delete" [_; _]).
  - change (dispatch h envelope "mark_read" w)
      with (handleMarkRead h envelope "mark_read" w).
    unfold handleMarkRead, idsRequired. cbv zeta.
    generalize (normalizeIdList
                  (prop (payload (resolveAdapterSettings h envelope)) "ids")
                  (prop (payload (resolveAdapterSettings h envelope)) "id")).
    intros ids. split.
    + intros ->. eexists. repeat split.
    + intros Hne. destruct ids as [|i rest] eqn:E; [contradiction|]. rewrite <- E.
      apply (batch_tail h _ "mark_read" w ids "flag" _ [_; _; _]).
Qed.

Lemma mail_batch_is_one_command_witness :
  In "archive" ["archive"; "delete_messages"; "mark_read"]
  /\ exists out c pre,
       dispatch (Examples.mailHost (Examples.always 0)) Samples.archiveEnvelope "archive"
         Examples.mailWorld
       = (out, {| files := files Examples.mailWorld;
                  calls := calls Examples.mailWorld ++ [c] |})
       /\ argv c = pre ++ ["7"; "12"].
Proof.
  split; [simpl; auto|].
  destruct (mail_batch_is_one_command (Examples.mailHost (Examples.always 0))
              Samples.archiveEnvelope "archive" Examples.mailWorld) as (_ & Hsome).
  - simpl. auto.
  - apply Hsome. vm_compute. discriminate.
Defined.

End MailStoreFacts.

(** ** The mail router: the idempotency store and the whole process *)

Module MailProcessFacts.

Import Js Proc Mail Laws JsFacts HelperFacts MailHandlerFacts.
Local Open Scope proc_scope.

(** What [send_message] does to the files: nothing, or one write of the
    store that adds an entry under the composite key of the request, which
    held no record before. *)
Lemma handleSendMessage_files (h : Host) (envelope : value) (action : string) (w : world) :
  let s := resolveAdapterSettings h envelope in
  let storePath := resolveIdempotencyStorePath h s in
  let store := storeKeys (files w storePath) in
  let w' := snd (handleSendMessage h envelope action w) in
  files w' = files w
  \/ exists key content entry,
       sendIdempotencyKey envelope (payload s) = Some key
       /\ sendContent (payload s) = Some content
       /\ isRecord (get (buildIdempotencyEntryKey (account s)
                           (modeName (sendUseTemplate (payload s))) key) store) = false
       /\ get "idempotencyKey" entry = JStr key
       /\ get "contentHash" entry = JStr (sha256Hex h content)
       /\ files w'
          = fun p =>
              if String.eqb p storePath
              then Some (JObj [("version", JNum 1);
                               ("keys",
                                JObj (set (buildIdempotencyEntryKey (account s)
                                             (modeName (sendUseTemplate (payload s))) key)
                                          (JObj entry) store))])
              else files w p.
Proof.
  cbv zeta. unfold handleSendMessage. cbv zeta.
  set (s := resolveAdapterSettings h envelope).
  destruct (sendContent (payload s)) as [content|]; [|left; reflexivity].
  destruct (readBoolean (prop (payload s) "requireIdempotencyKey") false
            && negb (isSome (sendIdempotencyKey envelope (payload s))));
    [left; reflexivity|].
  destruct (sendIdempotencyKey envelope (payload s)) as [key|] eqn:Hkey.
  - unfold bind, readIdempotencyStore.
    destruct (get _ (storeKeys (files w (resolveIdempotencyStorePath h s)))) as
      [| | | | | |existing] eqn:Hentry.
    7: { left. destruct (readString (get "contentHash" existing)) as [existingHash|];
           [|reflexivity].
         destruct (negb (existingHash =? sha256Hex h content)%string); reflexivity. }
    all: destruct (runHimalaya_effect h s
                     (if sendUseTemplate (payload s) then ["template"; "send"]
                      else ["message"; "send"])
                     {| jsonOutput := true; quiet := true; includeAccount := true;
                        opt_timeoutMs := None; opt_input := Some content |} w)
           as (c & _ & _ & Hrun).
    all: destruct (spawn h (calls w) c) as [e|r|r];
      [rewrite Hrun; left; reflexivity
      | | cbn [opt_input] in Hrun; rewrite Hrun; left; reflexivity].
    all: destruct Hrun as (res & Hrun & _); rewrite Hrun.
    all: destruct (ok res) eqn:Hokres; unfold writeIdempotencyStore, ret;
      [|left; reflexivity].
    all: right; exists key, content; eexists.
    all: split; [reflexivity|]; split; [reflexivity|].
    all: split; [rewrite Hentry; reflexivity|].
    all: split; [|split]; [| |cbn [snd files]; reflexivity]; reflexivity.
  - left.
    destruct (runHimalaya_effect h s
                (if sendUseTemplate (payload s) then ["template"; "send"]
                 else ["message"; "send"])
                {| jsonOutput := true; quiet := true; includeAccount := true;
                   opt_timeoutMs := None; opt_input := Some content |} w)
      as (c & _ & _ & Hrun).
    unfold bind. destruct (spawn h (calls w) c) as [e|r|r].
    + rewrite Hrun. reflexivity.
    + destruct Hrun as (res & Hrun & _). rewrite Hrun. reflexivity.
    + cbn [opt_input] in Hrun. rewrite Hrun. reflexivity.
Qed.

Lemma dispatch_files (h : Host) (envelope : value) (action : string) (w : world) :
  action <> "send_message" -> files (snd (dispatch h envelope action w)) = files w.
Proof.
  intros Hne. destruct (dispatch_law h envelope action w) as (_ & Hother & _).
  exact (Hother Hne).
Qed.

Lemma storeKeys_written (keys : obj) :
  storeKeys (Some (JObj [("version", JNum 1); ("keys", JObj keys)])) = keys.
Proof. reflexivity. Qed.

(** X9.  The idempotency store only grows.  Whatever the request, every
    key of the store keeps its value, except the composite key of a
    [send_message] request that held no record before and now holds one
    carrying the request's idempotency key and content hash.  In
    particular a recorded entry is never changed or removed. *)
Theorem mail_store_only_grows (h : Host) (envelope : value) (action : string)
    (w : world) (k : string) :
  let s := resolveAdapterSettings h envelope in
  let storePath := resolveIdempotencyStorePath h s in
  let before := storeKeys (files w storePath) in
  let after := storeKeys (files (snd (dispatch h envelope action w)) storePath) in
  (get k after = get k before
   \/ (action = "send_message"
       /\ isRecord (get k before) = false
       /\ exists key content entry,
            sendIdempotencyKey envelope (payload s) = Some key
            /\ sendContent (payload s) = Some content
            /\ k = buildIdempotencyEntryKey (account s)
                     (modeName (sendUseTemplate (payload s))) key
            /\ get k after = JObj entry
            /\ get "idempotencyKey" entry = JStr key
            /\ get "contentHash" entry = JStr (sha256Hex h content)))
  /\ (forall e, get k before = JObj e -> get k after = JObj e).
Proof.
  cbv zeta.
  set (s := resolveAdapterSettings h envelope).
  set (storePath := resolveIdempotencyStorePath h s).
  assert (Hmain :
    get k (storeKeys (files (snd (dispatch h envelope action w)) storePath))
    = get k (storeKeys (files w storePath))
    \/ (action = "send_message"
        /\ isRecord (get k (storeKeys (files w storePath))) = false
        /\ exists key content entry,
             sendIdempotencyKey envelope (payload s) = Some key
             /\ sendContent (payload s) = Some content
             /\ k = buildIdempotencyEntryKey (account s)
                      (modeName (sendUseTemplate (payload s))) key
             /\ get k (storeKeys (files (snd (dispatch h envelope action w)) storePath))
                = JObj entry
             /\ get "idempotencyKey" entry = JStr key
             /\ get "contentHash" entry = JStr (sha256Hex h content))).
  { destruct (String.eqb_spec action "send_message") as [->|Hne].
    - change (dispatch h envelope "send_message" w)
        with (handleSendMessage h envelope "send_message" w).
      destruct (handleSendMessage_files h envelope "send_message" w)
        as [Hsame | (key & content & entry & Hkey & Hcontent & Hfresh & Hk & Hhash & Hfiles)].
      + left. rewrite Hsame. reflexivity.
      + fold s in Hkey, Hcontent, Hfresh, Hfiles. fold storePath in Hfresh, Hfiles.
        rewrite Hfiles. rewrite String.eqb_refl, storeKeys_written.
        destruct (String.eqb_spec k (buildIdempotencyEntryKey (account s)
                                       (modeName (sendUseTemplate (payload s))) key))
          as [->|Hother].
        * right. split; [reflexivity|]. split; [exact Hfresh|].
          exists key, content, entry. rewrite get_set_same. repeat split; assumption.
        * left. apply get_set_other. exact Hother.
    - left. rewrite (dispatch_files h envelope action w Hne). reflexivity. }
  split; [exact Hmain|].
  intros e He. destruct Hmain as [Hsame | (_ & Hfresh & _)].
  - rewrite Hsame. exact He.
  - rewrite He in Hfresh. discriminate Hfresh.
Qed.

Lemma mail_store_only_grows_witness :
  let h := Examples.mailHost (Examples.always 0) in
  let storePath := resolveIdempotencyStorePath h (resolveAdapterSettings h Examples.sendEnvelopeB) in
  exists e,
    get "default::raw-message::send-42" (storeKeys (files Examples.recordedWorld storePath))
    = JObj e
    /\ get "default::raw-message::send-42"
         (storeKeys (files (snd (dispatch h Examples.sendEnvelopeB "send_message"
                                   Examples.recordedWorld)) storePath))
       = JObj e.
Proof.
  intros h storePath. eexists. split; [vm_compute; reflexivity|].
  destruct (mail_store_only_grows h Examples.sendEnvelopeB "send_message"
              Examples.recordedWorld "default::raw-message::send-42") as (_ & Hkeep).
  apply Hkeep. vm_compute. reflexivity.
Defined.

(** A [send_message] request without an idempotency key never writes the
    store. *)
Lemma send_without_key_keeps_files (h : Host) (envelope : value) (w : world) :
  sendIdempotencyKey envelope (payload (resolveAdapterSettings h envelope)) = None ->
  files (snd (dispatch h envelope "send_message" w)) = files w.
Proof.
  intros Hnone.
  change (dispatch h envelope "send_message" w)
    with (handleSendMessage h envelope "send_message" w).
  destruct (handleSendMessage_files h envelope "send_message" w)
    as [Hsame | (key & _ & _ & Hkey & _)]; [exact Hsame|].
  rewrite Hnone in Hkey. discriminate Hkey.
Qed.

Ltac fixed_answer :=
  split; [auto 6|];
  split; [intros _; split; [reflexivity|]; split; [reflexivity | eexists; reflexivity]|];
  split; [intros H; discriminate H|];
  split; [intros H; first [discriminate H | reflexivity]
         | intros H; first [discriminate H | split; reflexivity]].

(** Unless the request is a [health] request, the mail process exits with
    0 exactly when it prints [ok = true]. *)
Lemma run_ok_iff_zero (h : Host) (stdin : string) (w : world) :
  (forall envelope, JSON_parse h (trim stdin) = Some envelope ->
                    readString (prop envelope "action") <> Some "health") ->
  exit_code (fst (run h stdin w)) = 0%Z
  <-> prop (stdout_json (fst (run h stdin w))) "ok" = JBool true.
Proof.
  intros Hnot.
  unfold run, main, bind, readJsonStdin, throw, ret, writeAndExit.
  destruct (String.eqb (trim stdin) "");
    [cbn [fst snd exit_code stdout_json]; split; intros H; discriminate H|].
  destruct (JSON_parse h (trim stdin)) as [envelope|];
    [|cbn [fst snd exit_code stdout_json]; split; intros H; discriminate H].
  specialize (Hnot envelope eq_refl).
  destruct (negb (isRecord envelope));
    [cbn [fst snd exit_code stdout_json]; split; intros H; discriminate H|].
  destruct (readString (prop envelope "action")) as [action|];
    [|cbn [fst snd exit_code stdout_json]; split; intros H; discriminate H].
  assert (Hne : action <> "health") by (intros ->; apply Hnot; reflexivity).
  pose proof (dispatch_law h envelope action w) as Hlaw.
  destruct (dispatch h envelope action w) as [[res|err|p c] w'].
  - destruct Hlaw as (_ & _ & _ & Hres). cbn [fst snd] in Hres.
    destruct Hres as (_ & _ & _ & _ & Hiff).
    cbn [fst snd exit_code stdout_json]. exact (Hiff Hne).
  - cbn [fst snd exit_code stdout_json]. split; intros H; discriminate H.
  - destruct Hlaw as (_ & _ & _ & Hres). cbn [fst] in Hres.
    destruct Hres as (-> & -> & _).
    cbn [fst snd exit_code stdout_json]. split; intros H; discriminate H.
Qed.

(** A [send_message] whose child is gone before the message is written
    ends the adapter with exit code 1 and nothing printed; the store is
    not written. *)
Lemma mail_run_dies_when_child_is_gone :
  let r := run (Examples.mailHost Samples.goneBackend) "send" Examples.mailWorld in
  fst r = {| stdout_json := JUndef; exit_code := 1 |}
  /\ List.map input (calls (snd r)) = [Some "Subject: Hello"]
  /\ files (snd r) "/home/ops/.local/state/openclaw/my-ops/mail-send-idempotency.json"
     = None.
Proof. vm_compute. repeat split. Qed.

(** X10.  The mail process ends with one of five exit codes: 0 (done), 2
    (refused), 3 (the backend failed), 99 (crash reported by the adapter)
    or 1 (the adapter died).  Unless it died, what it prints carries
    [domain = mail], the adapter name and a boolean [ok].  It dies only in
    a [send_message] whose backend command was started and was gone
    before the message could be written to it: then nothing is printed
    and the store is not written.  Exit code 99 goes with [ok = false],
    and an exit code 2 leaves the world as it was. *)
Theorem mail_run_exit_codes (h : Host) (stdin : string) (w : world) :
  let r := run h stdin w in
  (exit_code (fst r) = 0 \/ exit_code (fst r) = 1 \/ exit_code (fst r) = 2
   \/ exit_code (fst r) = 3 \/ exit_code (fst r) = 99)%Z
  /\ (exit_code (fst r) <> 1%Z ->
      prop (stdout_json (fst r)) "domain" = JStr "mail"
      /\ prop (stdout_json (fst r)) "adapter" = JStr "himalaya"
      /\ exists b, prop (stdout_json (fst r)) "ok" = JBool b)
  /\ (exit_code (fst r) = 1%Z ->
      stdout_json (fst r) = JUndef
      /\ files (snd r) = files w
      /\ (exists envelope,
            JSON_parse h (trim stdin) = Some envelope
            /\ readString (prop envelope "action") = Some "send_message")
      /\ exists c r0, spawn h (calls w) c = Gone r0
                      /\ input c <> None
                      /\ calls (snd r) = calls w ++ [c])
  /\ (exit_code (fst r) = 99%Z -> prop (stdout_json (fst r)) "ok" = JBool false)
  /\ (exit_code (fst r) = 2%Z ->
      prop (stdout_json (fst r)) "ok" = JBool false /\ snd r = w).
Proof.
  cbv zeta. unfold run, main, bind, readJsonStdin, throw, ret, writeAndExit.
  destruct (String.eqb (trim stdin) ""); [cbn [fst snd exit_code stdout_json]; fixed_answer|].
  destruct (JSON_parse h (trim stdin)) as [envelope|];
    [|cbn [fst snd exit_code stdout_json]; fixed_answer].
  destruct (negb (isRecord envelope)); [cbn [fst snd exit_code stdout_json]; fixed_answer|].
  destruct (readString (prop envelope "action")) as [action|] eqn:Haction;
    [|cbn [fst snd exit_code stdout_json]; fixed_answer].
  pose proof (dispatch_law h envelope action w) as Hlaw.
  destruct (dispatch h envelope action w) as [[res|err|p c] w'].
  - destruct Hlaw as (_ & _ & _ & Hres). cbn [fst snd] in Hres.
    destruct Hres as ((Hd & _ & Had) & Hcodes & Hb & Hrefuse & _).
    cbn [fst snd exit_code stdout_json].
    split; [tauto|]. split; [intros _; repeat split; assumption|].
    split; [intros H1; rewrite H1 in Hcodes; lia|].
    split; [intros H99; rewrite H99 in Hcodes; lia | exact Hrefuse].
  - cbn [fst snd exit_code stdout_json]. fixed_answer.
  - destruct Hlaw as (_ & _ & _ & Hres). cbn [fst snd] in Hres.
    destruct Hres as (-> & -> & -> & Hfiles & Hgone).
    cbn [fst snd exit_code stdout_json].
    split; [auto|]. split; [intros Hne; exfalso; apply Hne; reflexivity|].
    split; [intros _|split; intros H; discriminate H].
    split; [reflexivity|]. split; [exact Hfiles|].
    split; [exists envelope; split; [reflexivity | exact Haction] | exact Hgone].
Qed.

End MailProcessFacts.

(** ** The notes adapter: requests built from a payload *)

Module NotesBuilderFacts.

Import Js Proc Notes Laws JsFacts HelperFacts.

Lemma isContinuation_of_nat (k : nat) :
  (128 <= k < 192)%nat -> isContinuation (ascii_of_nat k) = true.
Proof.
  intros Hk. unfold isContinuation. cbv zeta.
  rewrite nat_ascii_embedding by lia.
  apply andb_true_intro. split; [apply Nat.leb_le | apply Nat.ltb_lt]; lia.
Qed.

(** A lone high surrogate is one code unit. *)
Lemma highSurrogate_units (c : ascii) (r : string) : lengthUnits (highSurrogate c r) = 1%nat.
Proof.
  unfold highSurrogate. cbv zeta.
  set (top := (_ - 64)%nat).
  cbn [lengthUnits].
  rewrite (isContinuation_of_nat (160 + (top / 64) mod 16)),
          (isContinuation_of_nat (128 + top mod 64)).
  - reflexivity.
  - pose proof (Nat.mod_upper_bound top 64). lia.
  - pose proof (Nat.mod_upper_bound (top / 64) 16). lia.
Qed.

Lemma sliceUnits_bound (n : nat) (s : string) : (lengthUnits (sliceUnits n s) <= n)%nat.
Proof.
  revert n. induction s as [|c r IH]; intros n; cbn [sliceUnits lengthUnits]; [lia|].
  destruct (isContinuation c) eqn:Hc.
  - cbn [lengthUnits]. rewrite Hc. apply IH.
  - destruct n as [|[|m]]; [cbn [lengthUnits]; lia | |].
    + destruct (isLead4 c) eqn:Hl.
      * rewrite highSurrogate_units. lia.
      * cbn [lengthUnits]. rewrite Hc, Hl. specialize (IH 0%nat). lia.
    + destruct (isLead4 c) eqn:Hl; cbn [lengthUnits]; rewrite Hc, Hl.
      * specialize (IH m). lia.
      * specialize (IH (S m)). lia.
Qed.

Lemma sliceUnits_fits (n : nat) (s : string) :
  (lengthUnits s <= n)%nat -> sliceUnits n s = s.
Proof.
  revert n. induction s as [|c r IH]; intros n; cbn [sliceUnits lengthUnits]; [reflexivity|].
  destruct (isContinuation c) eqn:Hc.
  - intros H. rewrite IH by exact H. reflexivity.
  - destruct (isLead4 c) eqn:Hl; destruct n as [|[|m]]; intros H; try lia.
    + rewrite IH by lia. reflexivity.
    + rewrite IH by lia. reflexivity.
    + rewrite IH by lia. reflexivity.
Qed.

Lemma sliceUnits_nonempty (n : nat) (s : string) :
  s <> EmptyString -> sliceUnits (S n) s <> EmptyString.
Proof.
  destruct s as [|c r]; [contradiction|]. intros _. cbn [sliceUnits].
  destruct (isContinuation c); [discriminate|].
  destruct n; destruct (isLead4 c); discriminate.
Qed.

(** What [normalizeTags] makes of a list of usable strings. *)
Lemma sliced_tags_bounds (given : list string) :
  Forall (fun t => t <> EmptyString) given ->
  given <> [] ->
  let tags := map (sliceUnits 30) (firstn 10 given) in
  tags <> []
  /\ (length tags <= 10)%nat
  /\ Forall (fun t => t <> EmptyString /\ (lengthUnits t <= 30)%nat) tags
  /\ ((length given <= 10)%nat ->
      Forall (fun t => (lengthUnits t <= 30)%nat) given ->
      tags = given).
Proof.
  intros Hne Hsome. cbv zeta.
  split.
  { destruct given; [contradiction | discriminate]. }
  split.
  { rewrite length_map, length_firstn. lia. }
  split.
  { apply Forall_forall. intros t Hin. apply in_map_iff in Hin.
    destruct Hin as (u & <- & Hu).
    assert (Hu' : In u given).
    { rewrite <- (firstn_skipn 10 given). apply in_or_app. now left. }
    rewrite Forall_forall in Hne. split.
    - apply sliceUnits_nonempty, Hne, Hu'.
    - apply sliceUnits_bound. }
  intros Hlen Hshort. rewrite firstn_all2 by exact Hlen.
  clear Hne Hsome Hlen.
  induction Hshort as [|u l Hu _ IH]; simpl; [reflexivity|].
  rewrite sliceUnits_fits by exact Hu. f_equal. exact IH.
Qed.

(** Eleven Chinese characters are 33 bytes and 11 code units: the tag is
    kept whole.  A letter and fifteen emoji are 31 code units: the cut
    falls inside the last emoji, whose high surrogate is kept alone. *)
Lemma create_note_tags_example :
  exists req,
    buildCreateNoteRequest Samples.taggedPayload = inr req
    /\ prop (prop req "settings") "tags"
       = JArr [JStr (Samples.times 11 Samples.zhong);
               JStr ("a" ++ Samples.times 14 Samples.grin
                     ++ String "237"%char
                          (String "160"%char (String "189"%char EmptyString)))]
    /\ String.length (Samples.times 11 Samples.zhong) = 33%nat
    /\ lengthUnits (Samples.times 11 Samples.zhong) = 11%nat
    /\ lengthUnits ("a" ++ Samples.times 15 Samples.grin) = 31%nat.
Proof. eexists. vm_compute. repeat split. Qed.

(** X11.  The tags sent with a new note.  A payload's own [request] is
    sent as given, and so is its own [settings] when the request is
    built.  Otherwise the tags of the request are made from
    [payload.tags]: there are none when it holds no usable string; else
    they are its first ten usable strings, each cut to its first thirty
    UTF-16 code units: at least one and at most ten, each non-empty and
    at most thirty code units long, and a list that already fits is
    passed on unchanged. *)
Theorem create_note_tags_are_bounded (payload : value) :
  (isRecord (pick payload ["request"]) = true ->
   buildCreateNoteRequest payload = inr (pick payload ["request"]))
  /\ (forall req,
        isRecord (pick payload ["request"]) = false ->
        isRecord (pick payload ["settings"]) = true ->
        buildCreateNoteRequest payload = inr req ->
        prop req "settings" = pick payload ["settings"])
  /\ (forall req,
        isRecord (pick payload ["request"]) = false ->
        isRecord (pick payload ["settings"]) = false ->
        buildCreateNoteRequest payload = inr req ->
        let given := readStringArray (pick payload ["tags"]) in
        let tags := map (sliceUnits 30) (firstn 10 given) in
        prop (prop req "settings") "tags"
        = match given with
          | [] => JUndef
          | _ => JArr (map JStr tags)
          end
        /\ (given <> [] ->
            tags <> []
            /\ (length tags <= 10)%nat
            /\ Forall (fun t => t <> EmptyString /\ (lengthUnits t <= 30)%nat) tags
            /\ ((length given <= 10)%nat ->
                Forall (fun t => (lengthUnits t <= 30)%nat) given ->
                tags = given))).
Proof.
  split; [|split].
  - intros Hreq. unfold buildCreateNoteRequest. rewrite Hreq. reflexivity.
  - intros req Hreq Hset. unfold buildCreateNoteRequest. rewrite Hreq.
    set (st := pick payload ["settings"]) in *. clearbody st. rewrite Hset.
    destruct (readNoteAtomBody payload) as [body|]; [|discriminate].
    intros H. injection H as <-.
    destruct st; try discriminate Hset. reflexivity.
  - intros req Hreq Hset Hbuilt. cbv zeta.
    split; [|apply sliced_tags_bounds, readStringArray_nonempty].
    revert Hbuilt. unfold buildCreateNoteRequest, normalizeTags. rewrite Hreq, Hset.
    set (given := readStringArray (pick payload ["tags"])). clearbody given.
    set (autoPublish := pick payload ["autoPublish"; "auto_publish"]).
    clearbody autoPublish.
    destruct (readNoteAtomBody payload) as [body|]; [|discriminate].
    intros H. injection H as <-.
    destruct given as [|t given]; destruct autoPublish; reflexivity.
Qed.

Lemma inRange13_spec (n : Z) : inRange13 n = true -> (1 <= n <= 3)%Z.
Proof. unfold inRange13. intros H. apply andb_prop in H. lia. Qed.

Lemma normalizeFileType_range (v : value) (n : Z) :
  normalizeFileType v = Some n -> (1 <= n <= 3)%Z.
Proof.
  unfold normalizeFileType.
  destruct (match v with
            | JNum m => if inRange13 m then Some m else None
            | _ => None
            end) as [m|] eqn:Enum.
  { intros H. injection H as <-. destruct v as [| | |k| | |]; try discriminate.
    destruct (inRange13 k) eqn:E; [|discriminate].
    injection Enum as <-. apply inRange13_spec, E. }
  destruct (readString v) as [raw|]; [|discriminate].
  destruct (if negb (raw =? "")%string && allDigits raw
            then match parseInt raw with
                 | Some m => if inRange13 m then Some m else None
                 | None => None
                 end
            else None) as [m|] eqn:Edig.
  { intros H. injection H as <-.
    destruct (negb (raw =? "")%string && allDigits raw); [|discriminate].
    destruct (parseInt raw) as [k|]; [|discriminate].
    destruct (inRange13 k) eqn:E; [|discriminate].
    injection Edig as <-. apply inRange13_spec, E. }
  cbv zeta.
  destruct ((toLowerCase raw =? "image") || (toLowerCase raw =? "img")
            || (toLowerCase raw =? "picture"))%string.
  { intros H. injection H as <-. lia. }
  destruct (toLowerCase raw =? "audio")%string.
  { intros H. injection H as <-. lia. }
  destruct (toLowerCase raw =? "pdf")%string; [|discriminate].
  intros H. injection H as <-. lia.
Qed.

Lemma fileTypeOf_range (payload : value) (n : Z) :
  fileTypeOf payload = Some n -> (1 <= n <= 3)%Z.
Proof.
  unfold fileTypeOf.
  destruct (normalizeFileType (pick payload ["fileType"; "file_type"])) as [m|] eqn:E; simpl.
  - intros H. injection H as <-. apply (normalizeFileType_range _ _ E).
  - apply normalizeFileType_range.
Qed.

(** X12.  Unless the payload brings its own [request], an upload request
    built by the adapter names a file type between 1 and 3, and
    [upload_url] also carries a non-empty URL. *)
Theorem upload_request_file_type (payload body : value) :
  isRecord (pick payload ["request"]) = false ->
  buildUploadPrepareRequest payload = inr body
  \/ buildUploadUrlRequest payload = inr body ->
  (exists n, prop body "fileType" = JNum n /\ (1 <= n <= 3)%Z)
  /\ (buildUploadUrlRequest payload = inr body ->
      exists u, prop body "url" = JStr u /\ u <> "").
Proof.
  intros Hraw Hbuilt.
  unfold buildUploadPrepareRequest, buildUploadUrlRequest in *. rewrite Hraw in *.
  destruct (fileTypeOf payload) as [n|] eqn:Etype.
  2: { destruct Hbuilt as [H|H]; discriminate H. }
  pose proof (fileTypeOf_range _ _ Etype) as Hrange.
  split.
  - destruct Hbuilt as [H|H].
    + injection H as <-. exists n. split; [reflexivity | exact Hrange].
    + destruct (readStringFromKeys payload ["url"]); [|discriminate H].
      injection H as <-. exists n. split; [reflexivity | exact Hrange].
  - intros H. destruct (readStringFromKeys payload ["url"]) as [u|] eqn:Eu; [|discriminate H].
    injection H as <-. exists u. split; [reflexivity|].
    apply (readString_nonempty _ _ Eu).
Qed.

Lemma upload_request_file_type_witness :
  (exists n, prop (JObj [("fileType", JNum 3); ("url", JStr "https://example.com/a.pdf")])
               "fileType" = JNum n /\ (1 <= n <= 3)%Z)
  /\ (buildUploadUrlRequest
        (JObj [("fileKind", JStr "PDF"); ("url", JStr " https://example.com/a.pdf")])
      = inr (JObj [("fileType", JNum 3); ("url", JStr "https://example.com/a.pdf")]) ->
      exists u, prop (JObj [("fileType", JNum 3); ("url", JStr "https://example.com/a.pdf")])
                  "url" = JStr u /\ u <> "").
Proof.
  apply (upload_request_file_type
           (JObj [("fileKind", JStr "PDF"); ("url", JStr " https://example.com/a.pdf")])).
  - reflexivity.
  - right. reflexivity.
Defined.

(** *** Text to paragraphs *)

Lemma join_cons (sep x : string) (l : list string) :
  l <> [] -> join sep (x :: l) = (x ++ sep ++ join sep l)%string.
Proof. destruct l; [contradiction | reflexivity]. Qed.

Lemma splitLinesFrom_nonempty (s : string) (cur : list ascii) : splitLinesFrom s cur <> [].
Proof.
  revert cur. induction s as [|c r IH]; intros cur; simpl; [discriminate|].
  destruct (Ascii.eqb c "010"); [discriminate|].
  destruct (Ascii.eqb c "013"); [|apply IH].
  destruct r as [|c' r']; [apply IH|].
  destruct (Ascii.eqb c' "010"); [discriminate | apply IH].
Qed.

Lemma string_of_list_snoc (l : list ascii) (c : ascii) (r : string) :
  (string_of_list_ascii (l ++ [c]) ++ r)%string
  = (string_of_list_ascii l ++ String c r)%string.
Proof. induction l as [|x l IH]; simpl; [reflexivity | rewrite IH; reflexivity]. Qed.

Lemma append_empty_r (s : string) : (s ++ "")%string = s.
Proof. induction s as [|c r IH]; simpl; [reflexivity | rewrite IH; reflexivity]. Qed.

Lemma hasCrLf_tail (c : ascii) (r : string) : hasCrLf (String c r) = false -> hasCrLf r = false.
Proof.
  simpl. destruct r as [|c' r']; [reflexivity|].
  intros H. apply Bool.orb_false_elim in H. apply H.
Qed.

Lemma splitLinesFrom_join (s : string) (cur : list ascii) :
  hasCrLf s = false ->
  join (String "010" "") (splitLinesFrom s cur)
  = (string_of_list_ascii (rev cur) ++ s)%string.
Proof.
  revert cur. induction s as [|c r IH]; intros cur Hs.
  - simpl. rewrite append_empty_r. reflexivity.
  - pose proof (hasCrLf_tail c r Hs) as Hr. simpl splitLinesFrom.
    destruct (Ascii.eqb_spec c "010") as [->|Hlf].
    + rewrite join_cons by apply splitLinesFrom_nonempty.
      rewrite (IH [] Hr). reflexivity.
    + assert (Hkeep : join (String "010" "") (splitLinesFrom r (c :: cur))
                      = (string_of_list_ascii (rev cur) ++ String c r)%string).
      { rewrite (IH (c :: cur) Hr). simpl rev. apply string_of_list_snoc. }
      destruct (Ascii.eqb_spec c "013") as [->|Hcr]; [|exact Hkeep].
      destruct r as [|c' r']; [exact Hkeep|].
      destruct (Ascii.eqb_spec c' "010") as [->|Hlf']; [|exact Hkeep].
      simpl in Hs. discriminate Hs.
Qed.

Lemma splitLinesFrom_no_line_feed (s : string) (cur : list ascii) :
  holds "010" (string_of_list_ascii (rev cur)) = false ->
  Forall (fun line => holds "010" line = false) (splitLinesFrom s cur).
Proof.
  assert (Hsnoc : forall l c, holds "010" (string_of_list_ascii l) = false ->
                              Ascii.eqb "010" c = false ->
                              holds "010" (string_of_list_ascii (l ++ [c])) = false).
  { induction l as [|x l IHl]; simpl; intros c Hl Hc.
    - rewrite Hc. reflexivity.
    - apply Bool.orb_false_elim in Hl. destruct Hl as (Hx & Hl).
      rewrite Hx. simpl. apply IHl; assumption. }
  revert cur. induction s as [|c r IH]; intros cur Hcur; simpl.
  - constructor; [exact Hcur | constructor].
  - destruct (Ascii.eqb c "010") eqn:Elf.
    + constructor; [exact Hcur | apply IH; reflexivity].
    + assert (Hnext : holds "010" (string_of_list_ascii (rev (c :: cur))) = false).
      { simpl rev. apply Hsnoc; [exact Hcur|]. rewrite Ascii.eqb_sym. exact Elf. }
      destruct (Ascii.eqb c "013"); [|apply IH, Hnext].
      destruct r as [|c' r']; [apply IH, Hnext|].
      destruct (Ascii.eqb_spec c' "010") as [->|Hother]; [|apply IH, Hnext].
      constructor; [exact Hcur|].
      (* the line feed after the carriage return starts the next line *)
      specialize (IH [] eq_refl). simpl in IH. inversion IH; assumption.
Qed.

(** X13.  A note text becomes one paragraph per line: there is at least
    one paragraph, no paragraph text holds a line feed, and the request
    summary counts the lines.  Joining the lines with line feeds gives the
    text back when it holds no carriage return followed by a line feed
    (which is dropped as part of the line break). *)
Theorem text_becomes_paragraphs (t : string) :
  let lines := splitLinesFrom t [] in
  prop (buildNoteAtomFromText t) "content" = JArr (map toNoteAtomParagraphNode lines)
  /\ lines <> []
  /\ Forall (fun line => holds "010" line = false) lines
  /\ prop (summarizeRequest "create_note" (JObj [("body", buildNoteAtomFromText t)]))
          "bodyBlocks"
     = JNum (Z.of_nat (length lines))
  /\ (hasCrLf t = false -> join (String "010" "") lines = t).
Proof.
  cbv zeta. split; [reflexivity|].
  split; [apply splitLinesFrom_nonempty|].
  split; [apply splitLinesFrom_no_line_feed; reflexivity|].
  split.
  - unfold summarizeRequest, buildNoteAtomFromText.
    cbn [isRecord negb prop get String.eqb Ascii.eqb Bool.eqb app].
    rewrite length_map. reflexivity.
  - intros Hno. apply (splitLinesFrom_join t [] Hno).
Qed.

Lemma text_becomes_paragraphs_witness :
  join (String "010" "")
       (splitLinesFrom ("buy milk" ++ String "010" "call Bo" ++ String "013" "b") [])
  = ("buy milk" ++ String "010" "call Bo" ++ String "013" "b")%string.
Proof.
  destruct (text_becomes_paragraphs
              ("buy milk" ++ String "010" "call Bo" ++ String "013" "b"))
    as (_ & _ & _ & _ & Hjoin).
  apply Hjoin. reflexivity.
Defined.

End NotesBuilderFacts.

(** ** The notes adapter: rate limit and process *)

Module NotesProcessFacts.

Import Js Proc Notes Laws JsFacts HelperFacts.
Local Open Scope proc_scope.
Local Open Scope Z_scope.

Lemma minInterval_positive (s : settings) : 0 < minInterval s.
Proof. apply readPositiveInt_positive. reflexivity. Qed.

(** What one [applyRateLimit] does. *)
Lemma applyRateLimit_effect (h : Host) (s : settings) (key : string) (w : world) :
  exists info w',
    applyRateLimit h s key w = (Ret info, w')
    /\ clock w' = Z.max (clock w) (lastCall (files w (rateLimitFile h s)) key + minInterval s)
    /\ lastCall (files w' (rateLimitFile h s)) key = clock w'
    /\ (forall k, k <> key ->
          lastCall (files w' (rateLimitFile h s)) k
          = lastCall (files w (rateLimitFile h s)) k)
    /\ (forall p, p <> rateLimitFile h s -> files w' p = files w p)
    /\ requests w' = requests w
    /\ prop info "sleptMs" = JNum (clock w' - clock w)
    /\ prop info "minIntervalMs" = JNum (minInterval s)
    /\ (sleeps w' = sleeps w \/ sleeps w' = sleeps w ++ [clock w' - clock w]).
Proof.
  pose proof (minInterval_positive s) as Hpos.
  unfold applyRateLimit. fold (minInterval s).
  destruct (Z.leb_spec (minInterval s) 0) as [Hle|_]; [lia|].
  fold (rateLimitFile h s).
  unfold bind, now, readJsonFile, writeJsonFile, sleep, ret.
  set (f := rateLimitFile h s).
  set (lastByKey := match prop match files w f with
                               | Some JNull | None => JObj []
                               | Some v => v
                               end "lastByKey" with
                    | JObj o => o
                    | _ => []
                    end).
  set (lastTs := match get key lastByKey with JNum n => n | _ => 0 end).
  assert (Hlast : lastCall (files w f) key = lastTs).
  { unfold lastCall, lastTs, lastByKey.
    destruct (prop _ "lastByKey"); reflexivity. }
  assert (Hothers : forall k, lastCall (files w f) k
                              = match get k lastByKey with JNum n => n | _ => 0 end).
  { intros k. unfold lastCall, lastByKey. destruct (prop _ "lastByKey"); reflexivity. }
  rewrite Hlast.
  destruct (Z.ltb_spec 0 (Z.max 0 (minInterval s - (clock w - lastTs)))) as [Hwait|Hnow].
  - do 2 eexists. split; [reflexivity|]. cbn [clock files requests sleeps].
    split; [lia|].
    split. { rewrite String.eqb_refl. unfold lastCall. cbn [prop get String.eqb Ascii.eqb Bool.eqb].
             rewrite get_set_same. reflexivity. }
    split. { intros k Hk. rewrite String.eqb_refl. rewrite Hothers.
             unfold lastCall. cbn [prop get String.eqb Ascii.eqb Bool.eqb].
             rewrite get_set_other by exact Hk. reflexivity. }
    split. { intros p Hp. destruct (String.eqb_spec p f); [contradiction | reflexivity]. }
    split; [reflexivity|].
    split. { cbn [prop get String.eqb Ascii.eqb Bool.eqb]. f_equal. lia. }
    split; [reflexivity|].
    right. f_equal. f_equal. lia.
  - do 2 eexists. split; [reflexivity|]. cbn [clock files requests sleeps].
    split; [lia|].
    split. { rewrite String.eqb_refl. unfold lastCall. cbn [prop get String.eqb Ascii.eqb Bool.eqb].
             rewrite get_set_same. reflexivity. }
    split. { intros k Hk. rewrite String.eqb_refl. rewrite Hothers.
             unfold lastCall. cbn [prop get String.eqb Ascii.eqb Bool.eqb].
             rewrite get_set_other by exact Hk. reflexivity. }
    split. { intros p Hp. destruct (String.eqb_spec p f); [contradiction | reflexivity]. }
    split; [reflexivity|].
    split. { cbn [prop get String.eqb Ascii.eqb Bool.eqb]. f_equal. lia. }
    split; [reflexivity|].
    left. reflexivity.
Qed.

(** X14.  [applyRateLimit] always goes through: it waits until at least
    the minimum interval (always positive) has passed since the time
    recorded for the key, records the time at which it lets the caller
    go, keeps the times of the other keys and the other files, issues no
    request, and reports how long it slept.  Time is the clock of the
    world, which advances while the adapter sleeps. *)
Theorem rate_limit_waits_and_records (h : Host) (s : settings) (key : string) (w : world) :
  exists info w',
    applyRateLimit h s key w = (Ret info, w')
    /\ 0 < minInterval s
    /\ clock w' = Z.max (clock w) (lastCall (files w (rateLimitFile h s)) key + minInterval s)
    /\ lastCall (files w' (rateLimitFile h s)) key = clock w'
    /\ (forall k, k <> key ->
          lastCall (files w' (rateLimitFile h s)) k
          = lastCall (files w (rateLimitFile h s)) k)
    /\ (forall p, p <> rateLimitFile h s -> files w' p = files w p)
    /\ requests w' = requests w
    /\ prop info "sleptMs" = JNum (clock w' - clock w).
Proof.
  destruct (applyRateLimit_effect h s key w)
    as (info & w' & Hrun & Hclock & Hrec & Hkeys & Hfiles & Hreq & Hslept & _).
  exists info, w'. repeat split; try assumption. apply minInterval_positive.
Qed.

(** X15.  Two calls under one key are spaced: after one [applyRateLimit],
    the next one over the same state file lets its caller go no earlier
    than the minimum interval after the first did, whatever the clock
    shows when it starts. *)
Theorem rate_limit_spaces_calls (h : Host) (s : settings) (key : string) (w w2 : world) :
  let w1 := snd (applyRateLimit h s key w) in
  files w2 (rateLimitFile h s) = files w1 (rateLimitFile h s) ->
  clock w1 + minInterval s <= clock (snd (applyRateLimit h s key w2))
  /\ clock w2 <= clock (snd (applyRateLimit h s key w2)).
Proof.
  intros w1 Hsame. subst w1.
  destruct (applyRateLimit_effect h s key w) as (info & w' & Hrun & _ & Hrec & _).
  rewrite Hrun in *. cbn [snd] in *.
  destruct (applyRateLimit_effect h s key w2) as (info2 & w2' & Hrun2 & Hclock2 & _).
  rewrite Hrun2. cbn [snd]. rewrite Hclock2, Hsame, Hrec. lia.
Qed.

Lemma rate_limit_spaces_calls_witness :
  let h := Examples.notesHost (Some "secret") in
  let s := resolveSettings h (Examples.notesHealthEnvelope (JStr "mowen")) in
  let w1 := snd (applyRateLimit h s "note.write" Examples.notesWorld) in
  clock w1 + minInterval s <= clock (snd (applyRateLimit h s "note.write" w1))
  /\ clock w1 <= clock (snd (applyRateLimit h s "note.write" w1)).
Proof.
  intros h s w1.
  apply (rate_limit_spaces_calls h s "note.write" Examples.notesWorld w1).
  reflexivity.
Defined.

(** *** The whole process *)

Lemma resolve_paths (mappedAction : string) (payload : value) (res : resolved) :
  resolveEndpointAndRequest mappedAction payload = Some (inr res) ->
  In (endpointPath res) apiPaths
  /\ (rateLimitKey res = "note.write" \/ rateLimitKey res = "upload.write").
Proof.
  unfold resolveEndpointAndRequest, apiPaths.
  repeat match goal with
         | |- context [String.eqb mappedAction ?lit] =>
             destruct (String.eqb mappedAction lit)
         end;
    try discriminate;
    match goal with
    | |- Some match ?b with _ => _ end = _ -> _ =>
        destruct b; intros H; inversion H; subst; simpl; tauto
    end.
Qed.

Ltac refused :=
  cbn [fst snd exit_code stdout_json];
  split; [auto|];
  split; [eexists; split; [reflexivity | discriminate] | left; reflexivity].

(** A run of the notes adapter either leaves the world alone or is one
    rate-limited API call. *)
Lemma notes_run_law (h : Host) (stdin : string) (w : world) :
  let r := run h stdin w in
  (exit_code (fst r) = 0 \/ exit_code (fst r) = 2)
  /\ (exists b, prop (stdout_json (fst r)) "ok" = JBool b
                /\ (b = true ->
                    exit_code (fst r) = 0
                    /\ exists envelope key,
                         JSON_parse h (trim stdin) = Some envelope
                         /\ apiKey (resolveSettings h envelope) = Some key))
  /\ (snd r = w
      \/ exists envelope action key res,
           JSON_parse h (trim stdin) = Some envelope
           /\ readString (prop envelope "action") = Some action
           /\ apiKey (resolveSettings h envelope) = Some key
           /\ resolveEndpointAndRequest (normalizeAction action)
                (payload (resolveSettings h envelope)) = Some (inr res)
           /\ requests (snd r)
              = requests w ++ [notesRequest (resolveSettings h envelope) key res]
           /\ files (snd r)
              = files (snd (applyRateLimit h (resolveSettings h envelope)
                              (rateLimitKey res) w))
           /\ (exit_code (fst r) = 0 <->
               exists resp,
                 fetch h (requests w) (notesRequest (resolveSettings h envelope) key res)
                 = Fetched resp
                 /\ r_ok resp = true)).
Proof.
  cbv zeta. unfold run, main, bind, readJsonStdin, throw, ret, writeAndExit.
  destruct (String.eqb (trim stdin) ""); [refused|].
  destruct (JSON_parse h (trim stdin)) as [envelope|] eqn:Hparse; [|refused].
  destruct (negb (isRecord envelope)); [refused|].
  destruct (readString (prop envelope "action")) as [action|] eqn:Haction; [|refused].
  destruct (match readString (prop envelope "domain") with
            | Some d => negb (d =? "mowen")%string
            | None => false
            end); [refused|].
  set (s := resolveSettings h envelope).
  destruct (String.eqb (normalizeAction action) "health").
  { cbn [fst snd exit_code stdout_json].
    split; [auto|]. split; [|left; reflexivity].
    exists (isSome (apiKey s)). split; [reflexivity|].
    intros Hb. split; [reflexivity|].
    destruct (apiKey s) as [key|] eqn:Hkey; [|discriminate Hb].
    exists envelope, key. split; [reflexivity | exact Hkey]. }
  destruct (_ || _); [refused|].
  destruct (apiKey s) as [key|] eqn:Hkey; cbn [isSome negb]; [|refused].
  destruct (resolveEndpointAndRequest (normalizeAction action) (payload s))
    as [[msg|res]|] eqn:Hres; [refused | | refused].
  destruct (applyRateLimit_effect h s (rateLimitKey res) w)
    as (info & w1 & Hrate & _ & _ & _ & _ & Hreq & _).
  rewrite Hrate. cbn [snd].
  unfold callMowenApi. rewrite Hkey. cbn [nullish]. rewrite Hreq.
  fold (notesRequest s key res).
  destruct (fetch h (requests w) (notesRequest s key res)) as [d err|resp] eqn:Hfetch.
  - cbn [fst snd exit_code stdout_json requests files].
    split; [auto|]. split; [eexists; split; [reflexivity | discriminate]|].
    right. exists envelope, action, key, res.
    split; [reflexivity|]. split; [exact Haction|]. split; [exact Hkey|].
    split; [exact Hres|]. split; [reflexivity|].
      split; [fold s; rewrite Hrate; reflexivity|].
    split.
    + intros H; discriminate H.
    + intros (resp & H & _). fold s in H. rewrite Hfetch in H. discriminate H.
  - cbn [a_ok]. destruct (r_ok resp) eqn:Hok;
      cbn [negb fst snd exit_code stdout_json requests files].
    + split; [auto|].
      split; [exists true; split; [reflexivity|]; intros _; split; [reflexivity|];
              exists envelope, key; split; [reflexivity | exact Hkey]|].
      right. exists envelope, action, key, res.
      split; [reflexivity|]. split; [exact Haction|]. split; [exact Hkey|].
      split; [exact Hres|]. split; [reflexivity|].
      split; [fold s; rewrite Hrate; reflexivity|].
      split; [|reflexivity].
      intros _. exists resp. split; [exact Hfetch | exact Hok].
    + split; [auto|]. split; [eexists; split; [reflexivity | discriminate]|].
      right. exists envelope, action, key, res.
      split; [reflexivity|]. split; [exact Haction|]. split; [exact Hkey|].
      split; [exact Hres|]. split; [reflexivity|].
      split; [fold s; rewrite Hrate; reflexivity|].
      split.
      * intros H; discriminate H.
      * intros (resp' & H & Hok'). fold s in H. rewrite Hfetch in H.
        injection H as <-. rewrite Hok in Hok'. discriminate Hok'.
Qed.

Lemma apiKey_nonempty (h : Host) (envelope : value) (key : string) :
  apiKey (resolveSettings h envelope) = Some key -> key <> "".
Proof.
  unfold resolveSettings. cbn [apiKey]. unfold readStringFromKeys.
  destruct (readString (pick _ ["apiKey"; "api_key"])) as [k|] eqn:E; simpl.
  - intros H. injection H as <-. apply (readString_nonempty _ _ E).
  - apply readString_nonempty.
Qed.

(** X16.  The notes process ends with exit code 0 or 2 and prints a
    boolean [ok]; [ok = true] comes with exit code 0 only, and only when an
    API key is configured.  It sends at most one request, and a run that
    sends none leaves the world (files, clock) exactly as it was. *)
Theorem notes_run_exit_codes (h : Host) (stdin : string) (w : world) :
  let r := run h stdin w in
  (exit_code (fst r) = 0 \/ exit_code (fst r) = 2)
  /\ (exists b, prop (stdout_json (fst r)) "ok" = JBool b)
  /\ (prop (stdout_json (fst r)) "ok" = JBool true ->
      exit_code (fst r) = 0
      /\ exists envelope key,
           JSON_parse h (trim stdin) = Some envelope
           /\ apiKey (resolveSettings h envelope) = Some key /\ key <> "")
  /\ (exit_code (fst r) = 2 -> prop (stdout_json (fst r)) "ok" = JBool false)
  /\ (snd r = w \/ exists c, requests (snd r) = requests w ++ [c]).
Proof.
  cbv zeta.
  destruct (notes_run_law h stdin w) as (Hcodes & (b & Hb & Htrue) & Hworld).
  split; [exact Hcodes|]. split; [exists b; exact Hb|].
  split.
  { intros Hok. rewrite Hb in Hok. injection Hok as ->.
    destruct (Htrue eq_refl) as (Hzero & envelope & key & Hparse & Hkey).
    split; [exact Hzero|]. exists envelope, key.
    repeat split; try assumption. apply (apiKey_nonempty h envelope key Hkey). }
  split.
  { intros Htwo. rewrite Hb. destruct b; [|reflexivity].
    destruct (Htrue eq_refl) as (Hzero & _). rewrite Hzero in Htwo. discriminate Htwo. }
  destruct Hworld as [Hsame | (envelope & action & key & res & _ & _ & _ & _ & Hreq & _)].
  - left. exact Hsame.
  - right. eexists. exact Hreq.
Qed.

(** X17.  Without an API key, neither in the payload nor in the
    environment, the notes adapter does nothing observable: no request, no
    rate-limit bookkeeping, no sleep; and it never answers [ok = true]. *)
Theorem notes_no_key_no_request (h : Host) (stdin : string) (w : world) :
  (forall envelope, JSON_parse h (trim stdin) = Some envelope ->
                    apiKey (resolveSettings h envelope) = None) ->
  snd (run h stdin w) = w
  /\ prop (stdout_json (fst (run h stdin w))) "ok" = JBool false.
Proof.
  intros Hnokey.
  destruct (notes_run_law h stdin w) as (_ & (b & Hb & Htrue) & Hworld).
  split.
  - destruct Hworld as [Hsame | (envelope & action & key & res & Hparse & _ & Hkey & _)];
      [exact Hsame|].
    rewrite (Hnokey envelope Hparse) in Hkey. discriminate Hkey.
  - rewrite Hb. destruct b; [|reflexivity].
    destruct (Htrue eq_refl) as (_ & envelope & key & Hparse & Hkey).
    rewrite (Hnokey envelope Hparse) in Hkey. discriminate Hkey.
Qed.

Lemma notes_no_key_no_request_witness :
  snd (run (Samples.notesHost None) "create-note" Examples.notesWorld) = Examples.notesWorld
  /\ prop (stdout_json (fst (run (Samples.notesHost None) "create-note" Examples.notesWorld)))
          "ok" = JBool false.
Proof.
  apply (notes_no_key_no_request (Samples.notesHost None) "create-note" Examples.notesWorld).
  intros envelope Hparse. vm_compute in Hparse. injection Hparse as <-. reflexivity.
Defined.

(** X18.  A request of the notes adapter is always a rate-limited call
    of a known endpoint: it goes to the base URL followed by one of the
    five API paths, carries the configured (non-empty) key as bearer
    token, and is sent only after [applyRateLimit] has recorded a time for
    the action's rate-limit key that is at least the minimum interval
    later than the time recorded before.  The exit code is 0 exactly when
    the server answered with an HTTP success. *)
Theorem notes_request_is_rate_limited (h : Host) (stdin : string) (w : world) :
  requests (snd (run h stdin w)) <> requests w ->
  exists envelope key res,
    let s := resolveSettings h envelope in
    let c := notesRequest s key res in
    JSON_parse h (trim stdin) = Some envelope
    /\ apiKey s = Some key /\ key <> ""
    /\ In (endpointPath res) apiPaths
    /\ (rateLimitKey res = "note.write" \/ rateLimitKey res = "upload.write")
    /\ requests (snd (run h stdin w)) = requests w ++ [c]
    /\ lastCall (files w (rateLimitFile h s)) (rateLimitKey res) + minInterval s
       <= lastCall (files (snd (run h stdin w)) (rateLimitFile h s)) (rateLimitKey res)
    /\ (exit_code (fst (run h stdin w)) = 0 <->
        exists resp, fetch h (requests w) c = Fetched resp /\ r_ok resp = true).
Proof.
  intros Hchanged.
  destruct (notes_run_law h stdin w) as (_ & _ & Hworld).
  destruct Hworld as [Hsame | (envelope & action & key & res & Hparse & _ & Hkey & Hres
                               & Hreq & Hfiles & Hexit)];
    [rewrite Hsame in Hchanged; contradiction|].
  exists envelope, key, res. cbv zeta.
  destruct (resolve_paths _ _ _ Hres) as (Hpath & Hrate).
  split; [exact Hparse|]. split; [exact Hkey|].
  split; [apply (apiKey_nonempty h envelope key Hkey)|].
  split; [exact Hpath|]. split; [exact Hrate|]. split; [exact Hreq|].
  split; [|exact Hexit].
  rewrite Hfiles.
  destruct (applyRateLimit_effect h (resolveSettings h envelope) (rateLimitKey res) w)
    as (info & w1 & Hrun & Hclock & Hrec & _).
  rewrite Hrun. cbn [snd]. rewrite Hrec, Hclock. lia.
Qed.

Lemma notes_request_is_rate_limited_witness :
  let h := Samples.notesHost (Some "secret") in
  let w := Examples.notesWorld in
  requests (snd (run h "create-note" w)) <> requests w
  /\ exists envelope key res,
       let s := resolveSettings h envelope in
       let c := notesRequest s key res in
       JSON_parse h (trim "create-note") = Some envelope
       /\ apiKey s = Some key /\ key <> ""
       /\ In (endpointPath res) apiPaths
       /\ (rateLimitKey res = "note.write" \/ rateLimitKey res = "upload.write")
       /\ requests (snd (run h "create-note" w)) = requests w ++ [c]
       /\ lastCall (files w (rateLimitFile h s)) (rateLimitKey res) + minInterval s
          <= lastCall (files (snd (run h "create-note" w)) (rateLimitFile h s))
               (rateLimitKey res)
       /\ (exit_code (fst (run h "create-note" w)) = 0 <->
           exists resp, fetch h (requests w) c = Fetched resp /\ r_ok resp = true).
Proof.
  intros h w. split; [vm_compute; discriminate|].
  apply (notes_request_is_rate_limited h "create-note" w).
  vm_compute. discriminate.
Defined.

(** X19.  The actions that can reach the notes API are exactly the five
    native names and the three aliases; for any other name no endpoint is
    resolved. *)
Theorem notes_api_actions (action : string) (payload : value) :
  resolveEndpointAndRequest (normalizeAction action) payload <> None
  <-> In action apiActions.
Proof.
  unfold apiActions. split.
  - intros Hsome.
    destruct (String.eqb_spec action "create_doc") as [->|?]; [simpl; tauto|].
    destruct (String.eqb_spec action "update_doc") as [->|?]; [simpl; tauto|].
    destruct (String.eqb_spec action "set_doc") as [->|?]; [simpl; tauto|].
    destruct (String.eqb_spec action "create_note") as [->|?]; [simpl; tauto|].
    destruct (String.eqb_spec action "edit_note") as [->|?]; [simpl; tauto|].
    destruct (String.eqb_spec action "set_note") as [->|?]; [simpl; tauto|].
    destruct (String.eqb_spec action "upload_prepare") as [->|?]; [simpl; tauto|].
    destruct (String.eqb_spec action "upload_url") as [->|?]; [simpl; tauto|].
    exfalso. apply Hsome.
    unfold normalizeAction.
    repeat match goal with
           | H : action <> ?lit |- _ =>
               apply String.eqb_neq in H
           end.
    repeat match goal with
           | H : (action =? _)%string = false |- _ => rewrite H; clear H
           end.
    unfold resolveEndpointAndRequest.
    repeat match goal with
           | |- context [String.eqb action ?lit] =>
               let E := fresh in
               destruct (String.eqb action lit) eqn:E; [discriminate|]
           end.
    reflexivity.
  - intros Hin.
    repeat (destruct Hin as [<- | Hin];
            [unfold resolveEndpointAndRequest, normalizeAction;
             cbn [String.eqb Ascii.eqb Bool.eqb andb]; discriminate|]).
    destruct Hin.
Qed.

(** *** The base URL *)

Lemma list_of_append (a b : string) :
  list_ascii_of_string (a ++ b) = (list_ascii_of_string a ++ list_ascii_of_string b)%list.
Proof. induction a as [|c r IH]; simpl; [reflexivity | rewrite IH; reflexivity]. Qed.

Lemma reverse_involutive (s : string) : reverse (reverse s) = s.
Proof.
  unfold reverse.
  rewrite list_ascii_of_string_of_list_ascii, rev_involutive.
  apply string_of_list_ascii_of_string.
Qed.

Lemma reverse_snoc (p : string) (c : ascii) :
  reverse (p ++ String c "") = String c (reverse p).
Proof.
  unfold reverse. rewrite list_of_append. simpl. rewrite rev_app_distr. reflexivity.
Qed.

Lemma dropSlashes_head (s r : string) : dropSlashes s <> String "/" r.
Proof.
  induction s as [|c s IH]; simpl; [discriminate|].
  destruct (Ascii.eqb_spec c "/") as [->|Hne]; [exact IH|].
  destruct c as [[] [] [] [] [] [] [] []]; try (intros H; injection H as H; congruence);
    exact IH.
Qed.

Lemma dropSlashes_idem (s : string) : dropSlashes (dropSlashes s) = dropSlashes s.
Proof.
  induction s as [|c s IH]; simpl; [reflexivity|].
  destruct c as [[] [] [] [] [] [] [] []]; try reflexivity. exact IH.
Qed.

(** X20.  The base URL of the notes API never ends with a slash, so
    that joining it with an endpoint path (which starts with one) gives
    exactly one; an absent, blank or non-string value gives the public
    endpoint.  The value is trimmed before the slashes are cut and not
    after, so the result can end with white space and normalising is not
    idempotent in general; it is on a result that is trimmed and not
    empty. *)
Theorem normalizeBaseUrl_no_trailing_slash (v : value) :
  (forall p, normalizeBaseUrl v <> (p ++ "/")%string)
  /\ (trim (normalizeBaseUrl v) = normalizeBaseUrl v ->
      normalizeBaseUrl v <> EmptyString ->
      normalizeBaseUrl (JStr (normalizeBaseUrl v)) = normalizeBaseUrl v)
  /\ (normalizeBaseUrl (JStr "https://x.com /") = "https://x.com "
      /\ normalizeBaseUrl (JStr "https://x.com ") = "https://x.com")
  /\ (readString v = None -> normalizeBaseUrl v = "https://open.mowen.cn")
  /\ forall h envelope p, baseUrl (resolveSettings h envelope) <> (p ++ "/")%string.
Proof.
  assert (Hno : forall v p, normalizeBaseUrl v <> (p ++ "/")%string).
  { intros v' p H. unfold normalizeBaseUrl in H. cbv zeta in H.
    apply (f_equal reverse) in H. rewrite reverse_involutive, reverse_snoc in H.
    exact (dropSlashes_head _ _ H). }
  split; [apply Hno|]. split; [|split; [split; reflexivity|split]].
  - intros Htrim Hne.
    set (u := normalizeBaseUrl v) in *.
    unfold normalizeBaseUrl at 1. cbv zeta.
    cbn [readString]. rewrite Htrim.
    destruct (String.eqb_spec u EmptyString) as [E|_]; [contradiction|].
    cbn [nullish]. unfold u, normalizeBaseUrl. cbv zeta.
    rewrite reverse_involutive, dropSlashes_idem. reflexivity.
  - intros Hnone. unfold normalizeBaseUrl. rewrite Hnone. reflexivity.
  - intros h envelope p. unfold resolveSettings. cbn [baseUrl]. apply Hno.
Qed.

End NotesProcessFacts.

(** ** The calendar script: ranges, listings and event times *)

Module CalendarScriptFacts.

Import Js Proc Calendar.Jxa Laws JsFacts CalendarFacts.
Local Open Scope Z_scope.

(** X21.  A date range accepted by [normalizeDateRange] is never empty:
    its start is strictly before its end.  A missing (or falsy) start is
    the current time, and a missing end is exactly seven days after the
    start. *)
Theorem normalizeDateRange_ordered (h : Host) (payload : value) (s e : Z) :
  normalizeDateRange h payload = inr (s, e) ->
  s < e
  /\ (truthy (prop payload "start") = false -> s = now h)
  /\ (truthy (prop payload "end") = false -> e = s + 604800000).
Proof.
  unfold normalizeDateRange.
  destruct (truthy (prop payload "start")) eqn:Hs.
  - destruct (parseDateInput h (FromJson (prop payload "start")) "payload.start")
      as [err|s0]; [discriminate|].
    destruct (truthy (prop payload "end")) eqn:He.
    + destruct (parseDateInput h (FromJson (prop payload "end")) "payload.end")
        as [err|e0]; [discriminate|].
      destruct (Z.ltb_spec s0 e0) as [Hlt|]; [|discriminate].
      intros Heq. injection Heq as <- <-.
      split; [exact Hlt|]. split; intros Hf; discriminate Hf.
    + unfold TimeClip. destruct (Z.abs (s0 + 7 * 24 * 60 * 60 * 1000) <=? maxTime);
        [|discriminate].
      destruct (Z.ltb_spec s0 (s0 + 7 * 24 * 60 * 60 * 1000)) as [Hlt|]; [|discriminate].
      intros Heq. injection Heq as <- <-.
      split; [lia|]. split; [intros Hf; discriminate Hf | intros _; lia].
  - destruct (truthy (prop payload "end")) eqn:He.
    + destruct (parseDateInput h (FromJson (prop payload "end")) "payload.end")
        as [err|e0]; [discriminate|].
      destruct (Z.ltb_spec (now h) e0) as [Hlt|]; [|discriminate].
      intros Heq. injection Heq as <- <-.
      split; [exact Hlt|]. split; [reflexivity | intros Hf; discriminate Hf].
    + unfold TimeClip. destruct (Z.abs (now h + 7 * 24 * 60 * 60 * 1000) <=? maxTime);
        [|discriminate].
      destruct (Z.ltb_spec (now h) (now h + 7 * 24 * 60 * 60 * 1000)) as [Hlt|];
        [|discriminate].
      intros Heq. injection Heq as <- <-.
      split; [lia|]. split; [reflexivity | intros _; lia].
Qed.

Lemma normalizeDateRange_ordered_witness :
  Examples.t1000 < Examples.t1000 + 604800000
  /\ (truthy (prop (JObj [("start", JNum Examples.t1000)]) "start") = false ->
      Examples.t1000 = now (Examples.jxaHost Examples.fixedZone))
  /\ (truthy (prop (JObj [("start", JNum Examples.t1000)]) "end") = false ->
      Examples.t1000 + 604800000 = Examples.t1000 + 604800000).
Proof.
  apply (normalizeDateRange_ordered (Examples.jxaHost Examples.fixedZone)
           (JObj [("start", JNum Examples.t1000)])).
  reflexivity.
Defined.

(** *** The limit *)

Lemma clampPositiveInt_bounds (v : value) (fallback max : Z) :
  1 <= fallback <= max -> 1 <= clampPositiveInt v fallback max <= max.
Proof.
  intros Hfb. unfold clampPositiveInt.
  set (n := match match v with
                  | JNum k => Some k
                  | JStr s => if String.eqb (trim s) "" then Some fallback
                              else parseInt (trim s)
                  | _ => Some fallback
                  end with
            | Some k => if k <=? 0 then fallback else k
            | None => fallback
            end).
  assert (Hn : 1 <= n).
  { subst n. destruct (match v with
                       | JNum k => Some k
                       | JStr s => if String.eqb (trim s) "" then Some fallback
                                   else parseInt (trim s)
                       | _ => Some fallback
                       end) as [k|]; [|lia].
    destruct (Z.leb_spec k 0); lia. }
  destruct (Z.ltb_spec max n); lia.
Qed.

(** *** The order of a listing *)

Lemma insertRow_chronological (h : Host) (x : row) (l : list row) :
  chronological l -> chronological (insertRow h x l).
Proof.
  induction l as [|y rest IH]; simpl; intros Hl.
  - split; [constructor | exact I].
  - destruct Hl as (Hy & Hrest).
    assert (Hkey : forall a b, compareRows h a b <= 0 -> startKey a <= startKey b).
    { intros a b. unfold compareRows, startKey.
      destruct (Z.eqb_spec (nullish (start a) 0) (nullish (start b) 0)); simpl; lia. }
    assert (Hkey' : forall a b, 0 < compareRows h a b -> startKey b <= startKey a).
    { intros a b. unfold compareRows, startKey.
      destruct (Z.eqb_spec (nullish (start a) 0) (nullish (start b) 0)); simpl; lia. }
    destruct (Z.leb_spec (compareRows h x y) 0) as [Hle|Hgt].
    + simpl. split; [|split; assumption].
      constructor; [apply Hkey, Hle|].
      apply Forall_impl with (2 := Hy). intros b Hb. specialize (Hkey x y Hle). lia.
    + simpl. split; [|apply IH, Hrest].
      apply (Permutation_Forall (Permutation_sym (insertRow_perm h x rest))).
      constructor; [apply Hkey', Hgt | exact Hy].
Qed.

Lemma sortRows_chronological (h : Host) (l : list row) : chronological (sortRows h l).
Proof.
  induction l as [|x rest IH]; simpl; [exact I|].
  apply insertRow_chronological, IH.
Qed.

Lemma firstn_chronological (n : nat) (l : list row) :
  chronological l -> chronological (firstn n l).
Proof.
  revert l. induction n as [|n IH]; intros [|a rest]; simpl; try tauto.
  intros (Ha & Hrest). split; [|apply IH, Hrest].
  apply Forall_forall. intros b Hb. rewrite Forall_forall in Ha.
  apply Ha. apply (firstn_incl n rest b Hb).
Qed.

Lemma orStr_nonempty (a b : option string) (s : string) :
  orStr a b = Some s -> b = None -> s <> "".
Proof.
  unfold orStr. intros H ->. destruct a as [t|]; [|discriminate].
  destruct (String.eqb_spec t ""); [discriminate|]. congruence.
Qed.

(** X22.  A listing is cut to the limit and sorted: it holds at most
    [limit] rows, a limit that is at least 1 and at most 500 whatever the
    payload says; [count] is the number of rows; the rows are in
    chronological order of their start; each has a non-empty id, and
    carries notes only when [includeNotes] is [true]. *)
Theorem listing_is_bounded_and_sorted (h : Host) (app : App) (payload : value)
    (action : string) (l : listing) :
  listEvents h app payload action = inr l ->
  let limit := clampPositiveInt (prop payload "limit") 50 500 in
  1 <= limit <= 500
  /\ Z.of_nat (length (items l)) <= limit
  /\ count l = Z.of_nat (length (items l))
  /\ chronological (items l)
  /\ (forall r, In r (items l) ->
        (exists i, id r = Some i /\ i <> ""%string)
        /\ (isTrue (prop payload "includeNotes") = false -> notes r = None))
  /\ l_action l = action.
Proof.
  intros Hl limit.
  assert (Hlimit : 1 <= limit <= 500) by (apply clampPositiveInt_bounds; lia).
  pose proof (listEvents_items h app payload action l Hl) as Hitems.
  fold limit in Hitems.
  split; [exact Hlimit|].
  split. { rewrite Hitems, length_firstn. lia. }
  split.
  { unfold listEvents in Hl.
    destruct (normalizeDateRange h payload) as [err|[rs re]]; [discriminate|].
    injection Hl as <-. reflexivity. }
  split. { rewrite Hitems. apply firstn_chronological, sortRows_chronological. }
  split.
  - intros r Hr. rewrite Hitems in Hr. apply firstn_incl in Hr.
    apply (Permutation_in _ (sortRows_perm h _)) in Hr.
    apply collect_In in Hr. destruct Hr as (cal & ev & _ & _ & Hkeep).
    apply keepEvent_sound in Hkeep. destruct Hkeep as (Hr & Hid & _).
    split.
    + destruct (id (eventToJson ev (cal_name cal))) as [i|] eqn:Ei; [|contradiction].
      exists i. split.
      * rewrite Hr. destruct (isTrue (prop payload "includeNotes")); exact Ei.
      * unfold eventToJson in Ei. cbn [id] in Ei. apply (orStr_nonempty _ _ _ Ei eq_refl).
    + intros Hno. rewrite Hr, Hno. reflexivity.
  - unfold listEvents in Hl.
    destruct (normalizeDateRange h payload) as [err|[rs re]]; [discriminate|].
    injection Hl as <-. reflexivity.
Qed.

Lemma listing_is_bounded_and_sorted_witness :
  exists l,
    listEvents (Examples.jxaHost Examples.fixedZone)
      (Examples.appWith [Examples.E2; Examples.E3; Examples.E1])
      (JObj [("start", JNum Examples.t1000); ("end", JNum Examples.t1200);
             ("limit", JStr "2")])
      "list_events" = inr l
    /\ Z.of_nat (length (items l)) <= 2
    /\ count l = Z.of_nat (length (items l))
    /\ chronological (items l)
    /\ map title (items l) = [Some "Standup"; Some "Planning"]%string.
Proof.
  eexists. split; [vm_compute; reflexivity|].
  match goal with
  | |- _ <= _ /\ count ?l = _ /\ _ =>
      destruct (listing_is_bounded_and_sorted (Examples.jxaHost Examples.fixedZone)
                  (Examples.appWith [Examples.E2; Examples.E3; Examples.E1])
                  (JObj [("start", JNum Examples.t1000); ("end", JNum Examples.t1200);
                         ("limit", JStr "2")])
                  "list_events" l)
        as (_ & Hlen & Hcount & Hsorted & _)
  end.
  - vm_compute. reflexivity.
  - split; [exact Hlen|]. split; [exact Hcount|]. split; [exact Hsorted|]. reflexivity.
Defined.

(** *** Event times *)

Lemma ensureEventTimes_ordered (h : Host) (startIn endIn : dinput) (allDay : bool)
    (t : event_times) :
  ensureEventTimes h startIn endIn allDay = inr t ->
  t_start t < t_end t
  /\ t_allDay t = allDay
  /\ parseDateInput h startIn "payload.start" = inr (t_start t).
Proof.
  unfold ensureEventTimes.
  destruct (parseDateInput h startIn "payload.start") as [err|s]; [discriminate|].
  destruct (if dtruthy endIn
            then match parseDateInput h endIn "payload.end" with
                 | inl err => inl err
                 | inr e => inr (Some e)
                 end
            else inr (setHours h s (getHours h s + (if allDay then 24 else 1))))
    as [err|[e|]]; try discriminate.
  destruct (Z.ltb_spec s e) as [Hlt|]; [|discriminate].
  intros Heq. injection Heq as <-. cbn [t_start t_end t_allDay]. auto.
Qed.

(** X23.  Whatever path sets the times of an event, the start is strictly
    before the end: for a new event ([createEvent]), whose title is
    trimmed and not empty, and for an update that merges the payload with
    the current times of the event ([updateEvent]). *)
Theorem event_times_are_ordered (h : Host) (app : App) (defaultCalendar payload : value)
    (ev : raw_event) :
  (forall p, createEvent h app defaultCalendar payload = inr p ->
             p_startDate p < p_endDate p
             /\ p_summary p <> ""%string
             /\ trim (p_summary p) = p_summary p)
  /\ (forall t, updateEventTimes h payload ev = inr t -> t_start t < t_end t)
  /\ (forall t, ensureEventTimesOf h payload = inr t ->
                t_start t < t_end t /\ t_allDay t = payloadAllDay payload).
Proof.
  split; [|split].
  - intros p Hp.
    pose proof (createEvent_times h app defaultCalendar payload p Hp) as Htimes.
    apply ensureEventTimes_ordered in Htimes. cbn [t_start t_end] in Htimes.
    split; [apply Htimes|].
    unfold createEvent in Hp.
    assert (Hnamed : forall v t,
              match v with
              | JStr s => if String.eqb (trim s) "" then None else Some (trim s)
              | _ => None
              end = Some t -> t <> ""%string /\ trim t = t).
    { intros v t Hv. destruct v; try discriminate.
      destruct (String.eqb_spec (trim s) "") as [|Hne]; [discriminate|].
      injection Hv as <-. split; [exact Hne | apply HelperFacts.trim_idempotent]. }
    destruct (match prop payload "title" with
              | JStr s => if String.eqb (trim s) "" then None else Some (trim s)
              | _ => None
              end) as [t|] eqn:Et.
    + destruct (pickTargetCalendar app defaultCalendar payload); [discriminate|].
      destruct (ensureEventTimesOf h payload); [discriminate|].
      injection Hp as <-. cbn [p_summary]. apply (Hnamed _ _ Et).
    + destruct (match prop payload "summary" with
                | JStr s => if String.eqb (trim s) "" then None else Some (trim s)
                | _ => None
                end) as [t|] eqn:Es; [|discriminate].
      destruct (pickTargetCalendar app defaultCalendar payload); [discriminate|].
      destruct (ensureEventTimesOf h payload); [discriminate|].
      injection Hp as <-. cbn [p_summary]. apply (Hnamed _ _ Es).
  - intros t Ht. unfold updateEventTimes in Ht.
    apply ensureEventTimes_ordered in Ht. apply Ht.
  - intros t Ht. unfold ensureEventTimesOf in Ht.
    apply ensureEventTimes_ordered in Ht. split; apply Ht.
Qed.

Lemma event_times_are_ordered_witness :
  exists p,
    createEvent (Examples.jxaHost Examples.fixedZone) (Examples.appWith []) JUndef
      (JObj [("title", JStr " Offsite "); ("start", JStr "2024-11-03");
             ("allDay", JBool true)])
    = inr p
    /\ p_startDate p < p_endDate p
    /\ p_summary p <> ""%string
    /\ trim (p_summary p) = p_summary p.
Proof.
  eexists. split; [vm_compute; reflexivity|].
  destruct (event_times_are_ordered (Examples.jxaHost Examples.fixedZone)
              (Examples.appWith []) JUndef
              (JObj [("title", JStr " Offsite "); ("start", JStr "2024-11-03");
                     ("allDay", JBool true)])
              Examples.E1) as (Hcreate & _).
  apply Hcreate. vm_compute. reflexivity.
Defined.

(** *** Choosing calendars *)

(** X24.  [pickTargetCalendar] takes the calendar named in the payload,
    else the configured default, and fails when no calendar has that
    name; without a name it takes the first writable calendar, and a
    read-only one only when no calendar is writable. *)
Theorem pickTargetCalendar_prefers_writable (app : App) (defaultCalendar payload : value)
    (c : calendar) :
  pickTargetCalendar app defaultCalendar payload = inr c ->
  (exists name, name <> ""%string
                /\ (readString (prop payload "calendar") = Some name
                    \/ (readString (prop payload "calendar") = None
                        /\ readString defaultCalendar = Some name))
                /\ exists rest, calendarsNamed app name = c :: rest)
  \/ (readString (prop payload "calendar") = None
      /\ readString defaultCalendar = None
      /\ In c (calendars app)
      /\ (cal_writable c = true
          \/ forall c', In c' (calendars app) -> cal_writable c' = false)).
Proof.
  unfold pickTargetCalendar.
  assert (Hread : forall v,
            match v with
            | JStr s => if String.eqb (trim s) "" then None else Some (trim s)
            | _ => None
            end = readString v).
  { intros v. destruct v; reflexivity. }
  rewrite !Hread.
  destruct (readString (prop payload "calendar")) as [name|] eqn:Ereq.
  - destruct (calendarsNamed app name) as [|c0 rest] eqn:En; [discriminate|].
    intros Heq. injection Heq as <-. left. exists name.
    split; [apply (HelperFacts.readString_nonempty _ _ Ereq)|].
    split; [left; reflexivity | exists rest; exact En].
  - destruct (readString defaultCalendar) as [name|] eqn:Edef.
    + destruct (calendarsNamed app name) as [|c0 rest] eqn:En; [discriminate|].
      intros Heq. injection Heq as <-. left. exists name.
      split; [apply (HelperFacts.readString_nonempty _ _ Edef)|].
      split; [right; split; reflexivity | exists rest; exact En].
    + destruct (filter cal_writable (calendars app)) as [|c0 rest] eqn:Ew.
      * destruct (calendars app) as [|c0 rest] eqn:Eall; [discriminate|].
        intros Heq. injection Heq as <-. right.
        split; [reflexivity|]. split; [reflexivity|]. split; [now left|].
        right. intros c' Hin.
        destruct (cal_writable c') eqn:Ec; [|reflexivity].
        assert (Hf : In c' (filter cal_writable (c0 :: rest))).
        { apply filter_In. split; assumption. }
        rewrite Ew in Hf. destruct Hf.
      * intros Heq. injection Heq as <-. right.
        split; [reflexivity|]. split; [reflexivity|].
        assert (Hin : In c0 (filter cal_writable (calendars app))).
        { rewrite Ew. now left. }
        apply filter_In in Hin. destruct Hin as (Hin & Hw).
        split; [exact Hin | left; exact Hw].
Qed.

Lemma pickTargetCalendar_prefers_writable_witness :
  pickTargetCalendar Samples.twoCalendars JUndef (JObj []) = inr Examples.workCalendar
  /\ ((exists name, name <> ""%string
                    /\ (readString (prop (JObj []) "calendar") = Some name
                        \/ (readString (prop (JObj []) "calendar") = None
                            /\ readString JUndef = Some name))
                    /\ exists rest,
                         calendarsNamed Samples.twoCalendars name
                         = Examples.workCalendar :: rest)
      \/ (readString (prop (JObj []) "calendar") = None
          /\ readString JUndef = None
          /\ In Examples.workCalendar (calendars Samples.twoCalendars)
          /\ (cal_writable Examples.workCalendar = true
              \/ forall c', In c' (calendars Samples.twoCalendars) ->
                            cal_writable c' = false))).
Proof.
  split; [reflexivity|].
  apply (pickTargetCalendar_prefers_writable Samples.twoCalendars JUndef (JObj [])).
  reflexivity.
Defined.

Lemma dedup_spec (seen names : list string) :
  (forall n, In n (dedup seen names) <-> In n names /\ ~ In n seen)
  /\ NoDup (dedup seen names).
Proof.
  revert seen. induction names as [|x rest IH]; intros seen; simpl.
  - split; [intros n; tauto | constructor].
  - destruct (existsb (String.eqb x) seen) eqn:Ex.
    + apply existsb_exists in Ex. destruct Ex as (y & Hy & Hxy).
      apply String.eqb_eq in Hxy. subst y.
      destruct (IH seen) as (Hin & Hnd). split; [|exact Hnd].
      intros n. rewrite Hin. split; [tauto|].
      intros ([<- | Hn] & Hs); [contradiction | tauto].
    + assert (Hx : ~ In x seen).
      { intros Hx. assert (Ht : existsb (String.eqb x) seen = true).
        { apply existsb_exists. exists x. split; [exact Hx | apply String.eqb_refl]. }
        rewrite Ht in Ex. discriminate Ex. }
      destruct (IH (x :: seen)) as (Hin & Hnd). split.
      * intros n. simpl. rewrite Hin. simpl. split.
        -- intros [<- | (Hn & Hs)]; [tauto|]. split; [tauto|]. intros Hs'. apply Hs. now right.
        -- intros ([<- | Hn] & Hs); [now left|].
           destruct (String.eqb_spec x n) as [->|Hne]; [now left|].
           right. split; [exact Hn|]. intros [Hxn | Hs']; [contradiction | contradiction].
      * constructor; [|exact Hnd]. rewrite Hin. simpl. tauto.
Qed.

(** X25.  [selectCalendars] asks Calendar.app for each requested name
    once: with no usable name it returns every calendar, otherwise the
    calendars found under the distinct names, and each of them was found
    under a name that the payload gives (trimmed, in [calendar] or in
    [calendars]). *)
Theorem selectCalendars_by_name (app : App) (payload : value) :
  let names :=
    (match readString (prop payload "calendar") with Some c => [c] | None => [] end
     ++ readStringArray (prop payload "calendars"))%list in
  (names = [] -> selectCalendars app payload = calendars app)
  /\ (names <> [] ->
      exists unique,
        selectCalendars app payload = flat_map (calendarsNamed app) unique
        /\ NoDup unique
        /\ (forall n, In n unique <-> In n names)
        /\ forall c, In c (selectCalendars app payload) ->
                     exists n, In n names /\ n <> ""%string /\ In c (calendarsNamed app n)).
Proof.
  cbv zeta. unfold selectCalendars.
  assert (Hone : match prop payload "calendar" with
                 | JStr c => if String.eqb (trim c) "" then [] else [trim c]
                 | _ => []
                 end
                 = match readString (prop payload "calendar") with
                   | Some c => [c]
                   | None => []
                   end).
  { destruct (prop payload "calendar"); try reflexivity. simpl.
    destruct (String.eqb (trim s) ""); reflexivity. }
  assert (Hmany : match prop payload "calendars" with
                  | JArr l =>
                      filter_map (fun v => match v with
                                           | JStr c => if String.eqb (trim c) "" then None
                                                       else Some (trim c)
                                           | _ => None
                                           end) l
                  | _ => []
                  end = readStringArray (prop payload "calendars")).
  { destruct (prop payload "calendars"); reflexivity. }
  rewrite Hone, Hmany.
  set (names := (match readString (prop payload "calendar") with
                 | Some c => [c]
                 | None => []
                 end ++ readStringArray (prop payload "calendars"))%list).
  destruct (dedup_spec [] names) as (Hin & Hnd).
  split.
  - intros ->. reflexivity.
  - intros Hne.
    assert (Hsame : forall n, In n (dedup [] names) <-> In n names).
    { intros n. rewrite Hin. simpl. tauto. }
    destruct (dedup [] names) as [|u rest] eqn:Ed.
    { destruct names as [|n0 ns]; [contradiction|].
      exfalso. apply (proj2 (Hsame n0)). now left. }
    exists (u :: rest). split; [reflexivity|]. split; [exact Hnd|]. split; [exact Hsame|].
    intros c Hc. apply in_flat_map in Hc. destruct Hc as (n & Hn & Hc).
    exists n. split; [apply Hsame, Hn|]. split; [|exact Hc].
    apply Hsame in Hn. subst names. apply in_app_or in Hn. destruct Hn as [Hn|Hn].
    + destruct (readString (prop payload "calendar")) as [c0|] eqn:E; [|destruct Hn].
      destruct Hn as [<-|[]]. apply (HelperFacts.readString_nonempty _ _ E).
    + unfold readStringArray in Hn. destruct (prop payload "calendars"); try destruct Hn.
      apply filter_map_In in Hn. destruct Hn as (v & _ & Hv).
      apply (HelperFacts.readString_nonempty _ _ Hv).
Qed.

Lemma selectCalendars_by_name_witness :
  let payload := JObj [("calendar", JStr " Work ");
                       ("calendars", JArr [JStr "Work"; JNum 3; JStr "Holidays"])] in
  exists unique,
    selectCalendars Samples.twoCalendars payload
    = flat_map (calendarsNamed Samples.twoCalendars) unique
    /\ NoDup unique
    /\ (forall n, In n unique <-> In n ["Work"; "Work"; "Holidays"]%string)
    /\ forall c, In c (selectCalendars Samples.twoCalendars payload) ->
                 exists n, In n ["Work"; "Work"; "Holidays"]%string /\ n <> ""%string
                           /\ In c (calendarsNamed Samples.twoCalendars n).
Proof.
  intros payload.
  destruct (selectCalendars_by_name Samples.twoCalendars payload) as (_ & Hsome).
  apply Hsome. vm_compute. discriminate.
Defined.

End CalendarScriptFacts.

(** ** The calendar adapter: the Node entry point *)

Module CalendarProcessFacts.

Import Js Proc Calendar Laws JsFacts.
Local Open Scope proc_scope.

Lemma payload_is_record (h : Host) (envelope : value) :
  isRecord (payload (resolveAdapterSettings h envelope)) = true.
Proof.
  unfold resolveAdapterSettings. cbn [payload].
  destruct (isRecord (prop envelope "payload")) eqn:E; [exact E | reflexivity].
Qed.

Lemma scriptSucceeded_spec (h : Host) (o : spawned) :
  scriptSucceeded h o = true
  <-> exists r, o = Closed r
                /\ code r = Some 0%Z
                /\ isRecord (parseJsonOrUndefined h (stdout r)) = true
                /\ prop (parseJsonOrUndefined h (stdout r)) "ok" = JBool true.
Proof.
  split.
  - destruct o as [e|r|r]; simpl; intros H; try discriminate H.
    exists r. split; [reflexivity|].
    destruct (code r) as [[|p|p]|]; try discriminate H.
    destruct (isRecord (parseJsonOrUndefined h (stdout r))); try discriminate H.
    destruct (prop (parseJsonOrUndefined h (stdout r)) "ok") as [| |[|]| | | |];
      try discriminate H.
    repeat split.
  - intros (r & -> & Hcode & Hrec & Hflag). simpl. rewrite Hcode, Hrec, Hflag. reflexivity.
Qed.

(** The one [osascript] run of a request: the adapter dies when the child
    is gone before the script is written to it, and answers otherwise. *)
Lemma dispatch_effect (h : Host) (envelope : value) (action : string) (w : world) :
  let c := calendarCall h envelope in
  let o := osascript h (calls w) c in
  (exists r0, o = Gone r0
              /\ dispatch h envelope action w
                 = (Exit JUndef 1%Z, {| calls := calls w ++ [c] |}))
  \/ ((forall r0, o <> Gone r0)
      /\ exists res,
           dispatch h envelope action w = (Ret res, {| calls := calls w ++ [c] |})
           /\ exitCode res = (if scriptSucceeded h o then 0%Z else 3%Z)
           /\ prop (body res) "ok" = JBool (scriptSucceeded h o)
           /\ prop (body res) "domain" = JStr "calendar"
           /\ prop (body res) "action" = JStr action
           /\ prop (body res) "adapter" = JStr "macos-calendar-jxa").
Proof.
  cbv zeta. unfold dispatch. rewrite payload_is_record, Bool.andb_false_r.
  unfold bind, try_catch, runJxaCalendar, ret, die. fold (calendarCall h envelope).
  destruct (osascript h (calls w) (calendarCall h envelope)) as [e|r|r0].
  - right. split; [intros r0 H; discriminate H|].
    eexists. split; [reflexivity|]. cbn [exitCode body scriptSucceeded]. repeat split.
  - right. split; [intros r0 H; discriminate H|].
    eexists. split; [reflexivity|]. cbn [exitCode body negb andb scriptSucceeded].
    set (parsed := parseJsonOrUndefined h (stdout r)).
    destruct (match code r with Some 0%Z => true | _ => false end); cbn [andb].
    2: { split; [reflexivity|].
         destruct (isRecord parsed && isRecord (prop parsed "data"));
           destruct (if isRecord parsed then prop parsed "error" else JUndef);
           repeat split. }
    rewrite (Bool.andb_comm (isRecord parsed)).
    destruct (match prop parsed "ok" with JBool true => true | _ => false end);
      destruct (isRecord parsed); cbn [andb];
      (split; [reflexivity|]);
      destruct (isRecord (prop parsed "data"));
      destruct (prop parsed "error"); cbn [andb]; repeat split.
  - left. exists r0. split; reflexivity.
Qed.

(** An [osascript] that is gone before the script is written to it ends
    the adapter with exit code 1 and nothing printed. *)
Lemma calendar_run_dies_when_osascript_is_gone :
  let r := run Samples.goneCalendarHost "list-calendars" Examples.calendarWorld in
  fst r = {| stdout_json := JUndef; exit_code := 1 |}
  /\ List.map argv (calls (snd r)) = [["/usr/bin/osascript"; "-l"; "JavaScript"]].
Proof. vm_compute. split; reflexivity. Qed.

(** X26.  Whatever the action, the calendar router runs the script exactly
    once, through [osascript -l JavaScript], handing it the envelope's action
    and a payload that is always an object (so that its own refusal
    [payload must be an object] cannot occur).  When the child is gone
    before the script could be written to it, the adapter dies: exit
    code 1 and nothing printed.  Otherwise it answers: the answer has
    exit code 0 or 3 and echoes the request; [ok] is [true] exactly when
    the exit code is 0, which is exactly when [osascript] exited with 0
    and the script printed an object with [ok = true]. *)
Theorem calendar_dispatch_runs_script_once (h : Host) (envelope : value) (action : string)
    (w : world) :
  let s := resolveAdapterSettings h envelope in
  exists out c,
    dispatch h envelope action w = (out, {| calls := calls w ++ [c] |})
    /\ argv c = [osascriptBin s; "-l"; "JavaScript"]
    /\ prop (request c) "action" = prop envelope "action"
    /\ prop (request c) "payload" = payload s
    /\ isRecord (payload s) = true
    /\ (((exists r0, osascript h (calls w) c = Gone r0) /\ out = Exit JUndef 1%Z)
        \/ ((forall r0, osascript h (calls w) c <> Gone r0)
            /\ exists res,
                 out = Ret res
                 /\ (exitCode res = 0 \/ exitCode res = 3)%Z
                 /\ (exitCode res = 0%Z <-> prop (body res) "ok" = JBool true)
                 /\ (exitCode res = 3%Z <-> prop (body res) "ok" = JBool false)
                 /\ prop (body res) "domain" = JStr "calendar"
                 /\ prop (body res) "action" = JStr action
                 /\ (exitCode res = 0%Z <->
                     exists r, osascript h (calls w) c = Closed r
                               /\ code r = Some 0%Z
                               /\ isRecord (parseJsonOrUndefined h (stdout r)) = true
                               /\ prop (parseJsonOrUndefined h (stdout r)) "ok"
                                  = JBool true))).
Proof.
  cbv zeta. set (c := calendarCall h envelope).
  destruct (dispatch_effect h envelope action w)
    as [(r0 & Ho & Hrun)
       | (Hno & res & Hrun & Hexit & Hok & Hdomain & Haction & _)].
  - exists (Exit JUndef 1%Z), c.
    split; [exact Hrun|]. split; [reflexivity|]. split; [reflexivity|].
    split; [reflexivity|]. split; [apply payload_is_record|].
    left. split; [exists r0; exact Ho | reflexivity].
  - exists (Ret res), c.
    split; [exact Hrun|]. split; [reflexivity|]. split; [reflexivity|].
    split; [reflexivity|]. split; [apply payload_is_record|].
    right. split; [exact Hno|]. exists res. split; [reflexivity|].
    rewrite Hexit, Hok. subst c.
    pose proof (scriptSucceeded_spec h (osascript h (calls w) (calendarCall h envelope)))
      as Hspec.
    destruct (scriptSucceeded h (osascript h (calls w) (calendarCall h envelope))).
    + split; [auto|]. split; [split; reflexivity|].
      split; [split; intros H; discriminate H|].
      split; [exact Hdomain|]. split; [exact Haction|].
      split; [intros _; apply Hspec; reflexivity | reflexivity].
    + split; [auto|]. split; [split; intros H; discriminate H|].
      split; [split; reflexivity|].
      split; [exact Hdomain|]. split; [exact Haction|].
      split; [intros H; discriminate H | intros Hex; apply Hspec in Hex; discriminate Hex].
Qed.

Ltac early_exit :=
  cbn [fst snd exit_code stdout_json];
  split; [auto 6|];
  split; [split; intros H; discriminate H|];
  split; [intros _; reflexivity|];
  split; [intros H; first [discriminate H | left; split; reflexivity]|];
  intros [H|H]; discriminate H.

Lemma calendar_run_law (h : Host) (stdin : string) (w : world) :
  let r := run h stdin w in
  (exit_code (fst r) = 0 \/ exit_code (fst r) = 1 \/ exit_code (fst r) = 2
   \/ exit_code (fst r) = 3)%Z
  /\ (exit_code (fst r) = 0%Z <-> prop (stdout_json (fst r)) "ok" = JBool true)
  /\ (exit_code (fst r) = 2%Z -> snd r = w)
  /\ (exit_code (fst r) = 1%Z ->
      (snd r = w /\ prop (stdout_json (fst r)) "ok" = JBool false)
      \/ (stdout_json (fst r) = JUndef
          /\ exists c r0, osascript h (calls w) c = Gone r0
                          /\ calls (snd r) = calls w ++ [c]))
  /\ (exit_code (fst r) = 0%Z \/ exit_code (fst r) = 3%Z ->
      exists c, calls (snd r) = calls w ++ [c]
                /\ forall r0, osascript h (calls w) c <> Gone r0).
Proof.
  cbv zeta. unfold run, main, bind, readJsonStdin, throw, ret, writeAndExit.
  destruct (String.eqb (trim stdin) ""); [early_exit|].
  destruct (JSON_parse h (trim stdin)) as [envelope|]; [|early_exit].
  destruct (negb (isRecord envelope)); [early_exit|].
  destruct (readString (prop envelope "action")) as [action|]; [|early_exit].
  destruct (negb (existsb (String.eqb action) supportedActions)); [early_exit|].
  destruct (dispatch_effect h envelope action w)
    as [(r0 & Ho & Hrun) | (Hno & res & Hrun & Hexit & Hok & _)];
    rewrite Hrun; cbn [fst snd exit_code stdout_json calls].
  - split; [auto|]. split; [split; intros H; discriminate H|].
    split; [intros H; discriminate H|].
    split; [|intros [H|H]; discriminate H].
    intros _. right. split; [reflexivity|].
    exists (calendarCall h envelope), r0. split; [exact Ho | reflexivity].
  - rewrite Hexit, Hok.
    destruct (scriptSucceeded h (osascript h (calls w) (calendarCall h envelope))).
    + split; [auto|]. split; [split; reflexivity|].
      split; [intros H; discriminate H|]. split; [intros H; discriminate H|].
      intros _. exists (calendarCall h envelope). split; [reflexivity | exact Hno].
    + split; [auto 6|]. split; [split; intros H; discriminate H|].
      split; [intros H; discriminate H|]. split; [intros H; discriminate H|].
      intros _. exists (calendarCall h envelope). split; [reflexivity | exact Hno].
Qed.


End CalendarProcessFacts.

(** ** The plugin side: configuration and the callers of the adapters *)

Module CallerFacts.

Import Js Proc Laws JsFacts HelperFacts.

Lemma config_positive (v : value) (fallback : Z) :
  (0 < fallback)%Z -> (0 < Config.readPositiveInt v fallback)%Z.
Proof.
  intros Hfb. unfold Config.readPositiveInt. destruct v; try exact Hfb.
  destruct (Z.ltb_spec 0 n); assumption.
Qed.

Lemma readString_not_blank (v : value) : readString v <> Some "".
Proof. intros H. exact (readString_nonempty v "" H eq_refl). Qed.

Lemma normalizeAdapter_usable (raw : value) :
  let a := Config.normalizeAdapter raw in
  (0 < Config.timeoutMs a)%Z
  /\ Config.command a <> Some ""
  /\ Config.cwd a <> Some ""
  /\ Forall (fun s => s <> "") (Config.args a)
  /\ Config.env a <> Some [].
Proof.
  cbv zeta. unfold Config.normalizeAdapter.
  cbn [Config.timeoutMs Config.command Config.cwd Config.args Config.env].
  split; [apply config_positive; reflexivity|].
  split; [apply readString_not_blank|].
  split; [apply readString_not_blank|].
  split; [apply readStringArray_nonempty|].
  unfold Config.readStringMap.
  destruct (prop (Config.asObject raw) "env"); try discriminate.
  destruct (filter_map _ fields); discriminate.
Qed.

(** X28.  Whatever the plugin configuration holds, the configuration
    that [readMyOpsConfig] returns can be used as it is: every adapter has
    a positive timeout, a command and a working directory that are not
    blank when present, arguments that are not blank and an environment
    that is not empty when present; the service interval and the output
    limit are positive.  A configuration that is no object gives the
    defaults: adapters enabled but without a command, 30 s timeouts, a
    300 s interval and a 4000 character limit. *)
Theorem config_is_usable (raw : value) :
  let c := Config.readMyOpsConfig raw in
  Forall (fun a => (0 < Config.timeoutMs a)%Z
                   /\ Config.command a <> Some ""
                   /\ Config.cwd a <> Some ""
                   /\ Forall (fun s => s <> "") (Config.args a)
                   /\ Config.env a <> Some [])
         [Config.calendar c; Config.mail c; Config.mowen c]
  /\ (0 < Config.tickSeconds (Config.service c))%Z
  /\ (0 < Config.maxOutputChars (Config.observability c))%Z
  /\ Forall (fun s => s <> "") (Config.roots (Config.localFiles c))
  /\ Config.inboxPath (Config.localFiles c) <> Some ""
  /\ (isRecord raw = false ->
      Forall (fun a => Config.enabled a = true /\ Config.command a = None
                       /\ Config.args a = [] /\ Config.timeoutMs a = 30000%Z)
             [Config.calendar c; Config.mail c; Config.mowen c]
      /\ Config.tickSeconds (Config.service c) = 300%Z
      /\ Config.maxOutputChars (Config.observability c) = 4000%Z
      /\ Config.roots (Config.localFiles c) = []).
Proof.
  cbv zeta. split.
  { unfold Config.readMyOpsConfig. cbn [Config.calendar Config.mail Config.mowen].
    repeat constructor; apply normalizeAdapter_usable. }
  unfold Config.readMyOpsConfig.
  cbn [Config.service Config.observability Config.localFiles Config.tickSeconds
       Config.maxOutputChars Config.roots Config.inboxPath Config.calendar Config.mail
       Config.mowen].
  split; [apply config_positive; reflexivity|].
  split; [apply config_positive; reflexivity|].
  split; [apply readStringArray_nonempty|].
  split; [apply readString_not_blank|].
  intros Hraw.
  assert (Ho : Config.asObject raw = JObj []).
  { unfold Config.asObject. rewrite Hraw. reflexivity. }
  rewrite Ho. split; [|repeat split]. repeat constructor.
Qed.

(** *** Success as the callers see it *)

Lemma seen_ok (out : exited) :
  prop (Command.json (Command.runAdapterResult out)) "ok" = prop (stdout_json out) "ok".
Proof.
  unfold Command.runAdapterResult. cbn [Command.json].
  destruct (stdout_json out); reflexivity.
Qed.

Lemma command_ok_agrees (out : exited) :
  (prop (stdout_json out) "ok" = JBool true -> exit_code out = 0%Z) ->
  Command.ok (Command.runAdapterResult out) = Command.toolOk (Some (exit_code out)).
Proof.
  intros Htrue. unfold Command.runAdapterResult, Command.adapterOk, Command.toolOk.
  cbn [Command.ok].
  replace (prop (if isRecord (stdout_json out) then stdout_json out else JUndef) "ok")
    with (prop (stdout_json out) "ok") by (destruct (stdout_json out); reflexivity).
  destruct (prop (stdout_json out) "ok") as [| |[|]| | | |] eqn:E; cbn [orb];
    try reflexivity.
  rewrite (Htrue eq_refl). reflexivity.
Qed.

(** X29.  The chat command counts a run as a success when the adapter
    printed [ok = true] or exited with 0; the agent tool looks at the exit
    code alone.  The two agree on every run of the calendar adapter and of
    the notes adapter, and on every run of the mail adapter that is not a
    [health] request. *)
Theorem callers_agree_on_success :
  (forall h stdin w,
     let out := fst (Calendar.run h stdin w) in
     Command.ok (Command.runAdapterResult out) = Command.toolOk (Some (exit_code out)))
  /\ (forall h stdin w,
        let out := fst (Notes.run h stdin w) in
        Command.ok (Command.runAdapterResult out) = Command.toolOk (Some (exit_code out)))
  /\ (forall h stdin w,
        (forall envelope, Mail.JSON_parse h (trim stdin) = Some envelope ->
                          readString (prop envelope "action") <> Some "health") ->
        let out := fst (Mail.run h stdin w) in
        Command.ok (Command.runAdapterResult out) = Command.toolOk (Some (exit_code out))).
Proof.
  split; [|split].
  - intros h stdin w out. apply command_ok_agrees.
    destruct (CalendarProcessFacts.calendar_run_law h stdin w) as (_ & Hiff & _). apply Hiff.
  - intros h stdin w out. apply command_ok_agrees.
    destruct (NotesProcessFacts.notes_run_law h stdin w) as (_ & (b & Hb & Htrue) & _).
    subst out. rewrite Hb. intros Hok. injection Hok as ->. apply Htrue. reflexivity.
  - intros h stdin w Hnot out. apply command_ok_agrees.
    apply MailProcessFacts.run_ok_iff_zero. exact Hnot.
Qed.

Lemma callers_agree_on_success_witness :
  let out := fst (Mail.run (Examples.mailHost (Examples.always 1)) "send"
                    Examples.mailWorld) in
  Command.ok (Command.runAdapterResult out) = Command.toolOk (Some (exit_code out)).
Proof.
  destruct callers_agree_on_success as (_ & _ & Hmail).
  apply Hmail. intros envelope Hparse. vm_compute in Hparse.
  injection Hparse as <-. vm_compute. discriminate.
Defined.

(** *** The note id *)

Lemma pickId_trimmed (fields : obj) (x : string) :
  get "noteId" fields = JStr x -> x <> "" -> trim x = x ->
  Command.pickId (JObj fields) = Some x.
Proof.
  intros Hget Hne Htrim. unfold Command.pickId. cbn [isRecord negb prop].
  rewrite Hget, Htrim.
  destruct x as [|c r]; [contradiction|]. reflexivity.
Qed.

(** X30.  The note id that the notes adapter found in the API response is
    the note id that the chat command reports: [extractMowenNoteId]
    reads it back from the adapter's answer unchanged. *)
Theorem command_reports_adapter_note_id (originalAction mappedAction path : string)
    (body : value) (response : Notes.api_response) (rateLimit : value)
    (s : Notes.settings) (code : Z) (noteId : string) :
  Notes.extractNoteIdFromResponseJson (Notes.a_json response) = Some noteId ->
  Command.extractMowenNoteId
    (Command.runAdapterResult
       {| stdout_json := Notes.buildApiResult originalAction mappedAction path body
                           response rateLimit s;
          exit_code := code |})
  = Some noteId.
Proof.
  intros Hfound.
  assert (Hshape : noteId <> "" /\ trim noteId = noteId).
  { unfold Notes.extractNoteIdFromResponseJson in Hfound.
    assert (Hkeys : forall v t, Notes.readStringFromKeys v ["noteId"; "note_id"; "id"] = Some t ->
                                t <> "" /\ trim t = t).
    { intros v t Hv. unfold Notes.readStringFromKeys in Hv.
      split; [apply (readString_nonempty _ _ Hv) | apply (readString_fixed _ _ Hv)]. }
    destruct (negb (isRecord (Notes.a_json response))); [discriminate|].
    destruct (Notes.readStringFromKeys (Notes.a_json response) ["noteId"; "note_id"; "id"])
      as [direct|] eqn:Ed.
    { injection Hfound as <-. apply (Hkeys _ _ Ed). }
    assert (Hprobe : forall key t,
              (if isRecord (prop (Notes.a_json response) key)
               then match Notes.readStringFromKeys (prop (Notes.a_json response) key)
                            ["noteId"; "note_id"; "id"] with
                    | Some nestedId => Some nestedId
                    | None =>
                        if isRecord (prop (prop (Notes.a_json response) key) "note")
                        then Notes.readStringFromKeys
                               (prop (prop (Notes.a_json response) key) "note")
                               ["noteId"; "note_id"; "id"]
                        else None
                    end
               else None) = Some t -> t <> "" /\ trim t = t).
    { intros key t Ht.
      destruct (isRecord (prop (Notes.a_json response) key)); [|discriminate].
      destruct (Notes.readStringFromKeys (prop (Notes.a_json response) key) _)
        as [n|] eqn:En.
      - injection Ht as <-. apply (Hkeys _ _ En).
      - destruct (isRecord (prop (prop (Notes.a_json response) key) "note"));
          [|discriminate].
        apply (Hkeys _ _ Ht). }
    cbv zeta in Hfound.
    match type of Hfound with
    | orElse ?a (orElse ?b ?c) = _ =>
        destruct a as [ta|] eqn:Ea; [|destruct b as [tb|] eqn:Eb]
    end; cbn [orElse] in Hfound.
    - injection Hfound as <-. apply (Hprobe "data" _ Ea).
    - injection Hfound as <-. apply (Hprobe "result" _ Eb).
    - apply (Hprobe "note" _ Hfound). }
  destruct Hshape as (Hne & Htrim).
  unfold Command.extractMowenNoteId, Command.runAdapterResult, Notes.buildApiResult.
  cbn [stdout_json Command.json isRecord]. rewrite Hfound.
  rewrite (pickId_trimmed _ noteId); [reflexivity | reflexivity | exact Hne | exact Htrim].
Qed.

Lemma command_reports_adapter_note_id_witness :
  Notes.extractNoteIdFromResponseJson (Notes.a_json Samples.createdResponse) = Some "n-1"
  /\ Command.extractMowenNoteId
       (Command.runAdapterResult
          {| stdout_json :=
               Notes.buildApiResult "create_doc" "create_note"
                 "/api/open/api/v1/note/create" (JObj []) Samples.createdResponse JNull
                 (Notes.resolveSettings (Samples.notesHost (Some "secret"))
                    Samples.createNoteEnvelope);
             exit_code := 0 |})
     = Some "n-1".
Proof.
  split; [reflexivity|].
  apply (command_reports_adapter_note_id "create_doc" "create_note"
           "/api/open/api/v1/note/create" (JObj []) Samples.createdResponse JNull
           (Notes.resolveSettings (Samples.notesHost (Some "secret"))
              Samples.createNoteEnvelope) 0 "n-1").
  reflexivity.
Defined.

End CallerFacts.
